(** * The TLS channel of Modules/_ssl.c: a shallow embedding

    The C module drives an external TLS engine (OpenSSL) over a socket
    that belongs to the caller.  The embedding keeps the control flow of
    the C functions and makes their environment explicit:

    - what the engine and the operating system answer is read from a
      _script_, one [engine_step] per iteration of a retry loop;
    - every call made to the engine is appended to a _call log_;
    - a C function returning [NULL] with an exception set returns [Raise];
      a loop that would still be waiting when the script ends returns
      [Pending].

    Allocation failures of the interpreter are not modelled, and the
    timeout and descriptor of the socket are read as they stand when the
    method is called: one channel is used by one caller at a time.

    The methods of the context object, the password callback, the
    certificate store and the version numbers follow the channel.  There
    the engine's answer to a call is an argument of the method, and the
    switches of the build are the fields of [build]. *)

From Stdlib Require Import ZArith List String Bool Lia QArith.
From Stdlib Require Import DecimalString Ascii.
Import ListNotations.
Local Open Scope string_scope.
Local Open Scope list_scope.
Local Open Scope Z_scope.

(** ** Enumerations of the module *)

Inductive py_ssl_error : Type :=
  | PY_SSL_ERROR_NONE
  | PY_SSL_ERROR_SSL
  | PY_SSL_ERROR_WANT_READ
  | PY_SSL_ERROR_WANT_WRITE
  | PY_SSL_ERROR_WANT_X509_LOOKUP
  | PY_SSL_ERROR_SYSCALL
  | PY_SSL_ERROR_ZERO_RETURN
  | PY_SSL_ERROR_WANT_CONNECT
  | PY_SSL_ERROR_EOF
  | PY_SSL_ERROR_NO_SOCKET
  | PY_SSL_ERROR_INVALID_ERROR_CODE.

(** The integer a C enumerator stands for. *)
Definition py_ssl_error_value (p : py_ssl_error) : Z :=
  match p with
  | PY_SSL_ERROR_NONE => 0
  | PY_SSL_ERROR_SSL => 1
  | PY_SSL_ERROR_WANT_READ => 2
  | PY_SSL_ERROR_WANT_WRITE => 3
  | PY_SSL_ERROR_WANT_X509_LOOKUP => 4
  | PY_SSL_ERROR_SYSCALL => 5
  | PY_SSL_ERROR_ZERO_RETURN => 6
  | PY_SSL_ERROR_WANT_CONNECT => 7
  | PY_SSL_ERROR_EOF => 8
  | PY_SSL_ERROR_NO_SOCKET => 9
  | PY_SSL_ERROR_INVALID_ERROR_CODE => 10
  end.

Inductive py_ssl_server_or_client : Type :=
  | PY_SSL_CLIENT
  | PY_SSL_SERVER.

Inductive timeout_state : Type :=
  | SOCKET_IS_NONBLOCKING
  | SOCKET_IS_BLOCKING
  | SOCKET_HAS_TIMED_OUT
  | SOCKET_HAS_BEEN_CLOSED
  | SOCKET_TOO_LARGE_FOR_SELECT
  | SOCKET_OPERATION_OK.

(** ** Constants of the engine's headers (ssl.h, tls1.h) *)

Definition SSL_ERROR_NONE : Z := 0.
Definition SSL_ERROR_SSL : Z := 1.
Definition SSL_ERROR_WANT_READ : Z := 2.
Definition SSL_ERROR_WANT_WRITE : Z := 3.
Definition SSL_ERROR_WANT_X509_LOOKUP : Z := 4.
Definition SSL_ERROR_SYSCALL : Z := 5.
Definition SSL_ERROR_ZERO_RETURN : Z := 6.
Definition SSL_ERROR_WANT_CONNECT : Z := 7.

Definition SSL_SENT_SHUTDOWN : Z := 1.
Definition SSL_RECEIVED_SHUTDOWN : Z := 2.

Definition SSL_VERIFY_NONE : Z := 0.
Definition SSL_VERIFY_PEER : Z := 1.
Definition SSL_VERIFY_FAIL_IF_NO_PEER_CERT : Z := 2.

Definition SSL_TLSEXT_ERR_OK : Z := 0.
Definition SSL_TLSEXT_ERR_ALERT_FATAL : Z := 2.
Definition SSL_AD_HANDSHAKE_FAILURE : Z := 40.
Definition SSL_AD_INTERNAL_ERROR : Z := 80.

Definition INT_MAX : Z := 2147483647.

(** The C conversion [(int) n] of a wider integer. *)
Definition cast_int (n : Z) : Z :=
  (n + 2147483648) mod 4294967296 - 2147483648.

(** The C conversion of an [int] to an [unsigned long] of [bits] bits. *)
Definition cast_unsigned_long (bits : Z) (n : Z) : Z := n mod 2 ^ bits.

(** ** Python values and exceptions *)

(** A C [double] as far as the module looks at it: it is only compared
    with [0.0].  An infinity compares like any number of its sign and is
    not told apart; [NaN] compares false with everything. *)
Inductive double : Type :=
  | Number (q : Q)
  | NaN.

(** [d < 0.0], [d == 0.0] and [d >= 0.0] in C. *)
Definition double_lt_zero (d : double) : bool :=
  match d with
  | Number q => match (q ?= 0)%Q with Lt => true | _ => false end
  | NaN => false
  end.

Definition double_eq_zero (d : double) : bool :=
  match d with
  | Number q => match (q ?= 0)%Q with Eq => true | _ => false end
  | NaN => false
  end.

Definition double_ge_zero (d : double) : bool :=
  match d with
  | Number q => match (q ?= 0)%Q with Lt => false | _ => true end
  | NaN => false
  end.

Record PySocketSockObject : Type := {
  sock_fd : Z;
  sock_timeout : double   (* seconds *)
}.

#[local] Set Warnings "-register-all".
Inductive PyObject : Type :=
  | Py_None
  | PyLong (v : Z)
  | PyUnicode (s : string)
  | PyBytes (data : list Z)
  | PyTuple (items : list PyObject)
  | PyDict (entries : list (string * PyObject))
  | PySocket (s : PySocketSockObject)
  | PyOpaque (tag : string).   (* any other object *)

Inductive exc_class : Type :=
  | PySSLErrorObject
  | PySSLZeroReturnErrorObject
  | PySSLWantReadErrorObject
  | PySSLWantWriteErrorObject
  | PySSLSyscallErrorObject
  | PySSLEOFErrorObject
  | timeout_error          (* PySocketModule.timeout_error *)
  | PyExc_OverflowError
  | PyExc_ValueError
  | PyExc_TypeError
  | PyExc_SystemError
  | socket_error           (* what the socket's errorhandler() sets *)
  | signal_error.          (* what a signal handler left behind *)

(** An exception as the interpreter sees it.  The SSL exceptions are built
    by [fill_and_set_sslerror] from [(ssl_errno, msg)] and then get the
    attributes [reason] and [library]; the others carry a message only. *)
Record py_exception : Type := {
  exc_type : exc_class;
  exc_errno : option Z;
  exc_msg : string;
  exc_reason : option string;
  exc_library : option string
}.

Definition PyErr_SetString (type : exc_class) (msg : string) : py_exception :=
  {| exc_type := type; exc_errno := None; exc_msg := msg;
     exc_reason := None; exc_library := None |}.

(** The exception the interpreter's argument parser sets. *)
Definition bad_arguments : py_exception :=
  PyErr_SetString PyExc_TypeError "bad arguments".

(** The exception [PyErr_CheckSignals] leaves when a handler raised. *)
Definition interrupted : py_exception :=
  PyErr_SetString signal_error "raised by a signal handler".

(** The exception [s->errorhandler()] sets from [errno]. *)
Definition socket_errorhandler : py_exception :=
  PyErr_SetString socket_error "set from errno by the socket module".

Inductive py_result (A : Type) : Type :=
  | Ok (v : A)
  | Raise (e : py_exception)
  | Pending.      (* the script ended while the loop was still retrying *)
Arguments Ok {A} v.
Arguments Raise {A} e.
Arguments Pending {A}.

(** ** Calls into the engine *)

Inductive engine_call : Type :=
  | call_BIO_set_nbio_rbio (nonblocking : bool)
  | call_BIO_set_nbio_wbio (nonblocking : bool)
  | call_SSL_do_handshake
  | call_SSL_read (len : Z)
  | call_SSL_write (len : Z)
  | call_SSL_pending
  | call_SSL_shutdown (ret : Z)
  | call_SSL_set_read_ahead (yes : Z)
  | call_SSL_get_error (ret : Z)
  | call_SSL_get_shutdown
  | call_SSL_get_peer_certificate
  | call_X509_free
  | call_ERR_peek_last_error
  | call_ERR_clear_error.

(** The calls on the connection itself, [SSL_*] and the [BIO_*] of its
    transport, as opposed to the bookkeeping of the error queue. *)
Definition is_ssl_call (c : engine_call) : bool :=
  match c with
  | call_ERR_peek_last_error | call_ERR_clear_error | call_X509_free => false
  | _ => true
  end.

(** What the outside world answers during one iteration of a retry loop. *)
Record engine_step : Type := {
  st_ret : Z;           (* SSL_do_handshake / SSL_read / SSL_write / SSL_shutdown *)
  st_class : Z;         (* SSL_get_error for a return value that is not positive *)
  st_queue : list Z;    (* the thread's error queue after the call, oldest first *)
  st_signal : bool;     (* PyErr_CheckSignals() != 0 *)
  st_poll : Z;          (* poll() or select(), if the loop waits *)
  st_shutdown : Z;      (* SSL_get_shutdown *)
  st_data : list Z      (* bytes SSL_read stored *)
}.

(** [SSL_get_error] of the engine: a positive return value is always
    classified [SSL_ERROR_NONE] (SSL_get_error(3)); for the other return
    values the script decides. *)
Definition SSL_get_error (st : engine_step) (ret : Z) : Z :=
  if 0 <? ret then SSL_ERROR_NONE else st_class st.

Definition ERR_peek_last_error (queue : list Z) : Z := last queue 0.

(** ** Build configuration and the engine's static tables *)

(** The switches of the build, the pieces of the interpreter the module
    calls for conversions ([None]: the conversion sets an exception) and
    the engine's error tables. *)
Record platform : Type := {
  LONG_BIT : Z;                         (* the width of a C long: 32 or 64 *)
  HAVE_POLL : bool;
  HAVE_SSL_CTX_CLEAR_OPTIONS : bool;
  _PyIsSelectable_fd : Z -> bool;
  PyLong_AsLong : PyObject -> option Z;
  idna_decode : string -> option string;    (* the "idna" codec *)
  ERR_GET_LIB : Z -> Z;
  ERR_GET_REASON : Z -> Z;
  ERR_reason_error_string : Z -> option string;
  err_codes_to_names : Z * Z -> option string;
  lib_codes_to_names : Z -> option string
}.

Definition string_of_Z (z : Z) : string := NilZero.string_of_int (Z.to_int z).

(** ** Waiting for the socket *)

(** [rc] is what [poll] (or [select]) returns if the function gets as far
    as calling it. *)
Definition check_socket_and_wait_for_timeout
    (P : platform) (s : PySocketSockObject) (writing : bool) (rc : Z)
    : timeout_state :=
  if double_lt_zero (sock_timeout s) then SOCKET_IS_BLOCKING
  else if double_eq_zero (sock_timeout s) then SOCKET_IS_NONBLOCKING
  else if sock_fd s <? 0 then SOCKET_HAS_BEEN_CLOSED
  else if negb (HAVE_POLL P) && negb (_PyIsSelectable_fd P (sock_fd s))
  then SOCKET_TOO_LARGE_FOR_SELECT
  else if rc =? 0 then SOCKET_HAS_TIMED_OUT else SOCKET_OPERATION_OK.

(** A timeout that passes both tests of the wait helper, so that the
    helper goes on to the socket: a positive number, or not a number. *)
Definition waits_for_socket (d : double) : Prop :=
  match d with
  | Number t => (0 < t)%Q
  | NaN => True
  end.

(** [nonblocking = (sock->sock_timeout >= 0.0)] *)
Definition nonblocking_of (s : PySocketSockObject) : bool :=
  double_ge_zero (sock_timeout s).

(** ** Error mapper *)

Definition ssl_message (lib_obj reason_obj : option string)
    (errstr : string) (lineno : Z) : string :=
  let tail := (errstr ++ " (_ssl.c:" ++ string_of_Z lineno ++ ")")%string in
  match reason_obj, lib_obj with
  | Some r, Some l => ("[" ++ l ++ ": " ++ r ++ "] " ++ tail)%string
  | _, Some l => ("[" ++ l ++ "] " ++ tail)%string
  | _, None => tail
  end.

Definition fill_and_set_sslerror (P : platform) (type : exc_class)
    (ssl_errno : Z) (errstr : option string) (lineno : Z) (errcode : Z)
    : py_exception :=
  let lib := ERR_GET_LIB P errcode in
  let reason := ERR_GET_REASON P errcode in
  let reason_obj :=
    if errcode =? 0 then None else err_codes_to_names P (lib, reason) in
  let lib_obj :=
    if errcode =? 0 then None else lib_codes_to_names P lib in
  let errstr :=
    if errcode =? 0 then errstr
    else match errstr with
         | None => ERR_reason_error_string P errcode
         | Some _ => errstr
         end in
  let errstr :=
    match errstr with None => "unknown error" | Some s => s end in
  {| exc_type := type;
     exc_errno := Some ssl_errno;
     exc_msg := ssl_message lib_obj reason_obj errstr lineno;
     exc_reason := reason_obj;
     exc_library := lib_obj |}.

(** [PyWeakref_GetObject(obj->Socket) != Py_None] *)
Definition is_live (Socket : option PySocketSockObject) : bool :=
  match Socket with Some _ => true | None => false end.

(** What an error-reporting function did: the exceptions it set, in order,
    the error queue it left, and the calls it made. *)
Record report : Type := {
  rep_raised : list py_exception;
  rep_queue : list Z;
  rep_calls : list engine_call
}.

(** [PySSL_SetError(obj, ret, filename, lineno)].  [ssl_set] is
    [obj->ssl != NULL], [Socket] the referent of the weak reference
    [obj->Socket] ([None] once it is gone), [st] the engine's state, of
    which [SSL_get_error] and the error queue are read. *)
Definition PySSL_SetError (P : platform) (ssl_set : bool)
    (Socket : option PySocketSockObject) (st : engine_step)
    (ret : Z) (lineno : Z) : report :=
  let e := ERR_peek_last_error (st_queue st) in
  let finish calls type p errstr :=
    {| rep_raised :=
         [fill_and_set_sslerror P type (py_ssl_error_value p) errstr lineno e];
       rep_queue := [];
       rep_calls := call_ERR_peek_last_error :: calls ++ [call_ERR_clear_error] |} in
  if negb ssl_set then finish [] PySSLErrorObject PY_SSL_ERROR_NONE None
  else
    let err := SSL_get_error st ret in
    let calls := [call_SSL_get_error ret] in
    if err =? SSL_ERROR_ZERO_RETURN then
      finish calls PySSLZeroReturnErrorObject PY_SSL_ERROR_ZERO_RETURN
        (Some "TLS/SSL connection has been closed (EOF)")
    else if err =? SSL_ERROR_WANT_READ then
      finish calls PySSLWantReadErrorObject PY_SSL_ERROR_WANT_READ
        (Some "The operation did not complete (read)")
    else if err =? SSL_ERROR_WANT_WRITE then
      finish calls PySSLWantWriteErrorObject PY_SSL_ERROR_WANT_WRITE
        (Some "The operation did not complete (write)")
    else if err =? SSL_ERROR_WANT_X509_LOOKUP then
      finish calls PySSLErrorObject PY_SSL_ERROR_WANT_X509_LOOKUP
        (Some "The operation did not complete (X509 lookup)")
    else if err =? SSL_ERROR_WANT_CONNECT then
      finish calls PySSLErrorObject PY_SSL_ERROR_WANT_CONNECT
        (Some "The operation did not complete (connect)")
    else if err =? SSL_ERROR_SYSCALL then
      if e =? 0 then
        if (ret =? 0) || negb (is_live Socket) then
          finish calls PySSLEOFErrorObject PY_SSL_ERROR_EOF
            (Some "EOF occurred in violation of protocol")
        else if ret =? -1 then
          (* underlying BIO reported an I/O error: ERR_clear_error(),
             s->errorhandler(), return NULL *)
          {| rep_raised := [socket_errorhandler];
             rep_queue := [];
             rep_calls := call_ERR_peek_last_error :: calls
                          ++ [call_ERR_clear_error] |}
        else
          finish calls PySSLSyscallErrorObject PY_SSL_ERROR_SYSCALL
            (Some "Some I/O error occurred")
      else finish calls PySSLErrorObject PY_SSL_ERROR_SYSCALL None
    else if err =? SSL_ERROR_SSL then
      finish calls PySSLErrorObject PY_SSL_ERROR_SSL
        (if e =? 0 then Some "A failure in the SSL library occurred" else None)
    else
      finish calls PySSLErrorObject PY_SSL_ERROR_INVALID_ERROR_CODE
        (Some "Invalid error code").

(** [_setSSLError(errstr, errcode, filename, lineno)]: the [errcode] of the
    caller is overwritten before it is used, when [errstr] is [NULL] with
    the last error of the queue narrowed to the [int] that [errcode] is.
    It is then passed on twice: as the [int] number of the exception and,
    converted again, as the [unsigned long] code.  [queue] is read only
    when [errstr] is [NULL]. *)
Definition _setSSLError (P : platform) (errstr : option string)
    (errcode : Z) (queue : list Z) (lineno : Z) : report :=
  let errcode :=
    match errstr with
    | None => cast_int (ERR_peek_last_error queue)
    | Some _ => 0
    end in
  {| rep_raised :=
       [fill_and_set_sslerror P PySSLErrorObject errcode errstr lineno
          (cast_unsigned_long (LONG_BIT P) errcode)];
     rep_queue := [];
     rep_calls :=
       match errstr with
       | None => [call_ERR_peek_last_error; call_ERR_clear_error]
       | Some _ => [call_ERR_clear_error]
       end |}.

(** The exception a [NULL] return leaves pending: the last one set. *)
Definition pending_exception (r : report) : py_exception :=
  last (rep_raised r)
       (PyErr_SetString PyExc_SystemError "error return without exception set").

(** ** Certificates *)

(** The engine's renderings are part of the data: [None] stands for a
    negative length reported by [OBJ_obj2txt], by [ASN1_STRING_to_UTF8]
    (or for bytes [PyUnicode_DecodeUTF8] rejects), by [BIO_gets] or by
    [i2d_X509]. *)
Record X509_NAME_ENTRY : Type := {
  set : Z;                      (* entry->set *)
  object : option string;       (* X509_NAME_ENTRY_get_object, as text *)
  value : option string         (* X509_NAME_ENTRY_get_data, as UTF-8 text *)
}.

Definition X509_NAME : Type := list X509_NAME_ENTRY.

Record X509 : Type := {
  X509_get_subject_name : X509_NAME;
  X509_get_issuer_name : X509_NAME;
  X509_get_version : Z;
  X509_get_serialNumber : option string;
  X509_get_notBefore : option string;
  X509_get_notAfter : option string;
  subject_alt_names : option PyObject;   (* _get_peer_alt_names; [None] is NULL *)
  i2d_X509 : option (list Z)
}.

Definition _create_tuple_for_attribute (name value : option string)
    : option PyObject :=
  match name with
  | None => None
  | Some name_obj =>
      match value with
      | None => None
      | Some value_obj => Some (PyTuple [PyUnicode name_obj; PyUnicode value_obj])
      end
  end.

(** The [for] loop of [_create_tuple_for_X509_NAME] over the entries that
    are left, with the variables [dn], [rdn] and [rdn_level]. *)
Fixpoint X509_NAME_loop (entries : X509_NAME) (dn rdn : list PyObject)
    (rdn_level : Z) : option (list PyObject * list PyObject) :=
  match entries with
  | [] => Some (dn, rdn)
  | entry :: rest =>
      (* check to see if we've gotten to a new RDN *)
      let new_rdn := (0 <=? rdn_level) && negb (rdn_level =? set entry) in
      let dn := if new_rdn then dn ++ [PyTuple rdn] else dn in
      let rdn := if new_rdn then [] else rdn in
      let rdn_level := set entry in
      (* now add this attribute to the current RDN *)
      match _create_tuple_for_attribute (object entry) (value entry) with
      | None => None
      | Some attr => X509_NAME_loop rest dn (rdn ++ [attr]) rdn_level
      end
  end.

Definition _create_tuple_for_X509_NAME (xname : X509_NAME) : option PyObject :=
  match X509_NAME_loop xname [] [] (-1) with
  | None => None
  | Some (dn, rdn) =>
      (* now, there's typically a dangling RDN *)
      let dn := if 0 <? Z.of_nat (List.length rdn) then dn ++ [PyTuple rdn] else dn in
      Some (PyTuple dn)
  end.

Definition _decode_certificate (certificate : X509) : option PyObject :=
  match _create_tuple_for_X509_NAME (X509_get_subject_name certificate) with
  | None => None
  | Some peer =>
  match _create_tuple_for_X509_NAME (X509_get_issuer_name certificate) with
  | None => None
  | Some issuer =>
  let version := PyLong (X509_get_version certificate + 1) in
  match X509_get_serialNumber certificate with
  | None => None
  | Some sn =>
  match X509_get_notBefore certificate with
  | None => None
  | Some notBefore =>
  match X509_get_notAfter certificate with
  | None => None
  | Some notAfter =>
  match subject_alt_names certificate with
  | None => None
  | Some peer_alt_names =>
      let retval :=
        [("subject", peer); ("issuer", issuer); ("version", version);
         ("serialNumber", PyUnicode sn); ("notBefore", PyUnicode notBefore);
         ("notAfter", PyUnicode notAfter)] in
      Some (PyDict
              (match peer_alt_names with
               | Py_None => retval
               | _ => retval ++ [("subjectAltName", peer_alt_names)]
               end))
  end end end end end end.

Definition _certificate_to_der (certificate : X509) : option PyObject :=
  match i2d_X509 certificate with
  | None => None
  | Some bytes_buf => Some (PyBytes bytes_buf)
  end.

(** ** The channel object *)

(** What the module reads off the engine's connection object. *)
Record SSL : Type := {
  SSL_get_peer_certificate : option X509;
  SSL_CTX_get_verify_mode : Z;     (* of SSL_get_SSL_CTX(ssl) *)
  SSL_pending : Z
}.

Record PySSLSocket : Type := {
  Socket : option PySocketSockObject;   (* weak reference; [None]: referent gone *)
  ssl : SSL;
  peer_cert : option X509;
  shutdown_seen_zero : Z;
  socket_type : py_ssl_server_or_client
}.

(** [PySSL_peercert(self, args)]; [args] is what [PyArg_ParseTuple] with
    the format "|p" made of the arguments, [None] if it failed.  The
    result [None] is a [NULL] return, with an exception set by the
    argument parser or by a converter. *)
Definition PySSL_peercert (self : PySSLSocket) (args : option bool)
    : option PyObject :=
  match args with
  | None => None
  | Some binary_mode =>
      match peer_cert self with
      | None => Some Py_None
      | Some cert =>
          if binary_mode then
            (* return cert in DER-encoded format *)
            _certificate_to_der cert
          else
            let verification := SSL_CTX_get_verify_mode (ssl self) in
            if Z.land verification SSL_VERIFY_PEER =? 0
            then Some (PyDict [])
            else _decode_certificate cert
      end
  end.

(** ** Channel operations *)

(** [self->peer_cert = cert] and [self->shutdown_seen_zero = v]. *)
Definition with_peer_cert (self : PySSLSocket) (cert : option X509)
    : PySSLSocket :=
  {| Socket := Socket self;
     ssl := ssl self;
     peer_cert := cert;
     shutdown_seen_zero := shutdown_seen_zero self;
     socket_type := socket_type self |}.

Definition with_shutdown_seen_zero (self : PySSLSocket) (v : Z)
    : PySSLSocket :=
  {| Socket := Socket self;
     ssl := ssl self;
     peer_cert := peer_cert self;
     shutdown_seen_zero := v;
     socket_type := socket_type self |}.

(** What a call of a channel method did. *)
Record ran : Type := {
  result : py_result PyObject;
  self_after : PySSLSocket;
  calls : list engine_call
}.

(** How a retry loop was left. *)
Inductive loop_exit : Type :=
  | loop_done (st : engine_step)     (* fell out of the loop after step [st] *)
  | loop_eof                         (* read only: [count = 0; goto done] *)
  | loop_error (e : py_exception)    (* [goto error] *)
  | loop_pending.                    (* the script ended *)

Definition is_want (err : Z) : bool :=
  (err =? SSL_ERROR_WANT_READ) || (err =? SSL_ERROR_WANT_WRITE).

(** The wait the handshake, read and write loops make after a step
    classified [err]:
    [if (err == SSL_ERROR_WANT_READ) sockstate = check...(sock, 0);
     else if (err == SSL_ERROR_WANT_WRITE) sockstate = check...(sock, 1);
     else sockstate = SOCKET_OPERATION_OK;] *)
Definition wait_for (P : platform) (sock : PySocketSockObject)
    (st : engine_step) (err : Z) : timeout_state :=
  if err =? SSL_ERROR_WANT_READ then
    check_socket_and_wait_for_timeout P sock false (st_poll st)
  else if err =? SSL_ERROR_WANT_WRITE then
    check_socket_and_wait_for_timeout P sock true (st_poll st)
  else SOCKET_OPERATION_OK.

(** The guard shared by the four methods:
    [_setSSLError("Underlying socket connection gone",
                  PY_SSL_ERROR_NO_SOCKET, __FILE__, __LINE__)]. *)
Definition socket_gone (P : platform) (self : PySSLSocket) (lineno : Z) : ran :=
  let r := _setSSLError P (Some "Underlying socket connection gone")
             (py_ssl_error_value PY_SSL_ERROR_NO_SOCKET) [] lineno in
  {| result := Raise (pending_exception r);
     self_after := self;
     calls := rep_calls r |}.

(** [PySSL_SetError(self, ret, __FILE__, __LINE__)] at the end of a method. *)
Definition set_error (P : platform) (self : PySSLSocket) (st : engine_step)
    (ret : Z) (lineno : Z) (before : list engine_call) : ran :=
  let r := PySSL_SetError P true (Socket self) st ret lineno in
  {| result := Raise (pending_exception r);
     self_after := self;
     calls := before ++ rep_calls r |}.

(** *** Handshake *)

Fixpoint handshake_loop (P : platform) (sock : PySocketSockObject)
    (script : list engine_step) : loop_exit * list engine_call :=
  match script with
  | [] => (loop_pending, [])
  | st :: rest =>
      let ret := st_ret st in
      let err := SSL_get_error st ret in
      let made := [call_SSL_do_handshake; call_SSL_get_error ret] in
      if st_signal st then (loop_error interrupted, made)
      else
        let sockstate := wait_for P sock st err in
        match sockstate with
        | SOCKET_HAS_TIMED_OUT =>
            (loop_error (PyErr_SetString timeout_error
               "_ssl.c:565: The handshake operation timed out"), made)
        | SOCKET_HAS_BEEN_CLOSED =>
            (loop_error (PyErr_SetString PySSLErrorObject
               "_ssl.c:569: Underlying socket has been closed."), made)
        | SOCKET_TOO_LARGE_FOR_SELECT =>
            (loop_error (PyErr_SetString PySSLErrorObject
               "_ssl.c:573: Underlying socket too large for select()."), made)
        | SOCKET_IS_NONBLOCKING => (loop_done st, made)
        | _ =>
            if is_want err then
              let '(exit, more) := handshake_loop P sock rest in
              (exit, made ++ more)
            else (loop_done st, made)
        end
  end.

Definition PySSL_SSLdo_handshake (P : platform) (self : PySSLSocket)
    (script : list engine_step) : ran :=
  match Socket self with
  | None => socket_gone P self 537
  | Some sock =>
      (* just in case the blocking state of the socket has been changed *)
      let nonblocking := nonblocking_of sock in
      let setup := [call_BIO_set_nbio_rbio nonblocking;
                    call_BIO_set_nbio_wbio nonblocking] in
      (* Actually negotiate SSL connection *)
      let '(exit, made) := handshake_loop P sock script in
      match exit with
      | loop_done st =>
          let ret := st_ret st in
          if ret <? 1 then set_error P self st ret 581 (setup ++ made)
          else
            {| result := Ok Py_None;
               self_after :=
                 with_peer_cert self (SSL_get_peer_certificate (ssl self));
               calls := setup ++ made
                        ++ (match peer_cert self with
                            | Some _ => [call_X509_free]
                            | None => []
                            end)
                        ++ [call_SSL_get_peer_certificate] |}
      | loop_error e =>
          {| result := Raise e; self_after := self; calls := setup ++ made |}
      | _ =>
          {| result := Pending; self_after := self; calls := setup ++ made |}
      end
  end.

(** *** Write *)

Record Py_buffer : Type := {
  buf_len : Z      (* buf.len; the bytes themselves play no role here *)
}.

Fixpoint write_loop (P : platform) (sock : PySocketSockObject)
    (buf : Py_buffer) (script : list engine_step)
    : loop_exit * list engine_call :=
  match script with
  | [] => (loop_pending, [])
  | st :: rest =>
      let len := st_ret st in
      let err := SSL_get_error st len in
      let made := [call_SSL_write (buf_len buf); call_SSL_get_error len] in
      if st_signal st then (loop_error interrupted, made)
      else
        let sockstate := wait_for P sock st err in
        match sockstate with
        | SOCKET_HAS_TIMED_OUT =>
            (loop_error (PyErr_SetString timeout_error
               "The write operation timed out"), made)
        | SOCKET_HAS_BEEN_CLOSED =>
            (loop_error (PyErr_SetString PySSLErrorObject
               "Underlying socket has been closed."), made)
        | SOCKET_IS_NONBLOCKING => (loop_done st, made)
        | _ =>
            if is_want err then
              let '(exit, more) := write_loop P sock buf rest in
              (exit, made ++ more)
            else (loop_done st, made)
        end
  end.

(** [args] is the buffer [PyArg_ParseTuple] extracted, [None] if it
    failed; [wait_rc] is what [poll] answers to the wait before the loop. *)
Definition PySSL_SSLwrite (P : platform) (self : PySSLSocket)
    (args : option Py_buffer) (wait_rc : Z) (script : list engine_step) : ran :=
  match Socket self with
  | None => socket_gone P self 1387
  | Some sock =>
      let fail e made :=
        {| result := Raise e; self_after := self; calls := made |} in
      match args with
      | None => fail bad_arguments []
      | Some buf =>
          if INT_MAX <? buf_len buf then
            fail (PyErr_SetString PyExc_OverflowError
                    "string longer than 2147483647 bytes") []
          else
            let nonblocking := nonblocking_of sock in
            let setup := [call_BIO_set_nbio_rbio nonblocking;
                          call_BIO_set_nbio_wbio nonblocking] in
            match check_socket_and_wait_for_timeout P sock true wait_rc with
            | SOCKET_HAS_TIMED_OUT =>
                fail (PyErr_SetString timeout_error
                        "The write operation timed out") setup
            | SOCKET_HAS_BEEN_CLOSED =>
                fail (PyErr_SetString PySSLErrorObject
                        "Underlying socket has been closed.") setup
            | SOCKET_TOO_LARGE_FOR_SELECT =>
                fail (PyErr_SetString PySSLErrorObject
                        "Underlying socket too large for select().") setup
            | _ =>
                let '(exit, made) := write_loop P sock buf script in
                match exit with
                | loop_done st =>
                    let len := st_ret st in
                    if 0 <? len then
                      {| result := Ok (PyLong len); self_after := self;
                         calls := setup ++ made |}
                    else set_error P self st len 1455 (setup ++ made)
                | loop_error e => fail e (setup ++ made)
                | _ => {| result := Pending; self_after := self;
                          calls := setup ++ made |}
                end
            end
      end
  end.

(** *** Read *)

Record read_args : Type := {
  len : Z;                    (* the "i" argument *)
  buf : option Py_buffer      (* the optional "w*" argument *)
}.

Fixpoint read_loop (P : platform) (sock : PySocketSockObject) (len : Z)
    (script : list engine_step) : loop_exit * list engine_call :=
  match script with
  | [] => (loop_pending, [])
  | st :: rest =>
      let count := st_ret st in
      let err := SSL_get_error st count in
      let made := [call_SSL_read len; call_SSL_get_error count] in
      if st_signal st then (loop_error interrupted, made)
      else
        (* [None]: [count = 0; goto done] *)
        let sockstate :=
          if is_want err then Some (wait_for P sock st err)
          else if (err =? SSL_ERROR_ZERO_RETURN)
                  && (st_shutdown st =? SSL_RECEIVED_SHUTDOWN) then None
          else Some SOCKET_OPERATION_OK in
        let made :=
          if negb (is_want err) && (err =? SSL_ERROR_ZERO_RETURN)
          then made ++ [call_SSL_get_shutdown] else made in
        match sockstate with
        | None => (loop_eof, made)
        | Some SOCKET_HAS_TIMED_OUT =>
            (loop_error (PyErr_SetString timeout_error
               "The read operation timed out"), made)
        | Some SOCKET_IS_NONBLOCKING => (loop_done st, made)
        | Some _ =>
            if is_want err then
              let '(exit, more) := read_loop P sock len rest in
              (exit, made ++ more)
            else (loop_done st, made)
        end
  end.

(** [done:] with [count] bytes of [mem] filled. *)
Definition read_done (self : PySSLSocket) (buf_passed : bool) (count : Z)
    (mem : list Z) (made : list engine_call) : ran :=
  {| result :=
       if buf_passed then Ok (PyLong count)
       else Ok (PyBytes (firstn (Z.to_nat count) mem));
     self_after := self;
     calls := made |}.

(** The length [SSL_read] is asked for, or the error raised before the
    engine is touched ([dest] or [mem] and [len] of the C function);
    [PyBytes_FromStringAndSize] refuses a negative size. *)
Definition read_prepare (a : read_args) : Z + py_exception :=
  match buf a with
  | None =>
      if len a <? 0 then
        inr (PyErr_SetString PyExc_SystemError
               "Negative size passed to PyBytes_FromStringAndSize")
      else inl (len a)
  | Some b =>
      if (len a <=? 0) || (buf_len b <? len a) then
        let len' := cast_int (buf_len b) in
        if negb (buf_len b =? len') then
          inr (PyErr_SetString PyExc_OverflowError
                 "maximum length can't fit in a C 'int'")
        else inl len'
      else inl (len a)
  end.

(** The wait before the loop, skipped when decrypted bytes are pending. *)
Definition read_first_wait (P : platform) (self : PySSLSocket)
    (sock : PySocketSockObject) (wait_rc : Z) : timeout_state :=
  if SSL_pending (ssl self) =? 0 then
    check_socket_and_wait_for_timeout P sock false wait_rc
  else SOCKET_OPERATION_OK.

Definition PySSL_SSLread (P : platform) (self : PySSLSocket)
    (args : option read_args) (wait_rc : Z) (script : list engine_step) : ran :=
  match Socket self with
  | None => socket_gone P self 1503
  | Some sock =>
      let fail e made :=
        {| result := Raise e; self_after := self; calls := made |} in
      match args with
      | None => fail bad_arguments []
      | Some a =>
          let buf_passed :=
            match buf a with Some _ => true | None => false end in
          match read_prepare a with
          | inr e => fail e []
          | inl len =>
              let nonblocking := nonblocking_of sock in
              let setup := [call_BIO_set_nbio_rbio nonblocking;
                            call_BIO_set_nbio_wbio nonblocking;
                            call_SSL_pending] in
              (* first check if there are bytes ready to be read *)
              match read_first_wait P self sock wait_rc with
              | SOCKET_HAS_TIMED_OUT =>
                  fail (PyErr_SetString timeout_error
                          "The read operation timed out") setup
              | SOCKET_TOO_LARGE_FOR_SELECT =>
                  fail (PyErr_SetString PySSLErrorObject
                          "Underlying socket too large for select().") setup
              | SOCKET_HAS_BEEN_CLOSED => read_done self buf_passed 0 [] setup
              | _ =>
                  let '(exit, made) := read_loop P sock len script in
                  match exit with
                  | loop_done st =>
                      let count := st_ret st in
                      if count <=? 0 then
                        set_error P self st count 1586 (setup ++ made)
                      else read_done self buf_passed count (st_data st)
                                     (setup ++ made)
                  | loop_eof => read_done self buf_passed 0 [] (setup ++ made)
                  | loop_error e => fail e (setup ++ made)
                  | loop_pending =>
                      {| result := Pending; self_after := self;
                         calls := setup ++ made |}
                  end
              end
          end
      end
  end.

(** *** Shutdown *)

(** The [while (1)] loop of [PySSL_SSLshutdown] with its variables
    [zeros] and [self->shutdown_seen_zero]; the third component is the
    flag as the loop leaves it. *)
Fixpoint shutdown_loop (P : platform) (sock : PySocketSockObject)
    (seen_zero : Z) (zeros : Z) (script : list engine_step)
    : loop_exit * list engine_call * Z :=
  match script with
  | [] => (loop_pending, [], seen_zero)
  | st :: rest =>
      let err := st_ret st in
      let made :=
        (if seen_zero =? 0 then [] else [call_SSL_set_read_ahead 0])
        ++ [call_SSL_shutdown err] in
      let again seen_zero zeros made :=
        let '(exit, more, seen) := shutdown_loop P sock seen_zero zeros rest in
        (exit, made ++ more, seen) in
      (* If err == 1, a secure shutdown with SSL_shutdown() is complete *)
      if 0 <? err then (loop_done st, made, seen_zero)
      else if err =? 0 then
        (* Don't loop endlessly; instead preserve legacy behaviour of
           trying SSL_shutdown() only twice. *)
        let zeros := zeros + 1 in
        if 1 <? zeros then (loop_done st, made, seen_zero)
        else
          (* Shutdown was sent, now try receiving *)
          again 1 zeros made
      else
        (* Possibly retry shutdown until timeout or failure *)
        let ssl_err := SSL_get_error st err in
        let made := made ++ [call_SSL_get_error err] in
        if is_want ssl_err then
          let writing := negb (ssl_err =? SSL_ERROR_WANT_READ) in
          match check_socket_and_wait_for_timeout P sock writing (st_poll st) with
          | SOCKET_HAS_TIMED_OUT =>
              (loop_error (PyErr_SetString timeout_error
                 (if writing then "The write operation timed out"
                  else "The read operation timed out")), made, seen_zero)
          | SOCKET_TOO_LARGE_FOR_SELECT =>
              (loop_error (PyErr_SetString PySSLErrorObject
                 "Underlying socket too large for select()."), made, seen_zero)
          | SOCKET_OPERATION_OK => again seen_zero zeros made
          | _ =>
              (* Retain the SSL error code *)
              (loop_done st, made, seen_zero)
          end
        else (loop_done st, made, seen_zero)
  end.

Definition PySSL_SSLshutdown (P : platform) (self : PySSLSocket)
    (script : list engine_step) : ran :=
  match Socket self with
  | None => socket_gone P self 1625
  | Some sock =>
      (* Guard against closed socket *)
      if sock_fd sock <? 0 then socket_gone P self 1625
      else
        (* Just in case the blocking state of the socket has been changed *)
        let nonblocking := nonblocking_of sock in
        let setup := [call_BIO_set_nbio_rbio nonblocking;
                      call_BIO_set_nbio_wbio nonblocking] in
        let '(exit, made, seen) :=
          shutdown_loop P sock (shutdown_seen_zero self) 0 script in
        let self := with_shutdown_seen_zero self seen in
        match exit with
        | loop_done st =>
            let err := st_ret st in
            if err <? 0 then set_error P self st err 1692 (setup ++ made)
            else
              {| result := Ok (PySocket sock); self_after := self;
                 calls := setup ++ made |}
        | loop_error e =>
            {| result := Raise e; self_after := self; calls := setup ++ made |}
        | _ =>
            {| result := Pending; self_after := self; calls := setup ++ made |}
        end
  end.

(** ** Context *)

(** The option word of the engine's context and the two engine calls that
    change it (SSL_CTX_set_options(3)). *)
Definition SSL_CTX_clear_options (options mask : Z) : Z :=
  Z.land options (Z.lnot mask).

Definition SSL_CTX_set_options (options mask : Z) : Z :=
  Z.lor options mask.

Inductive ctx_call : Type :=
  | call_SSL_CTX_get_options
  | call_SSL_CTX_clear_options (mask : Z)
  | call_SSL_CTX_set_options (mask : Z).

(** Whether a call changes the engine's context. *)
Definition is_mutation (c : ctx_call) : bool :=
  match c with
  | call_SSL_CTX_get_options => false
  | _ => true
  end.

Record set_options_ran : Type := {
  so_return : Z;                       (* 0, or -1 with [so_raised] set *)
  so_raised : option py_exception;
  so_options : Z;                      (* the context's options afterwards *)
  so_calls : list ctx_call
}.

(** [set_options(self, arg, c)]; [options] is the option word of
    [self->ctx] when the setter is called, [arg] the C long that
    [PyArg_Parse] with the format "l" made of the argument, [None] if it
    failed. *)
Definition set_options (P : platform) (options : Z) (arg : option Z)
    : set_options_ran :=
  match arg with
  | None =>
      {| so_return := -1; so_raised := Some bad_arguments;
         so_options := options; so_calls := [] |}
  | Some new_opts =>
      let opts := options in
      let clear := Z.land opts (Z.lnot new_opts) in
      let set := Z.land (Z.lnot opts) new_opts in
      let cleared :=
        if negb (clear =? 0) then
          if HAVE_SSL_CTX_CLEAR_OPTIONS P then
            Some (SSL_CTX_clear_options options clear,
                  [call_SSL_CTX_clear_options clear])
          else None
        else Some (options, []) in
      match cleared with
      | None =>
          {| so_return := -1;
             so_raised := Some (PyErr_SetString PyExc_ValueError
                                  "can't clear options before OpenSSL 0.9.8m");
             so_options := options;
             so_calls := [call_SSL_CTX_get_options] |}
      | Some (options, made) =>
          if negb (set =? 0) then
            {| so_return := 0; so_raised := None;
               so_options := SSL_CTX_set_options options set;
               so_calls := call_SSL_CTX_get_options :: made
                           ++ [call_SSL_CTX_set_options set] |}
          else
            {| so_return := 0; so_raised := None;
               so_options := options;
               so_calls := call_SSL_CTX_get_options :: made |}
      end
  end.

(** The registered server-name hook, called with the socket object, the
    decoded host name (or none) and the context; [None] is a [NULL]
    result, the hook raised. *)
Definition sni_hook : Type :=
  PySocketSockObject -> option string -> option PyObject.

Record sni_ran : Type := {
  sni_ret : Z;           (* what the engine gets back *)
  sni_al : option Z      (* [*al], if it was written *)
}.

(** [_servername_callback(s, al, args)]: [set_hostname] is
    [ssl_ctx->set_hostname], [ssl] the channel of the connection and
    [servername] what [SSL_get_servername] returned. *)
Definition _servername_callback (P : platform) (set_hostname : option sni_hook)
    (ssl : PySSLSocket) (servername : option string) : sni_ran :=
  let error :=
    {| sni_ret := SSL_TLSEXT_ERR_ALERT_FATAL;
       sni_al := Some SSL_AD_INTERNAL_ERROR |} in
  let after (result : option PyObject) :=
    match result with
    | None =>
        {| sni_ret := SSL_TLSEXT_ERR_ALERT_FATAL;
           sni_al := Some SSL_AD_HANDSHAKE_FAILURE |}
    | Some Py_None =>
        {| sni_ret := SSL_TLSEXT_ERR_OK; sni_al := None |}
    | Some result =>
        {| sni_ret := SSL_TLSEXT_ERR_ALERT_FATAL;
           sni_al :=
             match PyLong_AsLong P result with
             | Some v => Some (cast_int v)
             | None => Some SSL_AD_INTERNAL_ERROR
             end |}
    end in
  match set_hostname with
  | None => {| sni_ret := SSL_TLSEXT_ERR_OK; sni_al := None |}
  | Some hook =>
      match Socket ssl with
      | None => error
      | Some ssl_socket =>
          match servername with
          | None => after (hook ssl_socket None)
          | Some name =>
              match idna_decode P name with
              | None => error
              | Some servername_idna =>
                  after (hook ssl_socket (Some servername_idna))
              end
          end
      end
  end.

(** ** A platform and a channel to compute with *)

(** The integers that fit a 64-bit long convert, nothing else does. *)
Definition a_PyLong_AsLong (o : PyObject) : option Z :=
  match o with
  | PyLong v =>
      if (-9223372036854775808 <=? v) && (v <=? 9223372036854775807)
      then Some v else None
  | _ => None
  end.

Definition a_platform : platform :=
  {| LONG_BIT := 64;
     HAVE_POLL := true;
     _PyIsSelectable_fd := fun fd => (0 <=? fd) && (fd <? 1024);
     HAVE_SSL_CTX_CLEAR_OPTIONS := true;
     PyLong_AsLong := a_PyLong_AsLong;
     idna_decode := fun s => Some s;
     ERR_GET_LIB := fun l => Z.land (Z.shiftr l 24) 255;
     ERR_GET_REASON := fun l => Z.land l 4095;
     ERR_reason_error_string := fun _ => None;
     err_codes_to_names := fun _ => None;
     lib_codes_to_names := fun _ => None |}.

(** The same with an engine too old to clear option bits. *)
Definition an_old_platform : platform :=
  {| LONG_BIT := 64;
     HAVE_POLL := true;
     _PyIsSelectable_fd := fun fd => (0 <=? fd) && (fd <? 1024);
     HAVE_SSL_CTX_CLEAR_OPTIONS := false;
     PyLong_AsLong := a_PyLong_AsLong;
     idna_decode := fun s => Some s;
     ERR_GET_LIB := fun l => Z.land (Z.shiftr l 24) 255;
     ERR_GET_REASON := fun l => Z.land l 4095;
     ERR_reason_error_string := fun _ => None;
     err_codes_to_names := fun _ => None;
     lib_codes_to_names := fun _ => None |}.

Definition a_step : engine_step :=
  {| st_ret := 1; st_class := SSL_ERROR_NONE; st_queue := [];
     st_signal := false; st_poll := 1; st_shutdown := 0; st_data := [104] |}.

Definition no_engine : SSL :=
  {| SSL_get_peer_certificate := None;
     SSL_CTX_get_verify_mode := SSL_VERIFY_NONE;
     SSL_pending := 0 |}.

Definition a_channel (Socket : option PySocketSockObject) : PySSLSocket :=
  {| Socket := Socket; ssl := no_engine; peer_cert := None;
     shutdown_seen_zero := 0; socket_type := PY_SSL_CLIENT |}.

Definition no_ssl_call (made : list engine_call) : bool :=
  forallb (fun c => negb (is_ssl_call c)) made.

Definition a_name : X509_NAME :=
  [ {| set := 0; object := Some "countryName"; value := Some "NL" |};
    {| set := 1; object := Some "organizationName"; value := Some "PSF" |};
    {| set := 1; object := Some "organizationalUnitName"; value := Some "dev" |};
    {| set := 2; object := Some "commonName"; value := Some "localhost" |} ].

Definition a_certificate : X509 :=
  {| X509_get_subject_name := a_name;
     X509_get_issuer_name := a_name;
     X509_get_version := 2;
     X509_get_serialNumber := Some "01";
     X509_get_notBefore := Some "Jan  1 00:00:00 2013 GMT";
     X509_get_notAfter := Some "Jan  1 00:00:00 2023 GMT";
     subject_alt_names := Some Py_None;
     i2d_X509 := Some [48; 130] |}.

(** A channel after a handshake in which the peer sent a certificate that
    the context did not ask to verify. *)
Definition an_unverified_channel : PySSLSocket :=
  {| Socket := Some {| sock_fd := 3; sock_timeout := Number (-1) |};
     ssl := {| SSL_get_peer_certificate := Some a_certificate;
               SSL_CTX_get_verify_mode := SSL_VERIFY_NONE;
               SSL_pending := 0 |};
     peer_cert := Some a_certificate;
     shutdown_seen_zero := 0;
     socket_type := PY_SSL_CLIENT |}.

(** ** Grouping of name entries, as the specification words it *)

(** One group per maximal run of consecutive entries with the same set
    identifier, in the order of the entries. *)
Fixpoint group_by_set (entries : X509_NAME) : list (list X509_NAME_ENTRY) :=
  match entries with
  | [] => []
  | e :: rest =>
      match group_by_set rest with
      | (e' :: g) :: groups =>
          if set e =? set e' then (e :: e' :: g) :: groups
          else [e] :: (e' :: g) :: groups
      | _ => [[e]]
      end
  end.

(** All entries of a group carry the set identifier [level]. *)
Definition all_in_set (level : Z) (group : list X509_NAME_ENTRY) : Prop :=
  forall e, In e group -> set e = level.

(** Neighbouring groups carry different set identifiers. *)
Fixpoint neighbours_differ (groups : list (list X509_NAME_ENTRY)) : Prop :=
  match groups with
  | g1 :: ((g2 :: _) as rest) =>
      (forall a b, In a g1 -> In b g2 -> set a <> set b)
      /\ neighbours_differ rest
  | _ => True
  end.

(** [groups] cuts [entries] into its maximal runs of equal set identifier:
    nothing is lost or reordered, no group is empty, a group never spans
    two identifiers (no merge) and never stops while the identifier stays
    the same (no split). *)
Definition maximal_runs (entries : X509_NAME)
    (groups : list (list X509_NAME_ENTRY)) : Prop :=
  List.concat groups = entries
  /\ Forall (fun g => g <> []) groups
  /\ Forall (fun g => exists level, all_in_set level g) groups
  /\ neighbours_differ groups.

(** Whether both parts of an entry can be rendered, and the attribute
    tuple it then becomes. *)
Definition decodable (e : X509_NAME_ENTRY) : bool :=
  match _create_tuple_for_attribute (object e) (value e) with
  | Some _ => true
  | None => false
  end.

Definition attribute_of (e : X509_NAME_ENTRY) : PyObject :=
  match _create_tuple_for_attribute (object e) (value e) with
  | Some attr => attr
  | None => Py_None
  end.

Definition rdn_of (group : list X509_NAME_ENTRY) : PyObject :=
  PyTuple (map attribute_of group).

(** ** Reading the call log of a shutdown *)

Definition is_zero_round (c : engine_call) : bool :=
  match c with
  | call_SSL_shutdown 0 => true
  | _ => false
  end.

Definition is_shutdown_call (c : engine_call) : bool :=
  match c with
  | call_SSL_shutdown _ => true
  | _ => false
  end.

(** The number of times [SSL_shutdown] was called and answered 0. *)
Definition zero_rounds (made : list engine_call) : nat :=
  List.length (filter is_zero_round made).

(** The calls made after the first [SSL_shutdown] that answered 0. *)
Fixpoint after_first_zero (made : list engine_call) : list engine_call :=
  match made with
  | [] => []
  | c :: rest => if is_zero_round c then rest else after_first_zero rest
  end.

(** The calls the loop of a shutdown makes. *)
Definition shutdown_log (P : platform) (sock : PySocketSockObject)
    (seen_zero zeros : Z) (script : list engine_step) : list engine_call :=
  snd (fst (shutdown_loop P sock seen_zero zeros script)).

(** Every [SSL_shutdown] in [made] comes right after a
    [SSL_set_read_ahead(ssl, 0)]; [armed] tells whether the call before
    [made] was one. *)
Fixpoint read_ahead_off (armed : bool) (made : list engine_call) : bool :=
  match made with
  | [] => true
  | call_SSL_shutdown _ :: rest => armed && read_ahead_off false rest
  | call_SSL_set_read_ahead 0 :: rest => read_ahead_off true rest
  | _ :: rest => read_ahead_off false rest
  end.

(** ** Reading a script *)

(** Whether step [st] sends the handshake loop round again: no signal was
    raised, the engine wants to read or write, and the wait neither failed
    nor found the socket non-blocking. *)
Definition handshake_retries (P : platform) (sock : PySocketSockObject)
    (st : engine_step) : bool :=
  let err := SSL_get_error st (st_ret st) in
  negb (st_signal st) && is_want err
  && match wait_for P sock st err with
     | SOCKET_IS_BLOCKING | SOCKET_OPERATION_OK => true
     | _ => false
     end.

(** The same for the loop of read, which gives up on a timeout only. *)
Definition read_retries (P : platform) (sock : PySocketSockObject)
    (st : engine_step) : bool :=
  let err := SSL_get_error st (st_ret st) in
  negb (st_signal st) && is_want err
  && match wait_for P sock st err with
     | SOCKET_HAS_TIMED_OUT | SOCKET_IS_NONBLOCKING => false
     | _ => true
     end.

(** Whether read goes on to its loop after the first wait. *)
Definition read_proceeds (sockstate : timeout_state) : bool :=
  match sockstate with
  | SOCKET_HAS_TIMED_OUT | SOCKET_TOO_LARGE_FOR_SELECT
  | SOCKET_HAS_BEEN_CLOSED => false
  | _ => true
  end.

(** What read returns for no bytes. *)
Definition nothing_read (a : read_args) : PyObject :=
  match buf a with
  | Some _ => PyLong 0
  | None => PyBytes []
  end.

Definition a_live_socket : PySocketSockObject :=
  {| sock_fd := 3; sock_timeout := Number 5 |}.

(** A socket with a timeout whose descriptor has been closed. *)
Definition a_closed_socket : PySocketSockObject :=
  {| sock_fd := -1; sock_timeout := Number 5 |}.

(** The engine needs more input and the socket becomes readable in time. *)
Definition a_want_read_step : engine_step :=
  {| st_ret := -1; st_class := SSL_ERROR_WANT_READ; st_queue := [];
     st_signal := false; st_poll := 1; st_shutdown := 0; st_data := [] |}.

(** The engine completes the operation while a signal handler raises. *)
Definition an_interrupted_step : engine_step :=
  {| st_ret := 1; st_class := SSL_ERROR_NONE; st_queue := [];
     st_signal := true; st_poll := 1; st_shutdown := 0; st_data := [104] |}.

(** The engine has sent the close-notify and waits for the peer's. *)
Definition a_sent_step : engine_step :=
  {| st_ret := 0; st_class := SSL_ERROR_SYSCALL; st_queue := [];
     st_signal := false; st_poll := 1;
     st_shutdown := SSL_SENT_SHUTDOWN; st_data := [] |}.

(** A name as the engine never builds one, with negative identifiers. *)
Definition a_malformed_name : X509_NAME :=
  [ {| set := -1; object := Some "countryName"; value := Some "NL" |};
    {| set := -2; object := Some "commonName"; value := Some "localhost" |} ].

(** The peer has sent its close-notify. *)
Definition a_close_notify_step (signal : bool) : engine_step :=
  {| st_ret := 0; st_class := SSL_ERROR_ZERO_RETURN; st_queue := [];
     st_signal := signal; st_poll := 1;
     st_shutdown := SSL_RECEIVED_SHUTDOWN; st_data := [] |}.

(** ** Reading the log of an error report *)

Definition is_clear_error (c : engine_call) : bool :=
  match c with
  | call_ERR_clear_error => true
  | _ => false
  end.

(** The exception type and the number [PySSL_SetError] gives an engine
    class other than the syscall class. *)
Definition class_exception (err : Z) : exc_class :=
  if err =? SSL_ERROR_ZERO_RETURN then PySSLZeroReturnErrorObject
  else if err =? SSL_ERROR_WANT_READ then PySSLWantReadErrorObject
  else if err =? SSL_ERROR_WANT_WRITE then PySSLWantWriteErrorObject
  else PySSLErrorObject.

Definition class_errno (err : Z) : Z :=
  if (1 <=? err) && (err <=? 7) then err
  else py_ssl_error_value PY_SSL_ERROR_INVALID_ERROR_CODE.

(** ** The version of the engine *)

(** The five outputs of [parse_openssl_version], which [PyInit__ssl] packs
    into the tuples [OPENSSL_VERSION_INFO] and [_OPENSSL_API_VERSION] in
    this order. *)
Record version_info : Type := {
  v_major : Z;
  v_minor : Z;
  v_fix : Z;
  v_patch : Z;
  v_status : Z
}.

(** [parse_openssl_version(libver, &major, &minor, &fix, &patch, &status)];
    [libver] is an [unsigned long]. *)
Definition parse_openssl_version (libver : Z) : version_info :=
  let status := Z.land libver 15 in
  let libver := Z.shiftr libver 4 in
  let patch := Z.land libver 255 in
  let libver := Z.shiftr libver 8 in
  let fix_ := Z.land libver 255 in
  let libver := Z.shiftr libver 8 in
  let minor := Z.land libver 255 in
  let libver := Z.shiftr libver 8 in
  let major := Z.land libver 255 in
  {| v_major := major; v_minor := minor; v_fix := fix_; v_patch := patch;
     v_status := status |}.

(** [Py_BuildValue("IIIII", major, minor, fix, patch, status)]. *)
Definition version_tuple (v : version_info) : list Z :=
  [v_major v; v_minor v; v_fix v; v_patch v; v_status v].

(** The order of Python on sequences of integers: the first position where
    two sequences differ decides, and a proper prefix is smaller. *)
Fixpoint tuple_lt (a b : list Z) : bool :=
  match a, b with
  | _, [] => false
  | [], _ :: _ => true
  | x :: a, y :: b => (x <? y) || ((x =? y) && tuple_lt a b)
  end.

(** ** The context object *)

(** The switches of the build that decide what a context can do, and the
    option mask [SSL_OP_ALL] of the engine's headers. *)
Record build : Type := {
  HAVE_TLSv1_2 : bool;
  OPENSSL_NO_SSL2 : bool;
  HAVE_SNI : bool;
  OPENSSL_NO_TLSEXT : bool;
  OPENSSL_NPN_NEGOTIATED : bool;
  SSL_OP_ALL : Z
}.

Definition SSL_OP_DONT_INSERT_EMPTY_FRAGMENTS : Z := 2048.   (* 0x00000800L *)

(** enum py_ssl_cert_requirements *)
Definition PY_SSL_CERT_NONE : Z := 0.
Definition PY_SSL_CERT_OPTIONAL : Z := 1.
Definition PY_SSL_CERT_REQUIRED : Z := 2.

(** enum py_ssl_version; [PY_SSL_VERSION_SSL2] is declared only without
    [OPENSSL_NO_SSL2], the last two only with [HAVE_TLSv1_2]. *)
Definition PY_SSL_VERSION_SSL2 : Z := 0.
Definition PY_SSL_VERSION_SSL3 : Z := 1.
Definition PY_SSL_VERSION_SSL23 : Z := 2.
Definition PY_SSL_VERSION_TLS1 : Z := 3.
Definition PY_SSL_VERSION_TLS1_1 : Z := 4.
Definition PY_SSL_VERSION_TLS1_2 : Z := 5.

Inductive SSL_METHOD : Type :=
  | TLSv1_method
  | TLSv1_1_method
  | TLSv1_2_method
  | SSLv3_method
  | SSLv2_method
  | SSLv23_method.

(** What the module sets and reads in the engine's context. *)
Record SSL_CTX : Type := {
  ctx_verify_mode : Z;                 (* SSL_CTX_get_verify_mode *)
  ctx_options : Z;                     (* SSL_CTX_get_options *)
  ctx_sid_ctx : list Z;                (* the session id context *)
  ctx_servername_callback : bool       (* [_servername_callback] installed *)
}.

Definition SSL_CTX_set_verify (ctx : SSL_CTX) (mode : Z) : SSL_CTX :=
  {| ctx_verify_mode := mode;
     ctx_options := ctx_options ctx;
     ctx_sid_ctx := ctx_sid_ctx ctx;
     ctx_servername_callback := ctx_servername_callback ctx |}.

Definition SSL_CTX_with_options (ctx : SSL_CTX) (options : Z) : SSL_CTX :=
  {| ctx_verify_mode := ctx_verify_mode ctx;
     ctx_options := options;
     ctx_sid_ctx := ctx_sid_ctx ctx;
     ctx_servername_callback := ctx_servername_callback ctx |}.

Definition SSL_CTX_set_session_id_context (ctx : SSL_CTX) (sid_ctx : list Z)
    : SSL_CTX :=
  {| ctx_verify_mode := ctx_verify_mode ctx;
     ctx_options := ctx_options ctx;
     ctx_sid_ctx := sid_ctx;
     ctx_servername_callback := ctx_servername_callback ctx |}.

Definition SSL_CTX_set_tlsext_servername_callback (ctx : SSL_CTX)
    (installed : bool) : SSL_CTX :=
  {| ctx_verify_mode := ctx_verify_mode ctx;
     ctx_options := ctx_options ctx;
     ctx_sid_ctx := ctx_sid_ctx ctx;
     ctx_servername_callback := installed |}.

Record PySSLContext : Type := {
  ctx : SSL_CTX;
  npn_protocols : option (list Z);     (* [NULL] or the buffer *)
  npn_protocols_len : Z;
  set_hostname : option sni_hook
}.

(** A method of the context: what it returns, or the exception it sets. *)
Inductive outcome (A : Type) : Type :=
  | Returns (v : A)
  | Raises (e : py_exception)
  | Raises_NotImplementedError (msg : string).
Arguments Returns {A} v.
Arguments Raises {A} e.
Arguments Raises_NotImplementedError {A} msg.

(** The bytes of [SID_CTX], [sizeof(SID_CTX)] of them: the text "Python"
    and its terminator. *)
Definition SID_CTX : list Z := [80; 121; 116; 104; 111; 110; 0].

(** [context_new(type, args, kwds)]; [args] is the C int that the argument
    parser made of the one required argument, [None] if it failed, and
    [SSL_CTX_new] the engine's allocator, which may return [NULL].  The
    object comes zeroed from [tp_alloc], which gives [npn_protocols_len]
    its 0. *)
Definition context_new (B : build) (SSL_CTX_new : SSL_METHOD -> option SSL_CTX)
    (args : option Z) : outcome PySSLContext :=
  match args with
  | None => Raises bad_arguments
  | Some proto_version =>
      let '(ctx, proto_version) :=
        if proto_version =? PY_SSL_VERSION_TLS1
        then (SSL_CTX_new TLSv1_method, proto_version)
        else if HAVE_TLSv1_2 B && (proto_version =? PY_SSL_VERSION_TLS1_1)
        then (SSL_CTX_new TLSv1_1_method, proto_version)
        else if HAVE_TLSv1_2 B && (proto_version =? PY_SSL_VERSION_TLS1_2)
        then (SSL_CTX_new TLSv1_2_method, proto_version)
        else if proto_version =? PY_SSL_VERSION_SSL3
        then (SSL_CTX_new SSLv3_method, proto_version)
        else if negb (OPENSSL_NO_SSL2 B)
                && (proto_version =? PY_SSL_VERSION_SSL2)
        then (SSL_CTX_new SSLv2_method, proto_version)
        else if proto_version =? PY_SSL_VERSION_SSL23
        then (SSL_CTX_new SSLv23_method, proto_version)
        else (None, -1) in
      if proto_version =? -1 then
        Raises (PyErr_SetString PyExc_ValueError "invalid protocol version")
      else
        match ctx with
        | None =>
            Raises (PyErr_SetString PySSLErrorObject
                      "failed to allocate SSL context")
        | Some ctx =>
            (* Defaults *)
            let ctx := SSL_CTX_set_verify ctx SSL_VERIFY_NONE in
            let ctx :=
              SSL_CTX_with_options ctx
                (SSL_CTX_set_options (ctx_options ctx)
                   (Z.land (SSL_OP_ALL B)
                      (Z.lnot SSL_OP_DONT_INSERT_EMPTY_FRAGMENTS))) in
            let ctx := SSL_CTX_set_session_id_context ctx SID_CTX in
            Returns {| ctx := ctx; npn_protocols := None;
                       npn_protocols_len := 0; set_hostname := None |}
        end
  end.

(** [get_verify_mode(self, c)]. *)
Definition get_verify_mode (self : PySSLContext) : outcome PyObject :=
  let mode := ctx_verify_mode (ctx self) in
  if mode =? SSL_VERIFY_NONE then Returns (PyLong PY_SSL_CERT_NONE)
  else if mode =? SSL_VERIFY_PEER then Returns (PyLong PY_SSL_CERT_OPTIONAL)
  else if mode =? Z.lor SSL_VERIFY_PEER SSL_VERIFY_FAIL_IF_NO_PEER_CERT
  then Returns (PyLong PY_SSL_CERT_REQUIRED)
  else Raises (PyErr_SetString PySSLErrorObject
                 "invalid return value from SSL_CTX_get_verify_mode").

(** [set_verify_mode(self, arg, c)]: the context afterwards and the C
    result, 0 or -1 with the exception; [arg] is the C int that
    [PyArg_Parse] with the format "i" made of the value, [None] if it
    failed. *)
Definition set_verify_mode (self : PySSLContext) (arg : option Z)
    : PySSLContext * outcome Z :=
  match arg with
  | None => (self, Raises bad_arguments)
  | Some n =>
      let mode :=
        if n =? PY_SSL_CERT_NONE then Some SSL_VERIFY_NONE
        else if n =? PY_SSL_CERT_OPTIONAL then Some SSL_VERIFY_PEER
        else if n =? PY_SSL_CERT_REQUIRED
        then Some (Z.lor SSL_VERIFY_PEER SSL_VERIFY_FAIL_IF_NO_PEER_CERT)
        else None in
      match mode with
      | None =>
          (self, Raises (PyErr_SetString PyExc_ValueError
                           "invalid value for verify_mode"))
      | Some mode =>
          ({| ctx := SSL_CTX_set_verify (ctx self) mode;
              npn_protocols := npn_protocols self;
              npn_protocols_len := npn_protocols_len self;
              set_hostname := set_hostname self |}, Returns 0)
      end
  end.

(** [get_options(self, c)]. *)
Definition get_options (self : PySSLContext) : PyObject :=
  PyLong (ctx_options (ctx self)).

(** The one argument of [set_servername_callback] as the function looks
    at it: [None], a callable, or anything else. *)
Inductive servername_cb : Type :=
  | cb_None
  | cb_callable (hook : sni_hook)
  | cb_not_callable (o : PyObject).

(** [set_servername_callback(self, args)]; [args] is what
    [PyArg_ParseTuple] with the format "O" made of the arguments, [None]
    if it failed. *)
Definition set_servername_callback (B : build) (self : PySSLContext)
    (args : option servername_cb) : PySSLContext * outcome PyObject :=
  if HAVE_SNI B && negb (OPENSSL_NO_TLSEXT B) then
    match args with
    | None => (self, Raises bad_arguments)
    | Some cb_None =>
        ({| ctx := SSL_CTX_set_tlsext_servername_callback (ctx self) false;
            npn_protocols := npn_protocols self;
            npn_protocols_len := npn_protocols_len self;
            set_hostname := None |}, Returns Py_None)
    | Some (cb_not_callable _) =>
        ({| ctx := SSL_CTX_set_tlsext_servername_callback (ctx self) false;
            npn_protocols := npn_protocols self;
            npn_protocols_len := npn_protocols_len self;
            set_hostname := None |},
         Raises (PyErr_SetString PyExc_TypeError "not a callable object"))
    | Some (cb_callable cb) =>
        ({| ctx := SSL_CTX_set_tlsext_servername_callback (ctx self) true;
            npn_protocols := npn_protocols self;
            npn_protocols_len := npn_protocols_len self;
            set_hostname := Some cb |}, Returns Py_None)
    end
  else
    (self,
     Raises_NotImplementedError
       ("The TLS extension servername callback, "
        ++ "SSL_CTX_set_tlsext_servername_callback, "
        ++ "is not in the current OpenSSL library.")%string).

(** What the engine does with the server name of a client hello: it calls
    the installed callback, and carries on when there is none. *)
Definition servername_of_hello (P : platform) (self : PySSLContext)
    (ssl : PySSLSocket) (servername : option string) : sni_ran :=
  if ctx_servername_callback (ctx self)
  then _servername_callback P (set_hostname self) ssl servername
  else {| sni_ret := SSL_TLSEXT_ERR_OK; sni_al := None |}.

(** ** Next protocol negotiation *)

(** [_set_npn_protocols(self, args)]; [args] is the content of the buffer
    that [PyArg_ParseTuple] with the format "y*" filled, [None] if it
    failed.  The third component tells whether the two callbacks were
    handed to the engine. *)
Definition _set_npn_protocols (B : build) (self : PySSLContext)
    (args : option (list Z)) : PySSLContext * outcome PyObject * bool :=
  if OPENSSL_NPN_NEGOTIATED B then
    match args with
    | None => (self, Raises bad_arguments, false)
    | Some protos =>
        ({| ctx := ctx self;
            npn_protocols := Some protos;
            npn_protocols_len := cast_int (Z.of_nat (List.length protos));
            set_hostname := set_hostname self |},
         Returns Py_None, true)
    end
  else
    (self,
     Raises_NotImplementedError
       "The NPN extension requires OpenSSL 1.0.1 or later.",
     false).

(** An [int] stored in an [unsigned int]. *)
Definition cast_unsigned (v : Z) : Z := v mod 2 ^ 32.

(** [_advertiseNPN_cb(s, data, len, args)]: [*data], [*len] and the
    result. *)
Definition _advertiseNPN_cb (ssl_ctx : PySSLContext) : list Z * Z * Z :=
  match npn_protocols ssl_ctx with
  | None => ([], 0, SSL_TLSEXT_ERR_OK)
  | Some protocols =>
      (protocols, cast_unsigned (npn_protocols_len ssl_ctx),
       SSL_TLSEXT_ERR_OK)
  end.

(** [_selectNPN_cb(s, out, outlen, server, server_len, args)]: what the
    engine's [SSL_select_next_proto] stores in [*out], and the result. *)
Definition _selectNPN_cb
    (SSL_select_next_proto : list Z -> Z -> list Z -> Z -> list Z)
    (server : list Z) (server_len : Z) (ssl_ctx : PySSLContext)
    : list Z * Z :=
  let '(client, client_len) :=
    match npn_protocols ssl_ctx with
    | None => ([], 0)
    | Some client => (client, npn_protocols_len ssl_ctx)
    end in
  (SSL_select_next_proto server server_len client (cast_unsigned client_len),
   SSL_TLSEXT_ERR_OK).

(** ** Creating a channel *)

Inductive setup_call : Type :=
  | call_ERR_get_state
  | call_setup_ERR_clear_error
  | call_SSL_new
  | call_SSL_set_app_data
  | call_SSL_set_fd (fd : Z)
  | call_SSL_set_mode (mode : Z)
  | call_SSL_set_tlsext_host_name (name : string)
  | call_BIO_set_nbio (writing : bool) (on : Z)
  | call_SSL_set_connect_state
  | call_SSL_set_accept_state.

Definition SSL_MODE_ACCEPT_MOVING_WRITE_BUFFER : Z := 2.
Definition SSL_MODE_AUTO_RETRY : Z := 4.

(** [newPySSLSocket(sslctx, sock, socket_type, server_hostname)].
    [SSL_new] is the engine's connection for the context, [socket_type]
    the C int that arrives as the enumeration and [uninitialised] what the
    memory from [PyObject_New] holds where the function stores nothing:
    the field [shutdown_seen_zero].  [SSL_MODE_AUTO_RETRY] is taken to be
    defined by the engine's headers. *)
Definition newPySSLSocket (B : build) (SSL_new : SSL_CTX -> SSL)
    (uninitialised : Z) (sslctx : PySSLContext) (sock : PySocketSockObject)
    (socket_type : Z) (server_hostname : option string)
    : PySSLSocket * list setup_call :=
  let mode := Z.lor SSL_MODE_ACCEPT_MOVING_WRITE_BUFFER SSL_MODE_AUTO_RETRY in
  ({| Socket := Some sock;
      ssl := SSL_new (ctx sslctx);
      peer_cert := None;
      shutdown_seen_zero := uninitialised;
      socket_type := if socket_type =? 0 then PY_SSL_CLIENT else PY_SSL_SERVER |},
   [call_ERR_get_state; call_setup_ERR_clear_error; call_SSL_new;
    call_SSL_set_app_data; call_SSL_set_fd (sock_fd sock);
    call_SSL_set_mode mode]
   ++ (match server_hostname with
       | Some name =>
           if HAVE_SNI B then [call_SSL_set_tlsext_host_name name] else []
       | None => []
       end)
   ++ (if double_ge_zero (sock_timeout sock)
       then [call_BIO_set_nbio false 1; call_BIO_set_nbio true 1]
       else [])
   ++ [if socket_type =? 0 then call_SSL_set_connect_state
       else call_SSL_set_accept_state]).

(** The third argument of [_wrap_socket] as the two attempts of the
    argument parser sort it. *)
Inductive hostname_arg : Type :=
  | hostname_absent_or_None
  | hostname_idna (encoded : string)
  | hostname_rejected.      (* neither None nor encodable with "idna" *)

(** [context_wrap_socket(self, args, kwds)]; [args] is [None] when the
    first two arguments are not a socket and an int. *)
Definition context_wrap_socket (B : build) (SSL_new : SSL_CTX -> SSL)
    (uninitialised : Z) (self : PySSLContext)
    (args : option (PySocketSockObject * Z * hostname_arg))
    : outcome (PySSLSocket * list setup_call) :=
  match args with
  | None => Raises bad_arguments
  | Some (sock, server_side, hostname_absent_or_None) =>
      Returns (newPySSLSocket B SSL_new uninitialised self sock server_side None)
  | Some (sock, server_side, hostname_rejected) => Raises bad_arguments
  | Some (sock, server_side, hostname_idna hostname) =>
      if negb (HAVE_SNI B) then
        Raises (PyErr_SetString PyExc_ValueError
                  ("server_hostname is not supported "
                   ++ "by your OpenSSL library")%string)
      else
        Returns (newPySSLSocket B SSL_new uninitialised self sock server_side
                   (Some hostname))
  end.

(** ** Channel binding *)

Definition PySSL_CB_MAXLEN : Z := 128.

(** What the engine tells about the two Finished messages of the
    handshake of a connection. *)
Record finished : Type := {
  SSL_session_reused : Z;
  SSL_get_finished : list Z;         (* the message this end sent *)
  SSL_get_peer_finished : list Z     (* the message the peer sent *)
}.

(** [PySSL_tls_unique_cb(self)].  The engine copies at most
    [PySSL_CB_MAXLEN] bytes into [buf] and returns the length of the whole
    message; [stack] is the memory that follows [buf]. *)
Definition PySSL_tls_unique_cb (self : PySSLSocket) (engine : finished)
    (stack : list Z) : PyObject :=
  let not_socket_type :=
    match socket_type self with PY_SSL_CLIENT => 1 | PY_SSL_SERVER => 0 end in
  let message :=
    if negb (Z.lxor (SSL_session_reused engine) not_socket_type =? 0)
    then SSL_get_finished engine
    else SSL_get_peer_finished engine in
  let buf := firstn (Z.to_nat PySSL_CB_MAXLEN) message in
  let len := Z.of_nat (List.length message) in
  if len =? 0 then Py_None
  else PyBytes (firstn (Z.to_nat len) (buf ++ stack)).

(** ** The certificate store of a context *)

Inductive X509_OBJECT : Type :=
  | X509_LU_X509 (x509 : X509)
  | X509_LU_CRL
  | X509_LU_PKEY
  | X509_LU_other (type : Z).

Record store_stats : Type := {
  stat_x509 : Z;
  stat_crl : Z;
  stat_pkey : Z;
  stat_ca : Z
}.

(** The loop of [cert_store_stats] over [store->objs]. *)
Fixpoint cert_store_count (X509_check_ca : X509 -> Z)
    (objs : list X509_OBJECT) (n : store_stats) : store_stats :=
  match objs with
  | [] => n
  | obj :: objs =>
      cert_store_count X509_check_ca objs
        match obj with
        | X509_LU_X509 x509 =>
            {| stat_x509 := stat_x509 n + 1; stat_crl := stat_crl n;
               stat_pkey := stat_pkey n;
               stat_ca := if negb (X509_check_ca x509 =? 0)
                          then stat_ca n + 1 else stat_ca n |}
        | X509_LU_CRL =>
            {| stat_x509 := stat_x509 n; stat_crl := stat_crl n + 1;
               stat_pkey := stat_pkey n; stat_ca := stat_ca n |}
        | X509_LU_PKEY =>
            {| stat_x509 := stat_x509 n; stat_crl := stat_crl n;
               stat_pkey := stat_pkey n + 1; stat_ca := stat_ca n |}
        | X509_LU_other _ => n
        end
  end.

(** [cert_store_stats(self)]; [objs] is the stack of objects of the
    context's store. *)
Definition cert_store_stats (X509_check_ca : X509 -> Z)
    (objs : list X509_OBJECT) : PyObject :=
  let n := cert_store_count X509_check_ca objs
             {| stat_x509 := 0; stat_crl := 0; stat_pkey := 0; stat_ca := 0 |} in
  PyDict [("x509", PyLong (stat_x509 n)); ("crl", PyLong (stat_crl n));
          ("x509_ca", PyLong (stat_ca n))].

(** The loop of [get_ca_certs]; [rlist] is the list built so far. *)
Fixpoint get_ca_certs_loop (X509_check_ca : X509 -> Z) (binary_mode : bool)
    (objs : list X509_OBJECT) (rlist : list PyObject)
    : option (list PyObject) :=
  match objs with
  | [] => Some rlist
  | X509_LU_X509 cert :: objs =>
      if X509_check_ca cert =? 0
      then get_ca_certs_loop X509_check_ca binary_mode objs rlist
      else
        match (if binary_mode then _certificate_to_der cert
               else _decode_certificate cert) with
        | None => None
        | Some ci =>
            get_ca_certs_loop X509_check_ca binary_mode objs (rlist ++ [ci])
        end
  | _ :: objs => get_ca_certs_loop X509_check_ca binary_mode objs rlist
  end.

(** [get_ca_certs(self, args)]; [args] is what [PyArg_ParseTuple] with the
    format "|p" made of the arguments, [None] if it failed.  The result
    [None] is a [NULL] return. *)
Definition get_ca_certs (X509_check_ca : X509 -> Z) (objs : list X509_OBJECT)
    (args : option bool) : option (list PyObject) :=
  match args with
  | None => None
  | Some binary_mode => get_ca_certs_loop X509_check_ca binary_mode objs []
  end.

(** ** Example values for the context *)

Definition a_build : build :=
  {| HAVE_TLSv1_2 := true; OPENSSL_NO_SSL2 := true; HAVE_SNI := true;
     OPENSSL_NO_TLSEXT := false; OPENSSL_NPN_NEGOTIATED := true;
     SSL_OP_ALL := 2147486719 |}.  (* 0x80000BFFL *)

Definition an_SSL_CTX_new (_ : SSL_METHOD) : option SSL_CTX :=
  Some {| ctx_verify_mode := SSL_VERIFY_PEER; ctx_options := 0;
          ctx_sid_ctx := []; ctx_servername_callback := false |}.

Definition a_context : PySSLContext :=
  {| ctx := {| ctx_verify_mode := SSL_VERIFY_NONE; ctx_options := 0;
               ctx_sid_ctx := SID_CTX; ctx_servername_callback := false |};
     npn_protocols := None; npn_protocols_len := 0;
     set_hostname := None |}.

Definition a_hook : sni_hook := fun _ _ => Some (PyLong 112).

Definition a_CA_check (cert : X509) : Z :=
  if X509_get_version cert =? 2 then 1 else 0.

(** ** Notions used to state the properties of the context *)

(** The protocol numbers for which this build has a method. *)
Definition supported_protocol (B : build) (proto_version : Z) : bool :=
  (proto_version =? PY_SSL_VERSION_SSL3)
  || (proto_version =? PY_SSL_VERSION_SSL23)
  || (proto_version =? PY_SSL_VERSION_TLS1)
  || (HAVE_TLSv1_2 B
      && ((proto_version =? PY_SSL_VERSION_TLS1_1)
          || (proto_version =? PY_SSL_VERSION_TLS1_2)))
  || (negb (OPENSSL_NO_SSL2 B) && (proto_version =? PY_SSL_VERSION_SSL2)).

(** A run of assignments to [verify_mode], failed ones included. *)
Definition set_verify_modes (self : PySSLContext) (args : list (option Z))
    : PySSLContext :=
  fold_left (fun self arg => fst (set_verify_mode self arg)) args self.

(** The values among [args] that are one of the three requirements. *)
Definition requirements (args : list (option Z)) : list Z :=
  flat_map (fun arg =>
              match arg with
              | Some n => if (0 <=? n) && (n <=? 2) then [n] else []
              | None => []
              end) args.

Definition has_hook (self : PySSLContext) : bool :=
  match set_hostname self with Some _ => true | None => false end.


(** ** Notions used to state the properties of the certificate store *)

Definition is_certificate (obj : X509_OBJECT) : bool :=
  match obj with X509_LU_X509 _ => true | _ => false end.

Definition is_revocation_list (obj : X509_OBJECT) : bool :=
  match obj with X509_LU_CRL => true | _ => false end.

(** The certificates of the store that the engine takes for those of an
    authority, in the order of the store. *)
Definition ca_certificates (X509_check_ca : X509 -> Z)
    (objs : list X509_OBJECT) : list X509 :=
  flat_map (fun obj =>
              match obj with
              | X509_LU_X509 cert =>
                  if X509_check_ca cert =? 0 then [] else [cert]
              | _ => []
              end) objs.

(** All of the certificates rendered, or nothing. *)
Fixpoint render_all (render : X509 -> option PyObject) (certs : list X509)
    : option (list PyObject) :=
  match certs with
  | [] => Some []
  | cert :: certs =>
      match render cert, render_all render certs with
      | Some o, Some os => Some (o :: os)
      | _, _ => None
      end
  end.

Definition count_of (p : X509_OBJECT -> bool) (objs : list X509_OBJECT) : Z :=
  Z.of_nat (List.length (filter p objs)).

(** ** Passwords of private keys *)

(** The object given as a password, as [_pwinfo_set] sorts it; for a
    string, what [PyUnicode_AsEncodedString] makes of it. *)
Inductive password_object : Type :=
  | pw_str (encoded : list Z + py_exception)
  | pw_bytes (data : list Z)
  | pw_bytearray (data : list Z)
  | pw_other.

(** [_PySSLPasswordInfo] without its thread state.  [pw_callable] is
    [NULL] or what calling the object gives: a result or an exception. *)
Record _PySSLPasswordInfo : Type := {
  pw_callable : option (password_object + py_exception);
  pw_password : option (list Z);
  pw_size : Z;
  pw_error : Z
}.

(** [_pwinfo_set(pw_info, password, bad_type_error)]: the structure
    afterwards and [None] for the result 1, the exception set for 0. *)
Definition _pwinfo_set (pw_info : _PySSLPasswordInfo)
    (password : password_object) (bad_type_error : string)
    : _PySSLPasswordInfo * option py_exception :=
  let data :=
    match password with
    | pw_str (inl password_bytes) => inl password_bytes
    | pw_str (inr e) => inr e
    | pw_bytes data => inl data
    | pw_bytearray data => inl data
    | pw_other => inr (PyErr_SetString PyExc_TypeError bad_type_error)
    end in
  match data with
  | inr e => (pw_info, Some e)
  | inl data =>
      let size := Z.of_nat (List.length data) in
      if INT_MAX <? size then
        (pw_info,
         Some (PyErr_SetString PyExc_ValueError
                 ("password cannot be longer than " ++ string_of_Z INT_MAX
                  ++ " bytes")%string))
      else
        ({| pw_callable := pw_callable pw_info;
            pw_password := Some data;
            pw_size := size;
            pw_error := pw_error pw_info |}, None)
  end.

Record password_ran : Type := {
  pc_return : Z;
  pc_buf : option (list Z);          (* the bytes stored at [buf], if any *)
  pc_info : _PySSLPasswordInfo;
  pc_raised : option py_exception
}.

(** [_password_callback(buf, size, rwflag, userdata)]. *)
Definition _password_callback (size : Z) (userdata : _PySSLPasswordInfo)
    : password_ran :=
  let error (pw_info : _PySSLPasswordInfo) (e : py_exception) :=
    {| pc_return := -1; pc_buf := None;
       pc_info := {| pw_callable := pw_callable pw_info;
                     pw_password := pw_password pw_info;
                     pw_size := pw_size pw_info;
                     pw_error := 1 |};
       pc_raised := Some e |} in
  let copy (pw_info : _PySSLPasswordInfo) :=
    if size <? pw_size pw_info then
      error pw_info
        (PyErr_SetString PyExc_ValueError
           ("password cannot be longer than " ++ string_of_Z size
            ++ " bytes")%string)
    else
      {| pc_return := pw_size pw_info;
         pc_buf := Some (firstn (Z.to_nat (pw_size pw_info))
                           match pw_password pw_info with
                           | Some data => data
                           | None => []
                           end);
         pc_info := pw_info;
         pc_raised := None |} in
  match pw_callable userdata with
  | Some (inr e) => error userdata e
  | Some (inl fn_ret) =>
      match _pwinfo_set userdata fn_ret
              "password callback must return a string" with
      | (pw_info, Some e) => error pw_info e
      | (pw_info, None) => copy pw_info
      end
  | None => copy userdata
  end.

(** ** Loading files into a context *)

(** An exception of a method that reads files: one the module builds, or
    the OSError the interpreter makes of [errno]. *)
Inductive file_exception : Type :=
  | Python_exception (e : py_exception)
  | OSError_from_errno (errno : Z).

Inductive file_call : Type :=
  | call_file_ERR_clear_error
  | call_error_report (c : engine_call)       (* made by [_setSSLError] *)
  | call_SSL_CTX_set_cipher_list (cipherlist : string)
  | call_SSL_CTX_load_verify_locations (cafile capath : option string)
  | call_PEM_read_DHparams
  | call_SSL_CTX_set_tmp_dh
  | call_SSL_CTX_set_default_passwd_cb (module_callback : bool)
  | call_SSL_CTX_use_certificate_chain_file (file : string)
  | call_SSL_CTX_use_PrivateKey_file (file : string)
  | call_SSL_CTX_check_private_key.

Record context_ran : Type := {
  cr_return : option PyObject;           (* [None]: a [NULL] return *)
  cr_raised : option file_exception;     (* the exception left pending *)
  cr_queue : list Z;                     (* the error queue afterwards *)
  cr_calls : list file_call
}.

(** What the engine answers to one call: its result, [errno] and the
    error queue afterwards. *)
Record engine_answer : Type := {
  ea_ret : Z;
  ea_errno : Z;
  ea_queue : list Z
}.

(** [_setSSLError(NULL, 0, __FILE__, __LINE__)] as these methods use it. *)
Definition file_setSSLError (P : platform) (queue : list Z) (lineno : Z)
    (returns : option PyObject) (made : list file_call) : context_ran :=
  let r := _setSSLError P None 0 queue lineno in
  {| cr_return := returns;
     cr_raised := Some (Python_exception (pending_exception r));
     cr_queue := rep_queue r;
     cr_calls := made ++ map call_error_report (rep_calls r) |}.

(** [set_ciphers(self, args)]; [args] is the C string of the one
    argument, [None] if the parser failed; [queue] is the error queue when
    the method is called. *)
Definition set_ciphers (queue : list Z) (args : option string)
    (answer : engine_answer) : context_ran :=
  match args with
  | None =>
      {| cr_return := None; cr_raised := Some (Python_exception bad_arguments);
         cr_queue := queue; cr_calls := [] |}
  | Some cipherlist =>
      let made := [call_SSL_CTX_set_cipher_list cipherlist] in
      if ea_ret answer =? 0 then
        {| cr_return := None;
           cr_raised := Some (Python_exception
                                (PyErr_SetString PySSLErrorObject
                                   "No cipher can be selected."));
           cr_queue := [];
           cr_calls := made ++ [call_file_ERR_clear_error] |}
      else
        {| cr_return := Some Py_None; cr_raised := None;
           cr_queue := ea_queue answer; cr_calls := made |}
  end.

(** A path argument: absent or None, converted by
    [PyUnicode_FSConverter], or refused by it. *)
Inductive path_arg : Type :=
  | path_omitted
  | path_converted (bytes : string)
  | path_rejected.

Definition path_buf (p : path_arg) : option string :=
  match p with path_converted bytes => Some bytes | _ => None end.

(** [load_verify_locations(self, args, kwds)]. *)
Definition load_verify_locations (P : platform) (queue : list Z)
    (args : option (path_arg * path_arg)) (answer : engine_answer)
    : context_ran :=
  let raise (e : py_exception) :=
    {| cr_return := None; cr_raised := Some (Python_exception e);
       cr_queue := queue; cr_calls := [] |} in
  match args with
  | None => raise bad_arguments
  | Some (path_omitted, path_omitted) =>
      raise (PyErr_SetString PyExc_TypeError
               "cafile and capath cannot be both omitted")
  | Some (path_rejected, _) =>
      raise (PyErr_SetString PyExc_TypeError
               "cafile should be a valid filesystem path")
  | Some (_, path_rejected) =>
      raise (PyErr_SetString PyExc_TypeError
               "capath should be a valid filesystem path")
  | Some (cafile, capath) =>
      let made :=
        [call_SSL_CTX_load_verify_locations (path_buf cafile)
           (path_buf capath)] in
      if negb (ea_ret answer =? 1) then
        if negb (ea_errno answer =? 0) then
          {| cr_return := None;
             cr_raised := Some (OSError_from_errno (ea_errno answer));
             cr_queue := [];
             cr_calls := made ++ [call_file_ERR_clear_error] |}
        else file_setSSLError P (ea_queue answer) 2335 None made
      else
        {| cr_return := Some Py_None; cr_raised := None;
           cr_queue := ea_queue answer; cr_calls := made |}
  end.

(** What happens to the file of [load_dh_params]: [_Py_fopen] fails, with
    or without an exception of its own, or the engine reads it and
    answers with parameters or with [NULL]. *)
Inductive dh_file : Type :=
  | dh_not_opened (raised : option py_exception) (errno : Z)
  | dh_read (dh : bool) (answer : engine_answer).

(** [load_dh_params(self, filepath)]; [set_tmp_dh] is the engine's answer
    to [SSL_CTX_set_tmp_dh], if the method gets that far. *)
Definition load_dh_params (P : platform) (queue : list Z) (f : dh_file)
    (set_tmp_dh : engine_answer) : context_ran :=
  match f with
  | dh_not_opened (Some e) _ =>
      {| cr_return := None; cr_raised := Some (Python_exception e);
         cr_queue := queue; cr_calls := [] |}
  | dh_not_opened None errno =>
      {| cr_return := None; cr_raised := Some (OSError_from_errno errno);
         cr_queue := queue; cr_calls := [] |}
  | dh_read false answer =>
      if negb (ea_errno answer =? 0) then
        {| cr_return := None;
           cr_raised := Some (OSError_from_errno (ea_errno answer));
           cr_queue := [];
           cr_calls := [call_PEM_read_DHparams; call_file_ERR_clear_error] |}
      else
        file_setSSLError P (ea_queue answer) 2365 None [call_PEM_read_DHparams]
  | dh_read true answer =>
      let made := [call_PEM_read_DHparams; call_SSL_CTX_set_tmp_dh] in
      if ea_ret set_tmp_dh =? 0 then
        file_setSSLError P (ea_queue set_tmp_dh) 2370 (Some Py_None) made
      else
        {| cr_return := Some Py_None; cr_raised := None;
           cr_queue := ea_queue set_tmp_dh; cr_calls := made |}
  end.

(** The password argument of [load_cert_chain]: absent or None, a
    callable, or any other object. *)
Inductive password_arg : Type :=
  | password_omitted
  | password_callable
  | password_given (o : password_object).

(** The answer of the engine to a call that reads a PEM file.
    [ca_callback] tells whether the engine called [_password_callback]
    meanwhile and that failed, and with which exception: this is what
    sets [pw_info.error]. *)
Record chain_answer : Type := {
  ca_answer : engine_answer;
  ca_callback : option py_exception
}.

(** [load_cert_chain(self, args, kwds)]; [args] is [None] when the parser
    failed, else the conversion of [certfile] ([None]: refused), the key
    file and the password.  [chain], [key] and [check] are the answers to
    [SSL_CTX_use_certificate_chain_file], [SSL_CTX_use_PrivateKey_file]
    and [SSL_CTX_check_private_key], as far as the method gets. *)
Definition load_cert_chain (P : platform)
    (args : option (option string * path_arg * password_arg))
    (chain key : chain_answer) (check : engine_answer) : context_ran :=
  let start := [call_file_ERR_clear_error] in
  let restore := [call_SSL_CTX_set_default_passwd_cb false] in
  let raise (e : py_exception) (made : list file_call) :=
    {| cr_return := None; cr_raised := Some (Python_exception e);
       cr_queue := []; cr_calls := made |} in
  match args with
  | None => raise bad_arguments start
  | Some (None, _, _) =>
      raise (PyErr_SetString PyExc_TypeError
               "certfile should be a valid filesystem path") start
  | Some (Some certfile_bytes, path_rejected, _) =>
      raise (PyErr_SetString PyExc_TypeError
               "keyfile should be a valid filesystem path") (start ++ restore)
  | Some (Some certfile_bytes, keyfile, password) =>
      let setup :=
        match password with
        | password_omitted => inl false
        | password_callable => inl true
        | password_given o =>
            match _pwinfo_set {| pw_callable := None; pw_password := None;
                                 pw_size := 0; pw_error := 0 |} o
                    "password should be a string or callable" with
            | (_, Some e) => inr e
            | (_, None) => inl true
            end
        end in
      match setup with
      | inr e => raise e (start ++ restore)
      | inl installed =>
          let made :=
            start
            ++ (if installed then [call_SSL_CTX_set_default_passwd_cb true]
                else []) in
          (* what a failed read leaves, after the read itself *)
          let failed (answer : chain_answer) (error : option py_exception)
                     (lineno : Z) (made : list file_call) :=
            match error with
            | Some e =>
                (* the password callback has already set the error information *)
                {| cr_return := None; cr_raised := Some (Python_exception e);
                   cr_queue := [];
                   cr_calls := made ++ [call_file_ERR_clear_error] ++ restore |}
            | None =>
                if negb (ea_errno (ca_answer answer) =? 0) then
                  {| cr_return := None;
                     cr_raised :=
                       Some (OSError_from_errno (ea_errno (ca_answer answer)));
                     cr_queue := [];
                     cr_calls :=
                       made ++ [call_file_ERR_clear_error] ++ restore |}
                else
                  let r := file_setSSLError P (ea_queue (ca_answer answer))
                             lineno None made in
                  {| cr_return := cr_return r; cr_raised := cr_raised r;
                     cr_queue := cr_queue r;
                     cr_calls := cr_calls r ++ restore |}
            end in
          (* pw_info.error and the exception of the callback *)
          let error (before : option py_exception) (answer : chain_answer) :=
            if installed then
              match ca_callback answer with
              | Some e => Some e
              | None => before
              end
            else None in
          let made :=
            made ++ [call_SSL_CTX_use_certificate_chain_file certfile_bytes] in
          let pw_error := error None chain in
          if negb (ea_ret (ca_answer chain) =? 1) then
            failed chain pw_error 2240 made
          else
            let made :=
              made
              ++ [call_SSL_CTX_use_PrivateKey_file
                    match keyfile with
                    | path_converted keyfile_bytes => keyfile_bytes
                    | _ => certfile_bytes
                    end] in
            let pw_error := error pw_error key in
            if negb (ea_ret (ca_answer key) =? 1) then
              failed key pw_error 2261 made
            else
              let made := made ++ [call_SSL_CTX_check_private_key] in
              if negb (ea_ret check =? 1) then
                let r := file_setSSLError P (ea_queue check) 2269 None made in
                {| cr_return := cr_return r; cr_raised := cr_raised r;
                   cr_queue := cr_queue r; cr_calls := cr_calls r ++ restore |}
              else
                {| cr_return := Some Py_None;
                   cr_raised :=
                     match pw_error with
                     | Some e => Some (Python_exception e)
                     | None => None
                     end;
                   cr_queue := ea_queue check;
                   cr_calls := made ++ restore |}
      end
  end.

(** ** Notions used to state the properties of these methods *)

(** Whether the module's password callback is the context's callback
    after the calls of a log, given whether it was before. *)
Definition module_callback_installed (before : bool) (made : list file_call)
    : bool :=
  fold_left (fun installed c =>
               match c with
               | call_SSL_CTX_set_default_passwd_cb module_callback =>
                   module_callback
               | _ => installed
               end) made before.

(** The calls by which the engine reads or checks something. *)
Definition is_file_work (c : file_call) : bool :=
  match c with
  | call_SSL_CTX_set_cipher_list _
  | call_SSL_CTX_load_verify_locations _ _
  | call_PEM_read_DHparams
  | call_SSL_CTX_set_tmp_dh
  | call_SSL_CTX_use_certificate_chain_file _
  | call_SSL_CTX_use_PrivateKey_file _
  | call_SSL_CTX_check_private_key => true
  | _ => false
  end.

(** A structure as [load_cert_chain] starts with, or as [_pwinfo_set]
    leaves it: the size is the length of the password. *)
Definition password_of (pw_info : _PySSLPasswordInfo) : list Z :=
  match pw_password pw_info with Some data => data | None => [] end.

Definition pw_info_consistent (pw_info : _PySSLPasswordInfo) : Prop :=
  pw_size pw_info = Z.of_nat (List.length (password_of pw_info)).

Definition key_file_of (certfile_bytes : string) (keyfile : path_arg)
    : string :=
  match keyfile with
  | path_converted keyfile_bytes => keyfile_bytes
  | _ => certfile_bytes
  end.

Definition an_answer (ret : Z) : engine_answer :=
  {| ea_ret := ret; ea_errno := 0; ea_queue := [] |}.

Definition a_failure (errno : Z) (queue : list Z) : engine_answer :=
  {| ea_ret := 0; ea_errno := errno; ea_queue := queue |}.

(** ** Alternative names of a certificate *)

(** The types of general names (x509v3.h). *)
Definition GEN_OTHERNAME : Z := 0.
Definition GEN_X400 : Z := 3.
Definition GEN_EDIPARTY : Z := 5.
Definition GEN_IPADD : Z := 7.
Definition GEN_RID : Z := 8.

(** A general name as [_get_peer_alt_names] looks at it: a directory
    name, one of the three kinds whose bytes are taken as they are, or a
    name of any other type [gntype] with the line that [BIO_gets] reads
    of its print form ([None]: a negative length). *)
Inductive GENERAL_NAME : Type :=
  | GEN_DIRNAME (dirn : X509_NAME)
  | GEN_EMAIL (rfc822Name : string)
  | GEN_DNS (dNSName : string)
  | GEN_URI (uniformResourceIdentifier : string)
  | GEN_printed (gntype : Z) (line : option string).

(** How the function ends: with a value, or with [NULL], and then with or
    without an exception set. *)
Inductive alt_names : Type :=
  | alt_names_are (v : PyObject)
  | alt_names_fail (exception_set : bool).

(** [vptr = strchr(buf, ':')] and the two pieces the function cuts out:
    [buf] up to [vptr] and what follows [vptr + 1]. *)
Fixpoint strchr_colon (buf : string) : option (string * string) :=
  match buf with
  | EmptyString => None
  | String c rest =>
      if (c =? ":")%char then Some (EmptyString, rest)
      else match strchr_colon rest with
           | None => None
           | Some (before, after) => Some (String c before, after)
           end
  end.

(** The rendering of one name: the tuple appended to the list, or the
    failure.  [decode] is [PyUnicode_FromStringAndSize] on the bytes of a
    string, [warning_raises] whether [PyErr_WarnFormat] returns -1. *)
Definition alt_name_tuple (decode : string -> option string)
    (warning_raises : bool) (name : GENERAL_NAME) : PyObject + bool :=
  let pair (kind : string) (as_ : string) :=
    match decode as_ with
    | None => inr true
    | Some v => inl (PyTuple [PyUnicode kind; PyUnicode v])
    end in
  match name with
  | GEN_DIRNAME dirn =>
      match _create_tuple_for_X509_NAME dirn with
      | None => inr true
      | Some v => inl (PyTuple [PyUnicode "DirName"; v])
      end
  | GEN_EMAIL as_ => pair "email" as_
  | GEN_DNS as_ => pair "DNS" as_
  | GEN_URI as_ => pair "URI" as_
  | GEN_printed gntype line =>
      let known :=
        (gntype =? GEN_OTHERNAME) || (gntype =? GEN_X400)
        || (gntype =? GEN_EDIPARTY) || (gntype =? GEN_IPADD)
        || (gntype =? GEN_RID) in
      if negb known && warning_raises then inr true
      else
        match line with
        | None => inr true          (* _setSSLError *)
        | Some buf =>
            match strchr_colon buf with
            | None => inr false     (* goto fail *)
            | Some (before, after) =>
                match decode before, decode after with
                | Some k, Some v => inl (PyTuple [PyUnicode k; PyUnicode v])
                | _, _ => inr true
                end
            end
        end
  end.

(** The loop over the names of one extension. *)
Fixpoint alt_names_of_extension (decode : string -> option string)
    (warning_raises : bool) (names : list GENERAL_NAME)
    (peer_alt_names : list PyObject) : list PyObject + bool :=
  match names with
  | [] => inl peer_alt_names
  | name :: names =>
      match alt_name_tuple decode warning_raises name with
      | inr exception_set => inr exception_set
      | inl t =>
          alt_names_of_extension decode warning_raises names
            (peer_alt_names ++ [t])
      end
  end.

(** The loop over the occurrences of the extension; an occurrence is the
    stack of its names (empty also when the engine decodes it to [NULL]),
    or [None] when the engine has no method for it.
    [peer_alt_names] is [None] as long as it is [Py_None]. *)
Fixpoint alt_names_loop (decode : string -> option string)
    (warning_raises : bool) (exts : list (option (list GENERAL_NAME)))
    (peer_alt_names : option (list PyObject))
    : option (list PyObject) + bool :=
  match exts with
  | [] => inl peer_alt_names
  | ext :: exts =>
      let peer_alt_names :=
        match peer_alt_names with Some l => l | None => [] end in
      match ext with
      | None => inr true    (* "No method for internalizing subjectAltName!" *)
      | Some names =>
          match alt_names_of_extension decode warning_raises names
                  peer_alt_names with
          | inr exception_set => inr exception_set
          | inl peer_alt_names =>
              alt_names_loop decode warning_raises exts (Some peer_alt_names)
          end
      end
  end.

(** [_get_peer_alt_names(certificate)]; [exts] are the occurrences of the
    extension subjectAltName in the certificate, in the order in which
    [X509_get_ext_by_NID] finds them. *)
Definition _get_peer_alt_names (decode : string -> option string)
    (warning_raises : bool) (exts : list (option (list GENERAL_NAME)))
    : alt_names :=
  match alt_names_loop decode warning_raises exts None with
  | inr exception_set => alt_names_fail exception_set
  | inl None => alt_names_are Py_None
  | inl (Some peer_alt_names) => alt_names_are (PyTuple peer_alt_names)
  end.

(** All names of all occurrences, in order. *)
Definition all_alt_names (exts : list (option (list GENERAL_NAME)))
    : list GENERAL_NAME :=
  flat_map (fun ext => match ext with Some names => names | None => [] end)
    exts.

(** Whether a string holds a colon. *)
Fixpoint has_colon (s : string) : bool :=
  match s with
  | EmptyString => false
  | String c rest => (c =? ":")%char || has_colon rest
  end.

(** * Properties *)

(** ** Comparing a timeout with zero *)

Lemma double_negative :
  forall t : Q,
    (t < 0)%Q ->
    double_lt_zero (Number t) = true /\ double_eq_zero (Number t) = false
    /\ double_ge_zero (Number t) = false.
Proof.
  intros t H. cbn. rewrite (proj1 (Qlt_alt _ _) H). auto.
Qed.

Lemma double_zero :
  forall t : Q,
    (t == 0)%Q ->
    double_lt_zero (Number t) = false /\ double_eq_zero (Number t) = true
    /\ double_ge_zero (Number t) = true.
Proof.
  intros t H. cbn. rewrite (proj1 (Qeq_alt _ _) H). auto.
Qed.

Lemma double_positive :
  forall t : Q,
    (0 < t)%Q ->
    double_lt_zero (Number t) = false /\ double_eq_zero (Number t) = false
    /\ double_ge_zero (Number t) = true.
Proof.
  intros t H. cbn. apply Qgt_alt in H. rewrite H. auto.
Qed.

(** ** Error mapper *)

(** C6.  When the engine reports the syscall class and its error queue is
    empty: a return value of 0, or a socket that is gone, gives the EOF
    error; a return value of -1 on a live socket gives exactly one
    exception, the one of the socket's own handler, and the queue is left
    cleared in both cases. *)
Theorem syscall_without_queued_error :
  forall (P : platform) (Socket : option PySocketSockObject)
         (st : engine_step) (ret lineno : Z),
    SSL_get_error st ret = SSL_ERROR_SYSCALL ->
    ERR_peek_last_error (st_queue st) = 0 ->
    let r := PySSL_SetError P true Socket st ret lineno in
    (ret = 0 \/ Socket = None ->
       (exists e, rep_raised r = [e]
                  /\ exc_type e = PySSLEOFErrorObject
                  /\ exc_errno e = Some (py_ssl_error_value PY_SSL_ERROR_EOF))
       /\ rep_queue r = []) /\
    (ret = -1 -> Socket <> None ->
       rep_raised r = [socket_errorhandler]
       /\ rep_queue r = []
       /\ In call_ERR_clear_error (rep_calls r)).
Proof.
  intros P Socket st ret lineno Hclass Hqueue r.
  subst r. unfold PySSL_SetError. cbn [negb].
  rewrite Hclass, Hqueue. cbn.
  split.
  - intros [Hret | Hgone].
    + subst ret. cbn. split; [eexists; repeat split | reflexivity].
    + subst Socket. cbn. rewrite orb_true_r. cbn.
      split; [eexists; repeat split | reflexivity].
  - intros Hret Hlive. subst ret.
    destruct Socket as [s|]; [|congruence]. cbn.
    repeat split; cbn; auto.
Qed.

Lemma syscall_without_queued_error_witness :
  let st := {| st_ret := -1; st_class := SSL_ERROR_SYSCALL; st_queue := [];
               st_signal := false; st_poll := 1; st_shutdown := 0;
               st_data := [] |} in
  let live := Some {| sock_fd := 3; sock_timeout := Number 0 |} in
  SSL_get_error st (-1) = SSL_ERROR_SYSCALL
  /\ ERR_peek_last_error (st_queue st) = 0
  /\ rep_raised (PySSL_SetError a_platform true live st (-1) 581)
      = [socket_errorhandler]
  /\ rep_queue (PySSL_SetError a_platform true live st (-1) 581) = []
  /\ In call_ERR_clear_error
        (rep_calls (PySSL_SetError a_platform true live st (-1) 581)).
Proof.
  intros st live.
  split; [reflexivity|]. split; [reflexivity|].
  apply (proj2 (syscall_without_queued_error a_platform live st (-1) 581
                  eq_refl eq_refl) eq_refl).
  discriminate.
Defined.

(** ** Dead socket *)

(** C3.  On a channel whose socket is gone, handshake, read, write and
    shutdown all raise at once and make no call on the connection; the
    error they raise is a plain SSLError whose numeric classification is
    0, the value of [PY_SSL_ERROR_NONE], and not that of
    [PY_SSL_ERROR_NO_SOCKET] the callers hand to [_setSSLError]. *)
Theorem socket_gone_classified_as_none :
  forall (P : platform) (engine : SSL) (cert : option X509) (seen : Z)
         (type : py_ssl_server_or_client) (script : list engine_step)
         (wargs : option Py_buffer) (rargs : option read_args) (rc : Z),
    let self := {| Socket := None; ssl := engine; peer_cert := cert;
                   shutdown_seen_zero := seen; socket_type := type |} in
    forall r,
      In r [PySSL_SSLdo_handshake P self script;
            PySSL_SSLread P self rargs rc script;
            PySSL_SSLwrite P self wargs rc script;
            PySSL_SSLshutdown P self script] ->
      exists e,
        result r = Raise e
        /\ exc_type e = PySSLErrorObject
        /\ exc_errno e = Some (py_ssl_error_value PY_SSL_ERROR_NONE)
        /\ exc_errno e <> Some (py_ssl_error_value PY_SSL_ERROR_NO_SOCKET)
        /\ no_ssl_call (calls r) = true
        /\ self_after r = self.
Proof.
  intros P engine cert seen type script wargs rargs rc self r Hr.
  cbn in Hr.
  destruct Hr as [<- | [<- | [<- | [<- | []]]]];
    (eexists; repeat split; cbn; discriminate).
Qed.

Lemma socket_gone_classified_as_none_witness :
  exists e,
    result (PySSL_SSLdo_handshake a_platform (a_channel None) [a_step])
      = Raise e
    /\ exc_msg e = "Underlying socket connection gone (_ssl.c:537)"
    /\ exc_errno e = Some 0.
Proof.
  destruct (socket_gone_classified_as_none a_platform no_engine None 0
              PY_SSL_CLIENT [a_step] None None 0 _ (or_introl eq_refl))
    as [e [He _]].
  exists e. cbn in He. injection He as <-. repeat split.
Defined.

(** ** Peer certificate *)

(** C9.  Without a cached peer certificate the query returns None; with
    one, and binary mode not asked for, it returns the empty dictionary
    whenever the verify mode of the connection's context lacks the
    peer-verification bit, and that is never what decoding the certificate
    gives. *)
Theorem peercert_none_or_empty :
  forall (self : PySSLSocket),
    (forall binary_mode,
        peer_cert self = None ->
        PySSL_peercert self (Some binary_mode) = Some Py_None) /\
    (forall cert,
        peer_cert self = Some cert ->
        Z.land (SSL_CTX_get_verify_mode (ssl self)) SSL_VERIFY_PEER = 0 ->
        PySSL_peercert self (Some false) = Some (PyDict [])
        /\ _decode_certificate cert <> Some (PyDict [])).
Proof.
  intros self. split.
  - intros binary_mode Hnone. unfold PySSL_peercert. now rewrite Hnone.
  - intros cert Hcert Hmode. split.
    + unfold PySSL_peercert. rewrite Hcert, Hmode. reflexivity.
    + unfold _decode_certificate.
      repeat match goal with
             | |- context [match ?x with _ => _ end] => destruct x
             end; discriminate.
Qed.

Lemma peercert_none_or_empty_witness :
  peer_cert an_unverified_channel = Some a_certificate
  /\ Z.land (SSL_CTX_get_verify_mode (ssl an_unverified_channel))
            SSL_VERIFY_PEER = 0
  /\ PySSL_peercert an_unverified_channel (Some false) = Some (PyDict [])
  /\ _decode_certificate a_certificate <> Some (PyDict []).
Proof.
  split; [reflexivity|]. split; [reflexivity|].
  exact (proj2 (peercert_none_or_empty an_unverified_channel)
               a_certificate eq_refl eq_refl).
Defined.

(** ** Server-name hook *)



(** A number that converts to a C long but does not fit a C int: the
    alert is what the narrowing leaves, here 40 for 2^32 + 40. *)
Example servername_callback_wide_number_is_narrowed :
  let hook : sni_hook := fun _ _ => Some (PyLong 4294967336) in
  _servername_callback a_platform (Some hook) (a_channel (Some a_live_socket))
    (Some "example.org")
  = {| sni_ret := SSL_TLSEXT_ERR_ALERT_FATAL; sni_al := Some 40 |}.
Proof. reflexivity. Qed.


(** ** Options *)

Lemma delta_applied :
  forall opts new_opts : Z,
    SSL_CTX_set_options
      (SSL_CTX_clear_options opts (Z.land opts (Z.lnot new_opts)))
      (Z.land (Z.lnot opts) new_opts) = new_opts.
Proof.
  intros opts new_opts. unfold SSL_CTX_set_options, SSL_CTX_clear_options.
  apply Z.bits_inj'. intros n Hn.
  rewrite Z.lor_spec, !Z.land_spec, !Z.lnot_spec, Z.land_spec, Z.lnot_spec
    by assumption.
  destruct (Z.testbit opts n), (Z.testbit new_opts n); reflexivity.
Qed.

Lemma clear_nothing : forall opts, SSL_CTX_clear_options opts 0 = opts.
Proof.
  intros opts. unfold SSL_CTX_clear_options. cbn. apply Z.land_m1_r.
Qed.

Lemma set_nothing : forall opts, SSL_CTX_set_options opts 0 = opts.
Proof. intros opts. apply Z.lor_0_r. Qed.

Lemma same_options_no_delta :
  forall v, Z.land v (Z.lnot v) = 0 /\ Z.land (Z.lnot v) v = 0.
Proof.
  intros v. split; apply Z.bits_inj'; intros n Hn;
    rewrite Z.land_spec, Z.lnot_spec, Z.bits_0 by assumption;
    destruct (Z.testbit v n); reflexivity.
Qed.

(** What [set_options] does when no bit has to be cleared or the engine
    can clear bits. *)
Lemma set_options_supported :
  forall (P : platform) (options v : Z),
    HAVE_SSL_CTX_CLEAR_OPTIONS P = true \/ Z.land options (Z.lnot v) = 0 ->
    let clear := Z.land options (Z.lnot v) in
    let set := Z.land (Z.lnot options) v in
    let r := set_options P options (Some v) in
    so_return r = 0 /\ so_raised r = None /\ so_options r = v /\
    filter is_mutation (so_calls r)
    = (if clear =? 0 then [] else [call_SSL_CTX_clear_options clear])
      ++ (if set =? 0 then [] else [call_SSL_CTX_set_options set]).
Proof.
  intros P options v Hsupport clear set r.
  subst r. unfold set_options. fold clear. fold set.
  pose proof (delta_applied options v) as Hdelta. fold clear set in Hdelta.
  destruct (clear =? 0) eqn:Hclear; cbn [negb].
  - apply Z.eqb_eq in Hclear. rewrite Hclear, clear_nothing in Hdelta.
    destruct (set =? 0) eqn:Hset; cbn [negb].
    + apply Z.eqb_eq in Hset. rewrite Hset, set_nothing in Hdelta.
      cbn. auto.
    + cbn. auto.
  - destruct Hsupport as [-> | Hzero].
    + destruct (set =? 0) eqn:Hset; cbn [negb].
      * apply Z.eqb_eq in Hset. rewrite Hset, set_nothing in Hdelta.
        cbn. auto.
      * cbn. auto.
    + apply Z.eqb_neq in Hclear. contradiction.
Qed.

(** C8, as the code has it.  For a requested bitmask: when the linked
    engine can clear option bits, or no bit has to be cleared, the setter
    succeeds, its only mutations are one clearing call with the bits set in
    the old value alone and one setting call with the bits set in the new
    value alone (each left out when it would be empty), and the options
    end up equal to the request; a call that asks for the value already
    held, such as a second call with the same bitmask, makes no mutation.
    When a bit has to be cleared and the engine cannot, the setter raises
    ValueError and changes nothing. *)
Theorem set_options_applies_difference :
  forall (P : platform) (options v : Z),
    let clear := Z.land options (Z.lnot v) in
    let set := Z.land (Z.lnot options) v in
    let r := set_options P options (Some v) in
    (HAVE_SSL_CTX_CLEAR_OPTIONS P = true \/ clear = 0 ->
       so_return r = 0 /\ so_options r = v /\
       filter is_mutation (so_calls r)
       = (if clear =? 0 then [] else [call_SSL_CTX_clear_options clear])
         ++ (if set =? 0 then [] else [call_SSL_CTX_set_options set]) /\
       filter is_mutation (so_calls (set_options P (so_options r) (Some v)))
       = [] /\
       so_options (set_options P (so_options r) (Some v)) = so_options r) /\
    (options = v -> so_return r = 0 /\ so_options r = v /\
                    filter is_mutation (so_calls r) = []) /\
    (HAVE_SSL_CTX_CLEAR_OPTIONS P = false -> clear <> 0 ->
       so_return r = -1 /\ so_options r = options /\
       filter is_mutation (so_calls r) = [] /\
       exists e, so_raised r = Some e /\ exc_type e = PyExc_ValueError).
Proof.
  intros P options v clear set r.
  assert (Hsame : forall w,
            so_return (set_options P w (Some w)) = 0 /\
            so_options (set_options P w (Some w)) = w /\
            filter is_mutation (so_calls (set_options P w (Some w))) = []).
  { intros w.
    destruct (same_options_no_delta w) as [Hc Hs].
    destruct (set_options_supported P w w (or_intror Hc))
      as (Hret & _ & Hopt & Hcalls).
    rewrite Hc, Hs in Hcalls. cbn in Hcalls. auto. }
  split; [|split].
  - intros Hsupport.
    destruct (set_options_supported P options v Hsupport)
      as (Hret & _ & Hopt & Hcalls).
    fold r in Hret, Hopt, Hcalls. fold clear set in Hcalls.
    rewrite Hopt.
    destruct (Hsame v) as (_ & Hopt2 & Hcalls2). auto.
  - intros ->. apply (Hsame v).
  - intros Hold Hclear.
    subst r. unfold set_options. fold clear.
    apply Z.eqb_neq in Hclear. rewrite Hclear, Hold. cbn.
    repeat split. eexists. split; reflexivity.
Qed.

Lemma set_options_applies_difference_witness :
  HAVE_SSL_CTX_CLEAR_OPTIONS a_platform = true
  /\ so_options (set_options a_platform 3 (Some 6)) = 6
  /\ filter is_mutation (so_calls (set_options a_platform 3 (Some 6)))
     = [call_SSL_CTX_clear_options 1; call_SSL_CTX_set_options 4]
  /\ filter is_mutation (so_calls (set_options a_platform 6 (Some 6))) = [].
Proof.
  split; [reflexivity|].
  destruct (proj1 (set_options_applies_difference a_platform 3 6)
              (or_introl eq_refl)) as (_ & Hopt & Hcalls & Hagain & _).
  split; [exact Hopt|]. split; [exact Hcalls|].
  rewrite Hopt in Hagain. exact Hagain.
Defined.

(** C8 as the specification words it fails on an engine that cannot clear
    option bits: asking for 0 while bit 0 is set changes nothing. *)
Lemma set_options_cannot_always_clear :
  ~ (forall (P : platform) (options v : Z),
        so_options (set_options P options (Some v)) = v).
Proof.
  intros Hall.
  specialize (Hall an_old_platform 1 0).
  cbn in Hall. discriminate Hall.
Qed.

(** ** Distinguished names *)

Section Grouping.

Implicit Types (e : X509_NAME_ENTRY) (entries cur : X509_NAME).

Lemma group_by_set_head :
  forall e rest, exists g groups, group_by_set (e :: rest) = (e :: g) :: groups.
Proof.
  intros e rest. cbn.
  destruct (group_by_set rest) as [|[|e' g] groups]; eauto.
  destruct (set e =? set e'); eauto.
Qed.

(** A run that ends where the identifier changes is a group of its own. *)
Lemma group_by_set_run :
  forall cur level tail,
    cur <> [] ->
    all_in_set level cur ->
    (forall e rest, tail = e :: rest -> set e <> level) ->
    group_by_set (cur ++ tail) = cur :: group_by_set tail.
Proof.
  induction cur as [|a cur IH]; intros level tail Hne Hall Htail.
  - congruence.
  - destruct cur as [|a' cur'].
    + cbn. destruct tail as [|e rest]; [reflexivity|].
      destruct (group_by_set_head e rest) as (g & groups & Heq).
      rewrite Heq.
      assert (Ha : set a = level) by (apply Hall; now left).
      specialize (Htail e rest eq_refl).
      destruct (Z.eqb_spec (set a) (set e)); [congruence | reflexivity].
    + assert (Hrec : group_by_set ((a' :: cur') ++ tail)
                     = (a' :: cur') :: group_by_set tail).
      { apply (IH level); [discriminate | | assumption].
        intros e He. apply Hall. now right. }
      change ((a :: a' :: cur') ++ tail) with (a :: (a' :: cur') ++ tail).
      cbn [group_by_set]. rewrite Hrec.
      assert (Ha : set a = level) by (apply Hall; now left).
      assert (Ha' : set a' = level) by (apply Hall; right; now left).
      rewrite Ha, Ha', Z.eqb_refl. reflexivity.
Qed.

Lemma group_by_set_maximal :
  forall entries, maximal_runs entries (group_by_set entries).
Proof.
  induction entries as [|e rest IH].
  - repeat split; constructor.
  - destruct IH as (Hcat & Hne & Hsame & Hdiff).
    cbn [group_by_set].
    destruct (group_by_set rest) as [|[|e' g] groups] eqn:Hrest.
    + cbn in Hcat. subst rest. repeat split; cbn; auto.
      * repeat constructor. discriminate.
      * repeat constructor. exists (set e). intros x [<- | []]. reflexivity.
    + apply Forall_inv in Hne. congruence.
    + apply Forall_inv_tail in Hne.
      pose proof (Forall_inv Hsame) as [level Hlevel].
      apply Forall_inv_tail in Hsame.
      assert (He' : set e' = level) by (apply Hlevel; now left).
      destruct (Z.eqb_spec (set e) (set e')) as [Heq | Hneq].
      * repeat split.
        -- cbn. cbn in Hcat. now rewrite <- Hcat.
        -- constructor; [discriminate | assumption].
        -- constructor; [|assumption].
           exists level. intros x [<- | Hx]; [congruence | now apply Hlevel].
        -- destruct groups as [|g2 groups]; [exact I|].
           destruct Hdiff as [Hd Hdiff]. split; [|assumption].
           intros a b [<- | Ha] Hb.
           ++ rewrite Heq. apply Hd; [now left | assumption].
           ++ now apply Hd.
      * repeat split.
        -- cbn. cbn in Hcat. now rewrite <- Hcat.
        -- constructor; [discriminate|].
           constructor; [discriminate | assumption].
        -- constructor; [|constructor; [now exists level | assumption]].
           exists (set e). intros x [<- | []]. reflexivity.
        -- intros a b [<- | []] Hb.
           rewrite (Hlevel b Hb). congruence.
        -- exact Hdiff.
Qed.

Lemma X509_NAME_loop_undecodable :
  forall entries dn rdn level,
    forallb decodable entries = false ->
    X509_NAME_loop entries dn rdn level = None.
Proof.
  induction entries as [|e rest IH]; intros dn rdn level Hbad.
  - discriminate.
  - cbn in Hbad. cbn [X509_NAME_loop]. unfold decodable in Hbad.
    destruct (_create_tuple_for_attribute (object e) (value e)); [|reflexivity].
    apply IH. exact Hbad.
Qed.

(** The loop invariant: with [cur] the entries of the group being
    collected, the groups closed so far followed by those still to come
    are the groups of the whole name. *)
Lemma X509_NAME_loop_groups :
  forall entries cur dn level,
    Forall (fun e => 0 <= set e) entries ->
    forallb decodable entries = true ->
    cur <> [] -> all_in_set level cur -> 0 <= level ->
    exists dn' rdn',
      X509_NAME_loop entries dn (map attribute_of cur) level = Some (dn', rdn')
      /\ rdn' <> []
      /\ dn' ++ [PyTuple rdn']
         = dn ++ map rdn_of (group_by_set (cur ++ entries)).
Proof.
  induction entries as [|e rest IH];
    intros cur dn level Hpos Hdec Hne Hall Hlevel.
  - exists dn, (map attribute_of cur). repeat split.
    + destruct cur; [congruence | discriminate].
    + rewrite (group_by_set_run cur level []); auto. discriminate.
  - inversion Hpos as [|? ? He Hrest]; subst.
    cbn in Hdec. apply andb_prop in Hdec as [Hde Hdec].
    cbn [X509_NAME_loop].
    assert (Hattr : _create_tuple_for_attribute (object e) (value e)
                    = Some (attribute_of e)).
    { unfold decodable in Hde. unfold attribute_of.
      destruct (_create_tuple_for_attribute (object e) (value e));
        [reflexivity | discriminate]. }
    rewrite Hattr.
    replace (0 <=? level) with true by (symmetry; now apply Z.leb_le).
    cbn [andb].
    destruct (Z.eqb_spec level (set e)) as [Heq | Hneq]; cbn [negb].
    + specialize (IH (cur ++ [e]) dn (set e) Hrest Hdec).
      rewrite map_app in IH. cbn [map] in IH.
      destruct IH as (dn' & rdn' & Hloop & Hrdn & Hout).
      * destruct cur; discriminate.
      * intros x Hx. apply in_app_or in Hx as [Hx | [<- | []]];
          [rewrite <- Heq; now apply Hall | reflexivity].
      * assumption.
      * exists dn', rdn'. rewrite <- app_assoc in Hout. auto.
    + specialize (IH [e] (dn ++ [PyTuple (map attribute_of cur)]) (set e)
                     Hrest Hdec).
      destruct IH as (dn' & rdn' & Hloop & Hrdn & Hout).
      * discriminate.
      * intros x [<- | []]. reflexivity.
      * assumption.
      * exists dn', rdn'. repeat split; [exact Hloop | exact Hrdn |].
        rewrite Hout, <- app_assoc.
        rewrite (group_by_set_run cur level (e :: rest)); auto.
        intros e0 rest0 [= <- <-]. congruence.
Qed.

End Grouping.

(** C5.  For every name whose set identifiers are the indices the engine
    assigns (none negative), the decoder returns, unless an attribute
    cannot be rendered, one tuple per maximal run of consecutive entries
    with the same set identifier, in entry order: the groups partition the
    entries, none is empty, none spans two identifiers and neighbouring
    groups differ in their identifier. *)
Theorem create_tuple_for_X509_NAME_groups :
  forall (xname : X509_NAME),
    Forall (fun e => 0 <= set e) xname ->
    maximal_runs xname (group_by_set xname)
    /\ _create_tuple_for_X509_NAME xname
       = if forallb decodable xname
         then Some (PyTuple (map rdn_of (group_by_set xname)))
         else None.
Proof.
  intros xname Hpos. split; [apply group_by_set_maximal|].
  unfold _create_tuple_for_X509_NAME.
  destruct (forallb decodable xname) eqn:Hdec.
  - destruct xname as [|e rest]; [reflexivity|].
    inversion Hpos as [|? ? He Hrest]; subst.
    cbn in Hdec. apply andb_prop in Hdec as [Hde Hdec].
    cbn [X509_NAME_loop].
    assert (Hattr : _create_tuple_for_attribute (object e) (value e)
                    = Some (attribute_of e)).
    { unfold decodable in Hde. unfold attribute_of.
      destruct (_create_tuple_for_attribute (object e) (value e));
        [reflexivity | discriminate]. }
    rewrite Hattr. cbn [Z.leb Z.compare andb app].
    destruct (X509_NAME_loop_groups rest [e] [] (set e) Hrest Hdec)
      as (dn' & rdn' & Hloop & Hrdn & Hout);
      [discriminate | intros x [<- | []]; reflexivity | assumption |].
    cbn [map] in Hloop. rewrite Hloop.
    destruct rdn' as [|a rdn']; [congruence|].
    cbn [List.length]. rewrite Hout. reflexivity.
  - now rewrite X509_NAME_loop_undecodable.
Qed.

Lemma create_tuple_for_X509_NAME_groups_witness :
  Forall (fun e => 0 <= set e) a_name
  /\ _create_tuple_for_X509_NAME a_name
     = Some (PyTuple
         [PyTuple [PyTuple [PyUnicode "countryName"; PyUnicode "NL"]];
          PyTuple [PyTuple [PyUnicode "organizationName"; PyUnicode "PSF"];
                   PyTuple [PyUnicode "organizationalUnitName";
                            PyUnicode "dev"]];
          PyTuple [PyTuple [PyUnicode "commonName"; PyUnicode "localhost"]]]).
Proof.
  assert (Hpos : Forall (fun e => 0 <= set e) a_name)
    by (repeat constructor; cbn; lia).
  split; [exact Hpos|].
  exact (proj2 (create_tuple_for_X509_NAME_groups a_name Hpos)).
Defined.

(** Why the identifiers must not be negative: [rdn_level] starts at -1
    to mean that no entry was seen, so a negative identifier never closes
    a group. *)
Example negative_identifiers_are_not_split :
  _create_tuple_for_X509_NAME a_malformed_name
  = Some (PyTuple
            [PyTuple [PyTuple [PyUnicode "countryName"; PyUnicode "NL"];
                      PyTuple [PyUnicode "commonName"; PyUnicode "localhost"]]]).
Proof. reflexivity. Qed.

(** ** Shutdown *)

Section ShutdownLog.

Implicit Types (made more : list engine_call).

Lemma zero_rounds_app :
  forall made more,
    zero_rounds (made ++ more) = (zero_rounds made + zero_rounds more)%nat.
Proof.
  intros made more. unfold zero_rounds.
  now rewrite filter_app, length_app.
Qed.

Lemma no_shutdown_no_round :
  forall made, forallb (fun c => negb (is_shutdown_call c)) made = true ->
               zero_rounds made = 0%nat.
Proof.
  induction made as [|c made IH]; [reflexivity|].
  cbn [forallb]. intros H. apply andb_prop in H as [Hc H].
  unfold zero_rounds in *. cbn [filter].
  destruct c; cbn in Hc; try discriminate; cbn; auto.
Qed.

Lemma no_shutdown_read_ahead_off :
  forall made armed,
    forallb (fun c => negb (is_shutdown_call c)) made = true ->
    read_ahead_off armed made = true.
Proof.
  induction made as [|c made IH]; intros armed H; [reflexivity|].
  cbn [forallb] in H. apply andb_prop in H as [Hc H].
  destruct c; cbn in Hc; try discriminate; cbn; auto.
  destruct yes; auto.
Qed.

Lemma read_ahead_off_app :
  forall made more armed,
    read_ahead_off armed made = true ->
    forallb (fun c => negb (is_shutdown_call c)) more = true ->
    read_ahead_off armed (made ++ more) = true.
Proof.
  induction made as [|c made IH]; intros more armed Hm Hfree.
  - now apply no_shutdown_read_ahead_off.
  - destruct c; cbn in *; auto.
    + apply andb_prop in Hm as [-> Hm]. cbn. auto.
    + destruct yes; auto.
Qed.

Lemma no_shutdown_after_first_zero :
  forall made,
    forallb (fun c => negb (is_shutdown_call c)) made = true ->
    forallb (fun c => negb (is_shutdown_call c)) (after_first_zero made) = true.
Proof.
  induction made as [|c made IH]; [reflexivity|].
  cbn [forallb after_first_zero]. intros H. apply andb_prop in H as [Hc H].
  destruct (is_zero_round c); auto.
Qed.

Lemma read_ahead_off_after :
  forall made armed,
    read_ahead_off armed made = true ->
    read_ahead_off false (after_first_zero made) = true.
Proof.
  induction made as [|c made IH]; intros armed H; [reflexivity|].
  destruct c; cbn in *; eauto.
  - apply andb_prop in H as [_ H]. destruct ret; eauto.
  - destruct yes; eauto.
Qed.

Lemma after_first_zero_app :
  forall made more,
    read_ahead_off false (after_first_zero made) = true ->
    forallb (fun c => negb (is_shutdown_call c)) more = true ->
    read_ahead_off false (after_first_zero (made ++ more)) = true.
Proof.
  induction made as [|c made IH]; intros more Hm Hfree.
  - cbn. apply no_shutdown_read_ahead_off.
    now apply no_shutdown_after_first_zero.
  - cbn [app after_first_zero] in *.
    destruct (is_zero_round c); auto.
    now apply read_ahead_off_app.
Qed.

End ShutdownLog.

Section ShutdownLoop.

Variable P : platform.
Variable sock : PySocketSockObject.

(** Once a zero has been counted, at most one more is. *)
Lemma shutdown_loop_second_zero :
  forall script seen_zero zeros,
    1 <= zeros -> (zero_rounds (shutdown_log P sock seen_zero zeros script) <= 1)%nat.
Proof.
  unfold shutdown_log.
  induction script as [|st rest IH]; intros seen_zero zeros Hz.
  - cbn. lia.
  - cbn [shutdown_loop].
    specialize (IH seen_zero zeros Hz).
    destruct (shutdown_loop P sock seen_zero zeros rest) as [[exit more] seen].
    cbn [fst snd] in IH.
    replace (1 <? zeros + 1) with true by (symmetry; apply Z.ltb_lt; lia).
    destruct (st_ret st) as [|p|p]; cbn [Z.ltb Z.eqb Z.compare fst snd].
    + rewrite zero_rounds_app. destruct (seen_zero =? 0); cbn; lia.
    + rewrite zero_rounds_app. destruct (seen_zero =? 0); cbn; lia.
    + destruct (is_want _);
        [destruct (check_socket_and_wait_for_timeout _ _ _ _)|];
        cbn [fst snd]; rewrite !zero_rounds_app;
        destruct (seen_zero =? 0); cbn; lia.
Qed.

Lemma shutdown_loop_two_zeros :
  forall script seen_zero,
    (zero_rounds (shutdown_log P sock seen_zero 0 script) <= 2)%nat.
Proof.
  unfold shutdown_log.
  induction script as [|st rest IH]; intros seen_zero.
  - cbn. lia.
  - cbn [shutdown_loop].
    specialize (IH seen_zero).
    pose proof (shutdown_loop_second_zero rest 1 1 ltac:(lia)) as Hone.
    unfold shutdown_log in Hone. change (0 + 1) with 1. change (1 <? 1) with false.
    destruct (shutdown_loop P sock seen_zero 0 rest) as [[exit more] seen].
    destruct (shutdown_loop P sock 1 1 rest) as [[exit1 more1] seen1].
    cbn [fst snd] in IH, Hone.
    destruct (st_ret st) as [|p|p]; cbn [Z.ltb Z.eqb Z.compare fst snd].
    + rewrite zero_rounds_app. destruct (seen_zero =? 0); cbn; lia.
    + rewrite zero_rounds_app. destruct (seen_zero =? 0); cbn; lia.
    + destruct (is_want _);
        [destruct (check_socket_and_wait_for_timeout _ _ _ _)|];
        cbn [fst snd]; rewrite !zero_rounds_app;
        destruct (seen_zero =? 0); cbn; lia.
Qed.

(** With the flag set, every round switches read-ahead off first. *)
Lemma shutdown_loop_flag_set :
  forall script seen_zero zeros,
    seen_zero <> 0 ->
    read_ahead_off false (shutdown_log P sock seen_zero zeros script) = true.
Proof.
  unfold shutdown_log.
  induction script as [|st rest IH]; intros seen_zero zeros Hseen.
  - reflexivity.
  - cbn [shutdown_loop].
    pose proof (IH seen_zero zeros Hseen) as IHsame.
    pose proof (IH 1 (zeros + 1) ltac:(lia)) as IHone.
    destruct (shutdown_loop P sock seen_zero zeros rest) as [[exit more] seen].
    destruct (shutdown_loop P sock 1 (zeros + 1) rest)
      as [[exit1 more1] seen1].
    cbn [fst snd] in IHsame, IHone.
    apply Z.eqb_neq in Hseen. rewrite Hseen.
    destruct (st_ret st) as [|p|p]; cbn [Z.ltb Z.eqb Z.compare fst snd].
    + destruct (1 <? zeros + 1); cbn; auto.
    + reflexivity.
    + destruct (is_want _);
        [destruct (check_socket_and_wait_for_timeout _ _ _ _)|];
        cbn; auto.
Qed.

(** Whatever the flag was, the rounds after the first zero do. *)
Lemma shutdown_loop_after_zero :
  forall script seen_zero zeros,
    read_ahead_off false (after_first_zero (shutdown_log P sock seen_zero zeros script))
    = true.
Proof.
  induction script as [|st rest IH]; intros seen_zero zeros.
  - reflexivity.
  - destruct (Z.eq_dec seen_zero 0) as [-> | Hseen];
      [|apply (read_ahead_off_after _ false);
        now apply shutdown_loop_flag_set].
    unfold shutdown_log in *. cbn [shutdown_loop].
    pose proof (IH 0 zeros) as IHsame.
    pose proof (shutdown_loop_flag_set rest 1 (zeros + 1) ltac:(lia))
      as Hone.
    unfold shutdown_log in Hone.
    destruct (shutdown_loop P sock 0 zeros rest) as [[exit more] seen].
    destruct (shutdown_loop P sock 1 (zeros + 1) rest)
      as [[exit1 more1] seen1].
    cbn [fst snd] in IHsame, Hone. change (0 =? 0) with true.
    destruct (st_ret st) as [|p|p]; cbn [Z.ltb Z.eqb Z.compare fst snd].
    + destruct (1 <? zeros + 1); cbn; auto.
    + reflexivity.
    + destruct (is_want _);
        [destruct (check_socket_and_wait_for_timeout _ _ _ _)|];
        cbn; auto.
Qed.

End ShutdownLoop.

Lemma PySSL_SetError_no_shutdown :
  forall P ssl_set Socket st ret lineno,
    forallb (fun c => negb (is_shutdown_call c))
            (rep_calls (PySSL_SetError P ssl_set Socket st ret lineno)) = true.
Proof.
  intros. unfold PySSL_SetError.
  repeat match goal with
         | |- context [if ?b then _ else _] => destruct b
         end; reflexivity.
Qed.

(** C2.  Whatever the engine answers, and for however long, one call of
    shutdown sees [SSL_shutdown] answer 0 at most twice, and after the
    first such answer every further [SSL_shutdown] of the call comes right
    after read-ahead has been switched off. *)
Theorem shutdown_rounds_bounded :
  forall (P : platform) (self : PySSLSocket) (script : list engine_step),
    let made := calls (PySSL_SSLshutdown P self script) in
    (zero_rounds made <= 2)%nat
    /\ read_ahead_off false (after_first_zero made) = true.
Proof.
  intros P self script made. subst made. unfold PySSL_SSLshutdown.
  destruct (Socket self) as [sock|]; [|split; [cbn; lia | reflexivity]].
  destruct (sock_fd sock <? 0); [split; [cbn; lia | reflexivity]|].
  pose proof (shutdown_loop_two_zeros P sock script (shutdown_seen_zero self))
    as Htwo.
  pose proof (shutdown_loop_after_zero P sock script (shutdown_seen_zero self) 0)
    as Hoff.
  destruct (shutdown_loop P sock (shutdown_seen_zero self) 0 script)
    as [[exit more] seen] eqn:Hloop.
  unfold shutdown_log in Htwo, Hoff.
  rewrite Hloop in Htwo, Hoff. cbn [fst snd] in Htwo, Hoff.
  assert (Hplain :
            (zero_rounds
               ([call_BIO_set_nbio_rbio (nonblocking_of sock);
                 call_BIO_set_nbio_wbio (nonblocking_of sock)] ++ more) <= 2)%nat
            /\ read_ahead_off false
                 (after_first_zero
                    ([call_BIO_set_nbio_rbio (nonblocking_of sock);
                      call_BIO_set_nbio_wbio (nonblocking_of sock)] ++ more))
               = true).
  { split; [exact Htwo | exact Hoff]. }
  destruct exit as [st| |e|]; try exact Hplain.
  destruct (st_ret st <? 0); [|exact Hplain].
  unfold set_error. cbn [calls].
  pose proof (PySSL_SetError_no_shutdown P true
                (Socket (with_shutdown_seen_zero self seen)) st (st_ret st) 1692)
    as Hfree.
  split.
  - rewrite zero_rounds_app, (no_shutdown_no_round _ Hfree), Nat.add_0_r.
    exact Htwo.
  - rewrite <- app_assoc. cbn [app after_first_zero is_zero_round].
    now apply after_first_zero_app.
Qed.

(** The bound is reached: an engine that keeps answering 0 is asked
    twice, the second time with read-ahead switched off. *)
Example shutdown_with_engine_stuck_at_zero :
  calls (PySSL_SSLshutdown a_platform (a_channel (Some a_live_socket))
           [a_sent_step; a_sent_step; a_sent_step])
  = [call_BIO_set_nbio_rbio true; call_BIO_set_nbio_wbio true;
     call_SSL_shutdown 0;
     call_SSL_set_read_ahead 0; call_SSL_shutdown 0].
Proof. reflexivity. Qed.

(** ** Handshake *)

Section HandshakeLoop.

Variable P : platform.
Variable sock : PySocketSockObject.

Lemma handshake_loop_retry :
  forall st rest,
    handshake_retries P sock st = true ->
    fst (handshake_loop P sock (st :: rest))
    = fst (handshake_loop P sock rest).
Proof.
  intros st rest Hretry. unfold handshake_retries in Hretry.
  apply andb_prop in Hretry as [Hretry Hwait].
  apply andb_prop in Hretry as [Hsig Hwant].
  cbn [handshake_loop].
  destruct (st_signal st); [discriminate|].
  rewrite Hwant.
  destruct (handshake_loop P sock rest) as [exit more].
  destruct (wait_for P sock st _); try discriminate; reflexivity.
Qed.

Lemma handshake_loop_stop :
  forall st rest,
    handshake_retries P sock st = false ->
    fst (handshake_loop P sock (st :: rest))
    = if st_signal st then loop_error interrupted
      else match wait_for P sock st (SSL_get_error st (st_ret st)) with
           | SOCKET_HAS_TIMED_OUT =>
               loop_error (PyErr_SetString timeout_error
                 "_ssl.c:565: The handshake operation timed out")
           | SOCKET_HAS_BEEN_CLOSED =>
               loop_error (PyErr_SetString PySSLErrorObject
                 "_ssl.c:569: Underlying socket has been closed.")
           | SOCKET_TOO_LARGE_FOR_SELECT =>
               loop_error (PyErr_SetString PySSLErrorObject
                 "_ssl.c:573: Underlying socket too large for select().")
           | _ => loop_done st
           end.
Proof.
  intros st rest Hstop. unfold handshake_retries in Hstop.
  cbn [handshake_loop].
  destruct (st_signal st); [reflexivity|]. cbn [negb andb] in Hstop.
  destruct (handshake_loop P sock rest) as [exit more].
  destruct (is_want _); cbn [andb] in Hstop;
    destruct (wait_for P sock st _); try discriminate; reflexivity.
Qed.

Lemma handshake_loop_prefix :
  forall pre script,
    forallb (handshake_retries P sock) pre = true ->
    fst (handshake_loop P sock (pre ++ script))
    = fst (handshake_loop P sock script).
Proof.
  induction pre as [|st pre IH]; intros script Hpre; [reflexivity|].
  cbn [forallb] in Hpre. apply andb_prop in Hpre as [Hst Hpre].
  cbn [app]. rewrite handshake_loop_retry by assumption. now apply IH.
Qed.

(** A loop that was left normally was left at some step of the script,
    after steps that all asked for another round. *)
Lemma handshake_loop_done :
  forall script st,
    fst (handshake_loop P sock script) = loop_done st ->
    exists pre rest,
      script = pre ++ st :: rest
      /\ forallb (handshake_retries P sock) pre = true
      /\ handshake_retries P sock st = false
      /\ st_signal st = false.
Proof.
  induction script as [|st0 script IH]; intros st Hdone.
  - discriminate.
  - destruct (handshake_retries P sock st0) eqn:Hretry.
    + rewrite handshake_loop_retry in Hdone by assumption.
      destruct (IH st Hdone) as (pre & rest & -> & Hpre & Hstop & Hsig).
      exists (st0 :: pre), rest. cbn. rewrite Hretry. auto.
    + rewrite handshake_loop_stop in Hdone by assumption.
      destruct (st_signal st0) eqn:Hsig; [discriminate|].
      exists [], script.
      destruct (wait_for P sock st0 _); try discriminate;
        injection Hdone as <-; auto.
Qed.

End HandshakeLoop.

(** What the method returns, from how its loop was left. *)
Lemma handshake_result :
  forall P self sock script,
    Socket self = Some sock ->
    result (PySSL_SSLdo_handshake P self script)
    = match fst (handshake_loop P sock script) with
      | loop_done st =>
          if st_ret st <? 1
          then Raise (pending_exception
                        (PySSL_SetError P true (Socket self) st (st_ret st) 581))
          else Ok Py_None
      | loop_error e => Raise e
      | _ => Pending
      end.
Proof.
  intros P self sock script Hsock. unfold PySSL_SSLdo_handshake, set_error.
  rewrite Hsock. destruct (handshake_loop P sock script) as [exit made].
  cbn [fst]. destruct exit as [st| |e|]; try reflexivity.
  destruct (st_ret st <? 1); reflexivity.
Qed.

Lemma handshake_caches_certificate :
  forall P self script,
    result (PySSL_SSLdo_handshake P self script) = Ok Py_None ->
    peer_cert (self_after (PySSL_SSLdo_handshake P self script))
    = SSL_get_peer_certificate (ssl self).
Proof.
  intros P self script. unfold PySSL_SSLdo_handshake.
  destruct (Socket self) as [sock|]; [|discriminate].
  destruct (handshake_loop P sock script) as [exit made].
  destruct exit as [st| |e|]; try discriminate.
  destruct (st_ret st <? 1); [discriminate | reflexivity].
Qed.

(** C1, as the code has it.  On a channel whose socket is alive, the
    handshake returns successfully, with the engine's peer certificate
    cached, exactly when its loop reaches a step after which no signal
    handler raised, at which the engine reports no error and a result of
    at least 1; and when the loop ends at a step whose result is 0, the
    call raises. *)
Theorem handshake_succeeds_iff :
  forall (P : platform) (self : PySSLSocket) (sock : PySocketSockObject)
         (script : list engine_step),
    Socket self = Some sock ->
    let r := PySSL_SSLdo_handshake P self script in
    (result r = Ok Py_None
     /\ peer_cert (self_after r) = SSL_get_peer_certificate (ssl self)
     <->
     exists pre st rest,
       script = pre ++ st :: rest
       /\ forallb (handshake_retries P sock) pre = true
       /\ st_signal st = false
       /\ SSL_get_error st (st_ret st) = SSL_ERROR_NONE
       /\ 1 <= st_ret st)
    /\
    (forall pre st rest,
        script = pre ++ st :: rest ->
        forallb (handshake_retries P sock) pre = true ->
        handshake_retries P sock st = false ->
        st_ret st = 0 ->
        exists e, result r = Raise e).
Proof.
  intros P self sock script Hsock r. subst r. split; [split|].
  - intros [Hok _]. rewrite (handshake_result P self sock) in Hok by assumption.
    destruct (fst (handshake_loop P sock script)) as [st| |e|] eqn:Hexit;
      try discriminate.
    destruct (st_ret st <? 1) eqn:Hret; [discriminate|].
    apply Z.ltb_ge in Hret.
    destruct (handshake_loop_done P sock script st Hexit)
      as (pre & rest & -> & Hpre & _ & Hsig).
    exists pre, st, rest. repeat split; auto.
    unfold SSL_get_error.
    replace (0 <? st_ret st) with true by (symmetry; apply Z.ltb_lt; lia).
    reflexivity.
  - intros (pre & st & rest & -> & Hpre & Hsig & Herr & Hret).
    assert (Hok : result (PySSL_SSLdo_handshake P self (pre ++ st :: rest))
                  = Ok Py_None).
    { rewrite (handshake_result P self sock) by assumption.
      rewrite handshake_loop_prefix by assumption.
      rewrite handshake_loop_stop.
      - rewrite Hsig, Herr. cbn.
        replace (st_ret st <? 1) with false
          by (symmetry; apply Z.ltb_ge; lia).
        reflexivity.
      - unfold handshake_retries. rewrite Herr, Hsig. reflexivity. }
    split; [exact Hok | now apply handshake_caches_certificate].
  - intros pre st rest -> Hpre Hstop Hzero.
    rewrite (handshake_result P self sock) by assumption.
    rewrite handshake_loop_prefix by assumption.
    rewrite handshake_loop_stop by assumption.
    destruct (st_signal st); [eauto|].
    destruct (wait_for P sock st _); eauto; rewrite Hzero; cbn; eauto.
Qed.

Lemma handshake_succeeds_iff_witness :
  Socket (a_channel (Some a_live_socket)) = Some a_live_socket
  /\ result (PySSL_SSLdo_handshake a_platform (a_channel (Some a_live_socket))
               [a_want_read_step; a_step])
     = Ok Py_None.
Proof.
  split; [reflexivity|].
  apply (proj2 (proj1 (handshake_succeeds_iff a_platform
                         (a_channel (Some a_live_socket)) a_live_socket
                         [a_want_read_step; a_step] eq_refl))).
  exists [a_want_read_step], a_step, [].
  repeat split; try reflexivity; cbn; lia.
Defined.

(** C1 as the specification words it fails in one direction: the engine
    reports no error and the result 1, a signal handler raises, and the
    handshake fails. *)
Lemma handshake_interrupted_after_last_step :
  ~ (forall (P : platform) (self : PySSLSocket) (sock : PySocketSockObject)
            (script : list engine_step),
        Socket self = Some sock ->
        (exists pre st rest,
            script = pre ++ st :: rest
            /\ forallb (handshake_retries P sock) pre = true
            /\ SSL_get_error st (st_ret st) = SSL_ERROR_NONE
            /\ 1 <= st_ret st) ->
        result (PySSL_SSLdo_handshake P self script) = Ok Py_None).
Proof.
  intros Hall.
  specialize (Hall a_platform (a_channel (Some a_live_socket)) a_live_socket
                [an_interrupted_step] eq_refl).
  assert (H : result (PySSL_SSLdo_handshake a_platform
                        (a_channel (Some a_live_socket)) [an_interrupted_step])
              = Ok Py_None).
  { apply Hall. exists [], an_interrupted_step, [].
    repeat split; try reflexivity; cbn; lia. }
  cbn in H. discriminate H.
Qed.

(** ** Read *)

Section ReadLoop.

Variable P : platform.
Variable sock : PySocketSockObject.
Variable len : Z.

Lemma read_loop_retry :
  forall st rest,
    read_retries P sock st = true ->
    fst (read_loop P sock len (st :: rest))
    = fst (read_loop P sock len rest).
Proof.
  intros st rest Hretry. unfold read_retries in Hretry.
  apply andb_prop in Hretry as [Hretry Hwait].
  apply andb_prop in Hretry as [Hsig Hwant].
  cbn [read_loop].
  destruct (st_signal st); [discriminate|].
  rewrite Hwant.
  destruct (read_loop P sock len rest) as [exit more].
  destruct (wait_for P sock st _); try discriminate; reflexivity.
Qed.

Lemma read_loop_prefix :
  forall pre script,
    forallb (read_retries P sock) pre = true ->
    fst (read_loop P sock len (pre ++ script))
    = fst (read_loop P sock len script).
Proof.
  induction pre as [|st pre IH]; intros script Hpre; [reflexivity|].
  cbn [forallb] in Hpre. apply andb_prop in Hpre as [Hst Hpre].
  cbn [app]. rewrite read_loop_retry by assumption. now apply IH.
Qed.

Lemma read_loop_close_notify :
  forall st rest,
    st_signal st = false ->
    SSL_get_error st (st_ret st) = SSL_ERROR_ZERO_RETURN ->
    st_shutdown st = SSL_RECEIVED_SHUTDOWN ->
    fst (read_loop P sock len (st :: rest)) = loop_eof.
Proof.
  intros st rest Hsig Herr Hshut. cbn [read_loop].
  rewrite Hsig, Herr, Hshut. reflexivity.
Qed.

End ReadLoop.

(** What read returns, from how its loop was left. *)
Lemma read_result :
  forall P self sock a len wait_rc script,
    Socket self = Some sock ->
    read_prepare a = inl len ->
    read_proceeds (read_first_wait P self sock wait_rc) = true ->
    result (PySSL_SSLread P self (Some a) wait_rc script)
    = match fst (read_loop P sock len script) with
      | loop_done st =>
          if st_ret st <=? 0
          then Raise (pending_exception
                        (PySSL_SetError P true (Some sock) st (st_ret st) 1586))
          else result (read_done self
                         (match buf a with Some _ => true | None => false end)
                         (st_ret st) (st_data st) [])
      | loop_eof => Ok (nothing_read a)
      | loop_error e => Raise e
      | loop_pending => Pending
      end.
Proof.
  intros P self sock a len wait_rc script Hsock Hprep Hwait.
  unfold PySSL_SSLread, set_error. rewrite Hsock, Hprep.
  destruct (read_loop P sock len script) as [exit made]. cbn [fst].
  unfold nothing_read.
  destruct (read_first_wait P self sock wait_rc); try discriminate;
    (destruct exit as [st| |e|]; try reflexivity;
     [destruct (st_ret st <=? 0); reflexivity
     | destruct (buf a); reflexivity]).
Qed.

(** C4, as the code has it.  When a read gets to a step of its loop after
    which no signal handler raised, at which the engine classifies the
    result as zero-return and the shutdown state of the connection equals
    received-shutdown, the read returns no bytes and raises nothing. *)
Theorem read_close_notify_is_eof :
  forall (P : platform) (self : PySSLSocket) (sock : PySocketSockObject)
         (a : read_args) (len wait_rc : Z)
         (pre : list engine_step) (st : engine_step) (rest : list engine_step),
    Socket self = Some sock ->
    read_prepare a = inl len ->
    read_proceeds (read_first_wait P self sock wait_rc) = true ->
    forallb (read_retries P sock) pre = true ->
    st_signal st = false ->
    SSL_get_error st (st_ret st) = SSL_ERROR_ZERO_RETURN ->
    st_shutdown st = SSL_RECEIVED_SHUTDOWN ->
    result (PySSL_SSLread P self (Some a) wait_rc (pre ++ st :: rest))
    = Ok (nothing_read a).
Proof.
  intros P self sock a len wait_rc pre st rest
         Hsock Hprep Hwait Hpre Hsig Herr Hshut.
  rewrite (read_result P self sock a len) by assumption.
  rewrite read_loop_prefix by assumption.
  now rewrite read_loop_close_notify.
Qed.

Lemma read_close_notify_is_eof_witness :
  let self := a_channel (Some a_live_socket) in
  let a := {| len := 1024; buf := None |} in
  Socket self = Some a_live_socket
  /\ read_prepare a = inl 1024
  /\ result (PySSL_SSLread a_platform self (Some a) 1
               [a_want_read_step; a_close_notify_step false])
     = Ok (PyBytes []).
Proof.
  intros self a.
  split; [reflexivity|]. split; [reflexivity|].
  exact (read_close_notify_is_eof a_platform self a_live_socket a 1024 1
           [a_want_read_step] (a_close_notify_step false) []
           eq_refl eq_refl eq_refl eq_refl eq_refl eq_refl eq_refl).
Defined.

(** C4 as the specification words it fails when a signal handler raises
    during the step that brings the close-notify: the read raises. *)
Lemma read_close_notify_interrupted :
  ~ (forall (P : platform) (self : PySSLSocket) (sock : PySocketSockObject)
            (a : read_args) (len wait_rc : Z)
            (pre : list engine_step) (st : engine_step)
            (rest : list engine_step),
        Socket self = Some sock ->
        read_prepare a = inl len ->
        read_proceeds (read_first_wait P self sock wait_rc) = true ->
        forallb (read_retries P sock) pre = true ->
        SSL_get_error st (st_ret st) = SSL_ERROR_ZERO_RETURN ->
        st_shutdown st = SSL_RECEIVED_SHUTDOWN ->
        result (PySSL_SSLread P self (Some a) wait_rc (pre ++ st :: rest))
        = Ok (nothing_read a)).
Proof.
  intros Hall.
  specialize (Hall a_platform (a_channel (Some a_live_socket)) a_live_socket
                {| len := 1024; buf := None |} 1024 1
                [] (a_close_notify_step true) []
                eq_refl eq_refl eq_refl eq_refl eq_refl eq_refl).
  cbn in Hall. discriminate Hall.
Qed.

(** ** A closed descriptor *)

Lemma wait_on_closed_descriptor :
  forall (P : platform) (s : PySocketSockObject) (writing : bool) (rc : Z)
         (t : Q),
    sock_timeout s = Number t ->
    (0 < t)%Q ->
    sock_fd s < 0 ->
    check_socket_and_wait_for_timeout P s writing rc = SOCKET_HAS_BEEN_CLOSED.
Proof.
  intros P s writing rc t Hnumber Htimeout Hfd.
  unfold check_socket_and_wait_for_timeout. rewrite Hnumber.
  destruct (double_positive t Htimeout) as (-> & -> & _).
  replace (sock_fd s <? 0) with true by (symmetry; now apply Z.ltb_lt).
  reflexivity.
Qed.

(** C10.  On a channel whose socket has a timeout and a descriptor that is
    already closed: a read that finds no decrypted bytes pending returns no
    bytes, without calling the engine's read; a write raises the
    socket-closed error, and so does a handshake as soon as it has to wait
    for the socket. *)
Theorem read_on_closed_descriptor_is_empty :
  forall (P : platform) (self : PySSLSocket) (sock : PySocketSockObject)
         (t : Q),
    Socket self = Some sock ->
    sock_timeout sock = Number t ->
    (0 < t)%Q ->
    sock_fd sock < 0 ->
    (forall a len wait_rc script,
        SSL_pending (ssl self) = 0 ->
        read_prepare a = inl len ->
        let r := PySSL_SSLread P self (Some a) wait_rc script in
        result r = Ok (nothing_read a)
        /\ ~ In (call_SSL_read len) (calls r)) /\
    (forall b wait_rc script,
        buf_len b <= INT_MAX ->
        result (PySSL_SSLwrite P self (Some b) wait_rc script)
        = Raise (PyErr_SetString PySSLErrorObject
                   "Underlying socket has been closed.")) /\
    (forall st rest,
        st_signal st = false ->
        is_want (SSL_get_error st (st_ret st)) = true ->
        result (PySSL_SSLdo_handshake P self (st :: rest))
        = Raise (PyErr_SetString PySSLErrorObject
                   "_ssl.c:569: Underlying socket has been closed.")).
Proof.
  intros P self sock t Hsock Hnumber Htimeout Hfd.
  pose proof (fun w rc =>
                wait_on_closed_descriptor P sock w rc t Hnumber Htimeout Hfd)
    as Hclosed.
  split; [|split].
  - intros a len wait_rc script Hpending Hprep r. subst r.
    unfold PySSL_SSLread. rewrite Hsock, Hprep.
    unfold read_first_wait. rewrite Hpending, Hclosed. cbn.
    unfold nothing_read. split.
    + destruct (buf a); reflexivity.
    + intros [H | [H | [H | []]]]; discriminate H.
  - intros b wait_rc script Hlen.
    unfold PySSL_SSLwrite. rewrite Hsock.
    replace (INT_MAX <? buf_len b) with false
      by (symmetry; apply Z.ltb_ge; exact Hlen).
    rewrite Hclosed. reflexivity.
  - intros st rest Hsig Hwant.
    rewrite (handshake_result P self sock) by assumption.
    rewrite handshake_loop_stop.
    + rewrite Hsig. unfold wait_for.
      unfold is_want in Hwant.
      destruct (SSL_get_error st (st_ret st) =? SSL_ERROR_WANT_READ);
        [now rewrite Hclosed|].
      cbn in Hwant. rewrite Hwant. now rewrite Hclosed.
    + unfold handshake_retries. rewrite Hsig, Hwant. unfold wait_for.
      unfold is_want in Hwant.
      destruct (SSL_get_error st (st_ret st) =? SSL_ERROR_WANT_READ);
        [now rewrite Hclosed|].
      cbn in Hwant. rewrite Hwant. now rewrite Hclosed.
Qed.

Lemma read_on_closed_descriptor_is_empty_witness :
  let self := a_channel (Some a_closed_socket) in
  sock_timeout a_closed_socket = Number 5
  /\ (0 < 5)%Q
  /\ sock_fd a_closed_socket < 0
  /\ result (PySSL_SSLread a_platform self
               (Some {| len := 1024; buf := None |}) 1 [a_step])
     = Ok (PyBytes [])
  /\ result (PySSL_SSLwrite a_platform self (Some {| buf_len := 5 |}) 1 [a_step])
     = Raise (PyErr_SetString PySSLErrorObject
                "Underlying socket has been closed.")
  /\ result (PySSL_SSLdo_handshake a_platform self [a_want_read_step])
     = Raise (PyErr_SetString PySSLErrorObject
                "_ssl.c:569: Underlying socket has been closed.").
Proof.
  intros self.
  assert (Htimeout : (0 < 5)%Q) by reflexivity.
  assert (Hfd : sock_fd a_closed_socket < 0) by reflexivity.
  destruct (read_on_closed_descriptor_is_empty a_platform self a_closed_socket
              5 eq_refl eq_refl Htimeout Hfd) as (Hread & Hwrite & Hhandshake).
  split; [reflexivity|]. split; [exact Htimeout|]. split; [exact Hfd|].
  split; [|split].
  - exact (proj1 (Hread {| len := 1024; buf := None |} 1024 1 [a_step]
                    eq_refl eq_refl)).
  - apply Hwrite. cbn. unfold INT_MAX. lia.
  - apply Hhandshake; reflexivity.
Defined.

(** * Further properties of the module *)

(** ** The wait helper *)

Lemma waits_for_socket_iff :
  forall d : double,
    waits_for_socket d
    <-> double_lt_zero d = false /\ double_eq_zero d = false.
Proof.
  intros [t|]; cbn; [|tauto].
  rewrite Qgt_alt. destruct (t ?= 0)%Q; split; intros H;
    try discriminate; try destruct H; auto; discriminate.
Qed.

(** X1.  The wait helper looks at the timeout first: a socket is reported
    as blocking exactly when its timeout is a negative number and as
    non-blocking exactly when it is zero, whatever the descriptor is.  A
    closed descriptor is reported exactly when the descriptor is negative
    and the timeout passed both tests, that is when it is a positive
    number or not a number.  A descriptor too large for select is never
    reported where poll is available, and a timeout is reported only when
    the multiplexer returned 0; any other return of the multiplexer, also
    a negative one, counts as ready. *)
Theorem wait_decides_by_timeout_first :
  forall (P : platform) (s : PySocketSockObject) (writing : bool) (rc : Z),
    let state := check_socket_and_wait_for_timeout P s writing rc in
    (state = SOCKET_IS_BLOCKING
     <-> exists t, sock_timeout s = Number t /\ (t < 0)%Q) /\
    (state = SOCKET_IS_NONBLOCKING
     <-> exists t, sock_timeout s = Number t /\ (t == 0)%Q) /\
    (state = SOCKET_HAS_BEEN_CLOSED
     <-> waits_for_socket (sock_timeout s) /\ sock_fd s < 0) /\
    (HAVE_POLL P = true -> state <> SOCKET_TOO_LARGE_FOR_SELECT) /\
    (state = SOCKET_HAS_TIMED_OUT -> rc = 0) /\
    (waits_for_socket (sock_timeout s) -> 0 <= sock_fd s ->
     HAVE_POLL P = true -> rc <> 0 -> state = SOCKET_OPERATION_OK).
Proof.
  intros P s writing rc state. subst state.
  unfold check_socket_and_wait_for_timeout.
  rewrite waits_for_socket_iff.
  assert (Hlt : double_lt_zero (sock_timeout s) = true
                <-> exists t, sock_timeout s = Number t /\ (t < 0)%Q).
  { destruct (sock_timeout s) as [t|]; cbn.
    - split.
      + destruct (t ?= 0)%Q eqn:Hc; try discriminate. intros _.
        exists t. split; [reflexivity|]. now apply Qlt_alt.
      + intros (t' & [= <-] & H). now rewrite (proj1 (Qlt_alt _ _) H).
    - split; [discriminate | intros (t & H & _); discriminate]. }
  assert (Heq : double_eq_zero (sock_timeout s) = true
                <-> exists t, sock_timeout s = Number t /\ (t == 0)%Q).
  { destruct (sock_timeout s) as [t|]; cbn.
    - split.
      + destruct (t ?= 0)%Q eqn:Hc; try discriminate. intros _.
        exists t. split; [reflexivity|]. now apply Qeq_alt.
      + intros (t' & [= <-] & H). now rewrite (proj1 (Qeq_alt _ _) H).
    - split; [discriminate | intros (t & H & _); discriminate]. }
  assert (Hexcl : double_lt_zero (sock_timeout s) = true ->
                  double_eq_zero (sock_timeout s) = false).
  { destruct (sock_timeout s) as [t|]; cbn; [|discriminate].
    destruct (t ?= 0)%Q; auto; discriminate. }
  rewrite <- Hlt, <- Heq.
  destruct (double_lt_zero (sock_timeout s));
    [specialize (Hexcl eq_refl)|clear Hexcl];
    destruct (double_eq_zero (sock_timeout s)); try discriminate;
    destruct (Z.ltb_spec (sock_fd s) 0);
    destruct (HAVE_POLL P); cbn [negb andb];
    try destruct (_PyIsSelectable_fd P (sock_fd s)); cbn [negb];
    destruct (Z.eqb_spec rc 0);
    repeat split; intros; try discriminate; try reflexivity; try assumption;
    try tauto; try lia;
    match goal with
    | H : _ /\ _ |- _ => destruct H; try discriminate; try lia; try tauto
    end.
Qed.

Lemma wait_decides_by_timeout_first_witness :
  waits_for_socket NaN
  /\ check_socket_and_wait_for_timeout a_platform
       {| sock_fd := -1; sock_timeout := NaN |} false 0
     = SOCKET_HAS_BEEN_CLOSED
  /\ check_socket_and_wait_for_timeout a_platform
       {| sock_fd := -1; sock_timeout := Number (-1) |} false 0
     = SOCKET_IS_BLOCKING.
Proof.
  split; [exact I|]. split.
  - refine (proj2 (proj1 (proj2 (proj2
              (wait_decides_by_timeout_first a_platform
                 {| sock_fd := -1; sock_timeout := NaN |} false 0)))) _).
    split; [exact I | reflexivity].
  - refine (proj2 (proj1 (wait_decides_by_timeout_first a_platform
                            {| sock_fd := -1; sock_timeout := Number (-1) |}
                            false 0)) _).
    exists (-1)%Q. split; reflexivity.
Defined.

(** ** Error reports *)

(** X2.  Every report of an engine error, by [PySSL_SetError] and by
    [_setSSLError] alike, sets exactly one exception, clears the engine's
    error queue exactly once and leaves it empty. *)
Theorem error_report_clears_queue_once :
  forall (P : platform) (ssl_set : bool) (Socket : option PySocketSockObject)
         (st : engine_step) (ret lineno errcode : Z)
         (errstr : option string) (queue : list Z),
    (let r := PySSL_SetError P ssl_set Socket st ret lineno in
     List.length (rep_raised r) = 1%nat
     /\ rep_queue r = []
     /\ List.length (filter is_clear_error (rep_calls r)) = 1%nat) /\
    (let r := _setSSLError P errstr errcode queue lineno in
     List.length (rep_raised r) = 1%nat
     /\ rep_queue r = []
     /\ List.length (filter is_clear_error (rep_calls r)) = 1%nat).
Proof.
  intros. split.
  - unfold PySSL_SetError.
    repeat match goal with
           | |- context [if ?b then _ else _] => destruct b
           end; cbn; auto.
  - unfold _setSSLError. destruct errstr; cbn; auto.
Qed.

Lemma PySSL_SetError_by_class :
  forall (P : platform) (Socket : option PySocketSockObject)
         (st : engine_step) (ret lineno : Z),
    SSL_get_error st ret <> SSL_ERROR_SYSCALL ->
    exists e,
      rep_raised (PySSL_SetError P true Socket st ret lineno) = [e]
      /\ exc_errno e = Some (class_errno (SSL_get_error st ret))
      /\ exc_type e = class_exception (SSL_get_error st ret).
Proof.
  intros P Socket st ret lineno Hclass.
  unfold PySSL_SetError, class_errno, class_exception.
  cbn [negb].
  set (err := SSL_get_error st ret) in *.
  unfold SSL_ERROR_ZERO_RETURN, SSL_ERROR_WANT_READ, SSL_ERROR_WANT_WRITE,
    SSL_ERROR_WANT_X509_LOOKUP, SSL_ERROR_WANT_CONNECT, SSL_ERROR_SYSCALL,
    SSL_ERROR_SSL in *.
  destruct (Z.eqb_spec err 6) as [-> | H6]; [eexists; repeat split|].
  destruct (Z.eqb_spec err 2) as [-> | H2]; [eexists; repeat split|].
  destruct (Z.eqb_spec err 3) as [-> | H3]; [eexists; repeat split|].
  destruct (Z.eqb_spec err 4) as [-> | H4]; [eexists; repeat split|].
  destruct (Z.eqb_spec err 7) as [-> | H7]; [eexists; repeat split|].
  destruct (Z.eqb_spec err 5) as [-> | H5]; [congruence|].
  destruct (Z.eqb_spec err 1) as [-> | H1]; [eexists; repeat split|].
  eexists. repeat split. cbn.
  replace ((1 <=? err) && (err <=? 7)) with false; [reflexivity|].
  symmetry. apply andb_false_iff.
  destruct (Z.leb_spec 1 err); [right | now left].
  apply Z.leb_gt. lia.
Qed.

(** X3.  For every engine class but the syscall class the number in the
    raised exception is the engine's own (the enumeration mirrors the
    engine's header), a class outside 1..7 is reported as the invalid
    error code, and want-read, want-write and zero-return get their own
    exception types. *)
Theorem error_numbers_mirror_engine :
  forall (P : platform) (Socket : option PySocketSockObject)
         (st : engine_step) (ret lineno : Z),
    SSL_get_error st ret <> SSL_ERROR_SYSCALL ->
    exists e,
      rep_raised (PySSL_SetError P true Socket st ret lineno) = [e]
      /\ exc_errno e = Some (class_errno (SSL_get_error st ret))
      /\ exc_type e = class_exception (SSL_get_error st ret).
Proof. exact PySSL_SetError_by_class. Qed.

Lemma error_numbers_mirror_engine_witness :
  SSL_get_error a_want_read_step (-1) <> SSL_ERROR_SYSCALL
  /\ exists e,
      rep_raised (PySSL_SetError a_platform true (Some a_live_socket)
                    a_want_read_step (-1) 581) = [e]
      /\ exc_errno e = Some 2
      /\ exc_type e = PySSLWantReadErrorObject.
Proof.
  assert (H : SSL_get_error a_want_read_step (-1) <> SSL_ERROR_SYSCALL)
    by discriminate.
  split; [exact H|].
  exact (error_numbers_mirror_engine a_platform (Some a_live_socket)
           a_want_read_step (-1) 581 H).
Defined.

(** ** Non-blocking sockets and interrupts *)

Lemma wait_for_nonblocking :
  forall (P : platform) (sock : PySocketSockObject) (st : engine_step) (err : Z)
         (t : Q),
    sock_timeout sock = Number t ->
    (t == 0)%Q ->
    wait_for P sock st err
    = if is_want err then SOCKET_IS_NONBLOCKING else SOCKET_OPERATION_OK.
Proof.
  intros P sock st err t Hnumber Hzero. unfold wait_for, is_want,
    check_socket_and_wait_for_timeout.
  rewrite Hnumber. destruct (double_zero t Hzero) as (-> & -> & _).
  destruct (err =? SSL_ERROR_WANT_READ), (err =? SSL_ERROR_WANT_WRITE);
    reflexivity.
Qed.

Lemma want_is_not_positive :
  forall (st : engine_step) (ret : Z),
    is_want (SSL_get_error st ret) = true -> ret <= 0.
Proof.
  intros st ret. unfold SSL_get_error.
  destruct (Z.ltb_spec 0 ret); [discriminate | lia].
Qed.

Lemma want_is_not_syscall :
  forall err, is_want err = true -> err <> SSL_ERROR_SYSCALL.
Proof. intros err Hwant ->. discriminate Hwant. Qed.

(** X4.  On a non-blocking socket handshake, read and write ask the engine
    once and never wait: what would follow in the script is not consulted.
    When the engine then wants to read or to write, the handshake raises
    the want-read or want-write error with the engine's number. *)
Theorem nonblocking_operations_do_not_retry :
  forall (P : platform) (self : PySSLSocket) (sock : PySocketSockObject)
         (st : engine_step) (rest : list engine_step) (t : Q),
    Socket self = Some sock ->
    sock_timeout sock = Number t ->
    (t == 0)%Q ->
    PySSL_SSLdo_handshake P self (st :: rest) = PySSL_SSLdo_handshake P self [st]
    /\ (forall args rc, PySSL_SSLread P self args rc (st :: rest)
                        = PySSL_SSLread P self args rc [st])
    /\ (forall args rc, PySSL_SSLwrite P self args rc (st :: rest)
                        = PySSL_SSLwrite P self args rc [st])
    /\ (st_signal st = false ->
        is_want (SSL_get_error st (st_ret st)) = true ->
        exists e,
          result (PySSL_SSLdo_handshake P self [st]) = Raise e
          /\ exc_errno e = Some (SSL_get_error st (st_ret st))
          /\ exc_type e = class_exception (SSL_get_error st (st_ret st))).
Proof.
  intros P self sock st rest t Hsock Hnumber Hzero.
  pose proof (wait_for_nonblocking P sock st (SSL_get_error st (st_ret st)) t
                Hnumber Hzero)
    as Hwait.
  assert (Hh : handshake_loop P sock (st :: rest) = handshake_loop P sock [st]).
  { cbn [handshake_loop]. destruct (st_signal st); [reflexivity|].
    rewrite Hwait. destruct (is_want _); reflexivity. }
  assert (Hr : forall len, read_loop P sock len (st :: rest)
                           = read_loop P sock len [st]).
  { intros len. cbn [read_loop]. destruct (st_signal st); [reflexivity|].
    rewrite Hwait. destruct (is_want _); [reflexivity|].
    destruct ((_ =? SSL_ERROR_ZERO_RETURN) && _); reflexivity. }
  assert (Hw : forall b, write_loop P sock b (st :: rest)
                         = write_loop P sock b [st]).
  { intros b. cbn [write_loop]. destruct (st_signal st); [reflexivity|].
    rewrite Hwait. destruct (is_want _); reflexivity. }
  split; [|split; [|split]].
  - unfold PySSL_SSLdo_handshake. now rewrite Hsock, Hh.
  - intros args rc. unfold PySSL_SSLread. rewrite Hsock.
    destruct args as [a|]; [|reflexivity].
    destruct (read_prepare a); [|reflexivity]. now rewrite Hr.
  - intros args rc. unfold PySSL_SSLwrite. rewrite Hsock.
    destruct args as [b|]; [|reflexivity]. now rewrite Hw.
  - intros Hsig Hwant.
    rewrite (handshake_result P self sock) by assumption.
    cbn [handshake_loop]. rewrite Hsig, Hwait, Hwant. cbn [fst].
    pose proof (want_is_not_positive st (st_ret st) Hwant) as Hneg.
    replace (st_ret st <? 1) with true by (symmetry; apply Z.ltb_lt; lia).
    destruct (PySSL_SetError_by_class P (Socket self) st (st_ret st) 581
                (want_is_not_syscall _ Hwant)) as (e & Hraised & Hno & Hty).
    exists e. unfold pending_exception. rewrite Hraised. cbn [last].
    repeat split; [|exact Hty].
    rewrite Hno. unfold class_errno. f_equal.
    unfold is_want, SSL_ERROR_WANT_READ, SSL_ERROR_WANT_WRITE in Hwant.
    apply orb_prop in Hwant as [H | H]; apply Z.eqb_eq in H; now rewrite H.
Qed.

Lemma nonblocking_operations_do_not_retry_witness :
  let sock := {| sock_fd := 3; sock_timeout := Number 0 |} in
  sock_timeout sock = Number 0
  /\ (0 == 0)%Q
  /\ exists e,
      result (PySSL_SSLdo_handshake a_platform (a_channel (Some sock))
                [a_want_read_step]) = Raise e
      /\ exc_errno e = Some 2
      /\ exc_type e = PySSLWantReadErrorObject.
Proof.
  intros sock.
  assert (Hzero : (0 == 0)%Q) by reflexivity.
  split; [reflexivity|]. split; [exact Hzero|].
  exact (proj2 (proj2 (proj2
           (nonblocking_operations_do_not_retry a_platform
              (a_channel (Some sock)) sock a_want_read_step [] 0 eq_refl
              eq_refl Hzero)))
           eq_refl eq_refl).
Defined.

(** X5.  A signal handler that raises stops the loops of handshake and of
    read at the step during which it ran: the call raises what the handler
    raised, whatever the engine answered at that step and whatever it
    would have answered later, and the channel is left as it was. *)
Theorem interrupt_stops_the_loop :
  forall (P : platform) (self : PySSLSocket) (sock : PySocketSockObject)
         (pre : list engine_step) (st : engine_step) (rest : list engine_step),
    Socket self = Some sock ->
    st_signal st = true ->
    (forallb (handshake_retries P sock) pre = true ->
     let r := PySSL_SSLdo_handshake P self (pre ++ st :: rest) in
     result r = Raise interrupted /\ self_after r = self) /\
    (forall a len wait_rc,
        read_prepare a = inl len ->
        read_proceeds (read_first_wait P self sock wait_rc) = true ->
        forallb (read_retries P sock) pre = true ->
        result (PySSL_SSLread P self (Some a) wait_rc (pre ++ st :: rest))
        = Raise interrupted).
Proof.
  intros P self sock pre st rest Hsock Hsig. split.
  - intros Hpre r. subst r.
    assert (Hres : result (PySSL_SSLdo_handshake P self (pre ++ st :: rest))
                   = Raise interrupted).
    { rewrite (handshake_result P self sock) by assumption.
      rewrite handshake_loop_prefix by assumption.
      cbn [handshake_loop]. now rewrite Hsig. }
    split; [exact Hres|].
    revert Hres. unfold PySSL_SSLdo_handshake. rewrite Hsock.
    destruct (handshake_loop P sock (pre ++ st :: rest)) as [exit made].
    destruct exit as [st'| |e|]; try reflexivity.
    destruct (st_ret st' <? 1); [reflexivity | discriminate].
  - intros a len wait_rc Hprep Hwait Hpre.
    rewrite (read_result P self sock a len) by assumption.
    rewrite read_loop_prefix by assumption.
    cbn [read_loop]. now rewrite Hsig.
Qed.

Lemma interrupt_stops_the_loop_witness :
  st_signal an_interrupted_step = true
  /\ result (PySSL_SSLdo_handshake a_platform (a_channel (Some a_live_socket))
               [a_want_read_step; an_interrupted_step; a_step])
     = Raise interrupted.
Proof.
  split; [reflexivity|].
  exact (proj1 (proj1 (interrupt_stops_the_loop a_platform
                         (a_channel (Some a_live_socket)) a_live_socket
                         [a_want_read_step] an_interrupted_step [a_step]
                         eq_refl eq_refl) eq_refl)).
Defined.

(** ** Write *)

Lemma write_loop_done_in_script :
  forall (P : platform) (sock : PySocketSockObject) (b : Py_buffer)
         (script : list engine_step) (st : engine_step),
    fst (write_loop P sock b script) = loop_done st ->
    In st script /\ st_signal st = false.
Proof.
  intros P sock b. induction script as [|st0 script IH]; intros st Hdone.
  - discriminate.
  - cbn [write_loop] in Hdone.
    destruct (st_signal st0) eqn:Hsig; [discriminate|].
    destruct (write_loop P sock b script) as [exit more].
    cbn [fst] in IH.
    destruct (wait_for P sock st0 _); try discriminate;
      try (injection Hdone as <-; split; [now left | assumption]);
      (destruct (is_want _);
       [cbn [fst] in Hdone; destruct (IH st Hdone); split; [now right | assumption]
       | injection Hdone as <-; split; [now left | assumption]]).
Qed.

(** X6.  A write of more than INT_MAX bytes is refused with OverflowError
    before the engine or its transport is touched. *)
Theorem write_too_long_never_reaches_engine :
  forall (P : platform) (self : PySSLSocket) (sock : PySocketSockObject)
         (b : Py_buffer) (wait_rc : Z) (script : list engine_step),
    Socket self = Some sock ->
    INT_MAX < buf_len b ->
    let r := PySSL_SSLwrite P self (Some b) wait_rc script in
    (exists e, result r = Raise e /\ exc_type e = PyExc_OverflowError)
    /\ calls r = [].
Proof.
  intros P self sock b wait_rc script Hsock Hlen r. subst r.
  unfold PySSL_SSLwrite. rewrite Hsock.
  replace (INT_MAX <? buf_len b) with true by (symmetry; now apply Z.ltb_lt).
  cbn. split; [eexists; split; reflexivity | reflexivity].
Qed.

Lemma write_too_long_never_reaches_engine_witness :
  INT_MAX < buf_len {| buf_len := 2147483648 |}
  /\ calls (PySSL_SSLwrite a_platform (a_channel (Some a_live_socket))
              (Some {| buf_len := 2147483648 |}) 1 [a_step]) = [].
Proof.
  assert (H : INT_MAX < buf_len {| buf_len := 2147483648 |}) by reflexivity.
  split; [exact H|].
  exact (proj2 (write_too_long_never_reaches_engine a_platform
                  (a_channel (Some a_live_socket)) a_live_socket
                  {| buf_len := 2147483648 |} 1 [a_step] eq_refl H)).
Defined.

(** X7.  When a write returns, it returns a positive number of bytes, the
    one the engine answered at some step of the call during which no
    signal handler raised; an answer of 0 or less is never returned as a
    count. *)
Theorem write_returns_positive_count :
  forall (P : platform) (self : PySSLSocket) (args : option Py_buffer)
         (wait_rc : Z) (script : list engine_step) (v : PyObject),
    result (PySSL_SSLwrite P self args wait_rc script) = Ok v ->
    exists st,
      In st script /\ st_signal st = false
      /\ v = PyLong (st_ret st) /\ 0 < st_ret st.
Proof.
  intros P self args wait_rc script v. unfold PySSL_SSLwrite.
  destruct (Socket self) as [sock|]; [|discriminate].
  destruct args as [b|]; [|discriminate].
  destruct (INT_MAX <? buf_len b); [discriminate|].
  pose proof (write_loop_done_in_script P sock b script) as Hin.
  destruct (write_loop P sock b script) as [exit made]. cbn [fst] in Hin.
  destruct (check_socket_and_wait_for_timeout P sock true wait_rc);
    try discriminate;
    (destruct exit as [st| |e|]; try discriminate;
     destruct (Z.ltb_spec 0 (st_ret st)); [|discriminate];
     intros [= <-]; destruct (Hin st eq_refl); exists st; auto).
Qed.

Lemma write_returns_positive_count_witness :
  result (PySSL_SSLwrite a_platform (a_channel (Some a_live_socket))
            (Some {| buf_len := 5 |}) 1 [a_want_read_step; a_step])
  = Ok (PyLong 1)
  /\ exists st, In st [a_want_read_step; a_step]
                /\ st_signal st = false
                /\ PyLong 1 = PyLong (st_ret st) /\ 0 < st_ret st.
Proof.
  assert (H : result (PySSL_SSLwrite a_platform (a_channel (Some a_live_socket))
                        (Some {| buf_len := 5 |}) 1 [a_want_read_step; a_step])
              = Ok (PyLong 1)) by reflexivity.
  split; [exact H|].
  exact (write_returns_positive_count a_platform _ _ _ _ _ H).
Defined.

(** ** Read *)

(** X8.  A read never asks the engine for more bytes than its target
    holds: with a caller's buffer the length asked is the argument when it
    is positive and fits, else the length of the buffer; without one it is
    the argument, which must not be negative. *)
Theorem read_length_fits_target :
  forall (a : read_args) (n : Z),
    read_prepare a = inl n ->
    (buf a = None -> n = len a /\ 0 <= n) /\
    (forall b, buf a = Some b -> 0 <= buf_len b ->
       0 <= n <= buf_len b
       /\ (0 < len a <= buf_len b -> n = len a)
       /\ (len a <= 0 \/ buf_len b < len a -> n = buf_len b)).
Proof.
  intros a n. unfold read_prepare. destruct (buf a) as [b|].
  - intros Hprep. split; [discriminate|].
    intros b' [= <-] Hpos.
    destruct (Z.leb_spec (len a) 0) as [Hle | Hgt]; cbn [orb] in Hprep.
    + destruct (Z.eqb_spec (buf_len b) (cast_int (buf_len b))) as [Heq | Hne];
        cbn [negb] in Hprep; [|discriminate].
      injection Hprep as <-. rewrite <- Heq. repeat split; lia.
    + destruct (Z.ltb_spec (buf_len b) (len a)) as [Hlt | Hge].
      * destruct (Z.eqb_spec (buf_len b) (cast_int (buf_len b))) as [Heq | Hne];
          cbn [negb] in Hprep; [|discriminate].
        injection Hprep as <-. rewrite <- Heq. repeat split; lia.
      * injection Hprep as <-. repeat split; lia.
  - destruct (Z.ltb_spec (len a) 0); [discriminate|].
    intros [= <-]. split; [auto | discriminate].
Qed.

Lemma read_length_fits_target_witness :
  read_prepare {| len := 0; buf := Some {| buf_len := 16 |} |} = inl 16
  /\ 0 <= 16 <= buf_len {| buf_len := 16 |}.
Proof.
  assert (H : read_prepare {| len := 0; buf := Some {| buf_len := 16 |} |}
              = inl 16) by reflexivity.
  split; [exact H|].
  exact (proj1 (proj2 (read_length_fits_target _ _ H)
                  {| buf_len := 16 |} eq_refl ltac:(cbn; lia))).
Defined.

(** X9.  When decrypted bytes are pending in the engine a read does not
    wait for the socket first: the answer of the multiplexer plays no
    role, and a descriptor that was closed meanwhile does not stop the
    read from asking the engine. *)
Theorem read_with_pending_bytes_skips_wait :
  forall (P : platform) (self : PySSLSocket) (args : option read_args)
         (rc1 rc2 : Z) (script : list engine_step),
    SSL_pending (ssl self) <> 0 ->
    PySSL_SSLread P self args rc1 script = PySSL_SSLread P self args rc2 script
    /\ (forall sock a len st rest,
          Socket self = Some sock -> args = Some a ->
          read_prepare a = inl len -> script = st :: rest ->
          In (call_SSL_read len) (calls (PySSL_SSLread P self args rc1 script))).
Proof.
  intros P self args rc1 rc2 script Hpending.
  apply Z.eqb_neq in Hpending. split.
  - unfold PySSL_SSLread, read_first_wait. rewrite Hpending. reflexivity.
  - intros sock a len st rest Hsock -> Hprep ->.
    unfold PySSL_SSLread, read_first_wait.
    rewrite Hsock, Hprep, Hpending.
    assert (Hfirst : exists more,
               snd (read_loop P sock len (st :: rest))
               = call_SSL_read len :: more).
    { cbn [read_loop]. destruct (st_signal st); [eexists; reflexivity|].
      destruct (is_want _) eqn:Hwant; cbn [negb andb].
      - destruct (read_loop P sock len rest) as [exit more].
        destruct (wait_for P sock st _); eexists; reflexivity.
      - destruct (_ =? SSL_ERROR_ZERO_RETURN);
          cbn [andb]; [destruct (_ =? SSL_RECEIVED_SHUTDOWN)|];
          eexists; reflexivity. }
    destruct Hfirst as [more Hmore].
    destruct (read_loop P sock len (st :: rest)) as [exit made].
    cbn [snd] in Hmore. subst made.
    destruct exit as [st'| |e|]; cbn.
    + destruct (st_ret st' <=? 0); cbn; auto 6.
    + auto 6.
    + auto 6.
    + auto 6.
Qed.

Lemma read_with_pending_bytes_skips_wait_witness :
  let self := {| Socket := Some a_closed_socket;
                 ssl := {| SSL_get_peer_certificate := None;
                           SSL_CTX_get_verify_mode := SSL_VERIFY_NONE;
                           SSL_pending := 1 |};
                 peer_cert := None; shutdown_seen_zero := 0;
                 socket_type := PY_SSL_CLIENT |} in
  SSL_pending (ssl self) <> 0
  /\ PySSL_SSLread a_platform self (Some {| len := 8; buf := None |}) 0 [a_step]
     = PySSL_SSLread a_platform self (Some {| len := 8; buf := None |}) 1 [a_step].
Proof.
  intros self.
  assert (H : SSL_pending (ssl self) <> 0) by discriminate.
  split; [exact H|].
  exact (proj1 (read_with_pending_bytes_skips_wait a_platform self
                  (Some {| len := 8; buf := None |}) 0 1 [a_step] H)).
Defined.

(** ** Shutdown, continued *)

Lemma shutdown_loop_flag_kept :
  forall (P : platform) (sock : PySocketSockObject) (script : list engine_step)
         (seen_zero zeros : Z),
    1 <= zeros ->
    snd (shutdown_loop P sock seen_zero zeros script) = seen_zero.
Proof.
  intros P sock. induction script as [|st rest IH]; intros seen_zero zeros Hz.
  - reflexivity.
  - cbn [shutdown_loop]. specialize (IH seen_zero zeros Hz).
    destruct (shutdown_loop P sock seen_zero zeros rest) as [[exit more] seen].
    cbn [snd] in IH.
    replace (1 <? zeros + 1) with true by (symmetry; apply Z.ltb_lt; lia).
    destruct (st_ret st) as [|p|p]; cbn [Z.ltb Z.eqb Z.compare snd];
      try reflexivity.
    destruct (is_want _);
      [destruct (check_socket_and_wait_for_timeout _ _ _ _)|];
      cbn [snd]; auto.
Qed.

Lemma shutdown_loop_flag :
  forall (P : platform) (sock : PySocketSockObject) (script : list engine_step)
         (seen_zero : Z),
    snd (shutdown_loop P sock seen_zero 0 script)
    = if (zero_rounds (shutdown_log P sock seen_zero 0 script) =? 0)%nat
      then seen_zero else 1.
Proof.
  intros P sock. unfold shutdown_log.
  induction script as [|st rest IH]; intros seen_zero.
  - reflexivity.
  - cbn [shutdown_loop]. specialize (IH seen_zero).
    pose proof (shutdown_loop_flag_kept P sock rest 1 1 ltac:(lia)) as Hone.
    change (0 + 1) with 1. change (1 <? 1) with false.
    destruct (shutdown_loop P sock seen_zero 0 rest) as [[exit more] seen].
    destruct (shutdown_loop P sock 1 1 rest) as [[exit1 more1] seen1].
    cbn [fst snd] in IH, Hone.
    destruct (st_ret st) as [|p|p]; cbn [Z.ltb Z.eqb Z.compare fst snd].
    + rewrite zero_rounds_app, Hone.
      destruct (seen_zero =? 0); cbn; reflexivity.
    + rewrite zero_rounds_app. destruct (seen_zero =? 0); reflexivity.
    + destruct (is_want _);
        [destruct (check_socket_and_wait_for_timeout _ _ _ _)|];
        cbn [fst snd]; rewrite !zero_rounds_app;
        destruct (seen_zero =? 0); cbn; auto.
Qed.

Lemma shutdown_calls_and_flag :
  forall (P : platform) (self : PySSLSocket) (sock : PySocketSockObject)
         (script : list engine_step),
    Socket self = Some sock -> 0 <= sock_fd sock ->
    let r := PySSL_SSLshutdown P self script in
    zero_rounds (calls r)
    = zero_rounds (shutdown_log P sock (shutdown_seen_zero self) 0 script)
    /\ self_after r
       = with_shutdown_seen_zero self
           (snd (shutdown_loop P sock (shutdown_seen_zero self) 0 script))
    /\ exists tail,
        calls r = [call_BIO_set_nbio_rbio (nonblocking_of sock);
                   call_BIO_set_nbio_wbio (nonblocking_of sock)]
                  ++ shutdown_log P sock (shutdown_seen_zero self) 0 script
                  ++ tail
        /\ forallb (fun c => negb (is_shutdown_call c)) tail = true.
Proof.
  intros P self sock script Hsock Hfd r. subst r.
  unfold PySSL_SSLshutdown, shutdown_log. rewrite Hsock.
  replace (sock_fd sock <? 0) with false by (symmetry; now apply Z.ltb_ge).
  destruct (shutdown_loop P sock (shutdown_seen_zero self) 0 script)
    as [[exit more] seen].
  cbn [fst snd].
  assert (Hplain : forall res,
            zero_rounds (calls {| result := res;
                                  self_after := with_shutdown_seen_zero self seen;
                                  calls := [call_BIO_set_nbio_rbio (nonblocking_of sock);
                                            call_BIO_set_nbio_wbio (nonblocking_of sock)]
                                           ++ more |})
            = zero_rounds more
            /\ with_shutdown_seen_zero self seen = with_shutdown_seen_zero self seen
            /\ exists tail,
                [call_BIO_set_nbio_rbio (nonblocking_of sock);
                 call_BIO_set_nbio_wbio (nonblocking_of sock)] ++ more
                = [call_BIO_set_nbio_rbio (nonblocking_of sock);
                   call_BIO_set_nbio_wbio (nonblocking_of sock)] ++ more ++ tail
                /\ forallb (fun c => negb (is_shutdown_call c)) tail = true).
  { intros res. repeat split. exists []. now rewrite app_nil_r. }
  destruct exit as [st| |e|]; try apply Hplain.
  destruct (st_ret st <? 0); [|apply Hplain].
  unfold set_error. cbn [calls self_after].
  pose proof (PySSL_SetError_no_shutdown P true
                (Socket (with_shutdown_seen_zero self seen)) st (st_ret st) 1692)
    as Hfree.
  repeat split.
  - rewrite zero_rounds_app, (no_shutdown_no_round _ Hfree), Nat.add_0_r.
    reflexivity.
  - eexists. split; [|exact Hfree]. now rewrite <- app_assoc.
Qed.

(** X10.  The zero-seen flag of a channel is set by the first zero answer
    of [SSL_shutdown] and never reset: after a shutdown call it is 1 if
    the call saw a zero answer and what it was otherwise.  So a later
    shutdown on the channel switches read-ahead off before every
    [SSL_shutdown] it makes, the first one included. *)
Theorem shutdown_flag_persists :
  forall (P : platform) (self : PySSLSocket) (sock : PySocketSockObject)
         (script later : list engine_step),
    Socket self = Some sock -> 0 <= sock_fd sock ->
    let r := PySSL_SSLshutdown P self script in
    shutdown_seen_zero (self_after r)
    = (if (zero_rounds (calls r) =? 0)%nat then shutdown_seen_zero self else 1)
    /\ ((1 <= zero_rounds (calls r))%nat ->
        read_ahead_off false (calls (PySSL_SSLshutdown P (self_after r) later))
        = true).
Proof.
  intros P self sock script later Hsock Hfd r.
  destruct (shutdown_calls_and_flag P self sock script Hsock Hfd)
    as (Hrounds & Hafter & _).
  fold r in Hrounds, Hafter.
  assert (Hflag : shutdown_seen_zero (self_after r)
                  = if (zero_rounds (calls r) =? 0)%nat
                    then shutdown_seen_zero self else 1).
  { rewrite Hafter, Hrounds. cbn [with_shutdown_seen_zero shutdown_seen_zero].
    apply shutdown_loop_flag. }
  split; [exact Hflag|].
  intros Hone.
  assert (Hset : shutdown_seen_zero (self_after r) <> 0).
  { rewrite Hflag. destruct (Nat.eqb_spec (zero_rounds (calls r)) 0); lia. }
  assert (Hsock' : Socket (self_after r) = Some sock)
    by (rewrite Hafter; exact Hsock).
  destruct (shutdown_calls_and_flag P (self_after r) sock later Hsock' Hfd)
    as (_ & _ & tail & Hcalls & Hfree).
  rewrite Hcalls.
  cbn [app read_ahead_off].
  apply read_ahead_off_app; [|exact Hfree].
  now apply shutdown_loop_flag_set.
Qed.

Lemma shutdown_flag_persists_witness :
  let self := a_channel (Some a_live_socket) in
  let r := PySSL_SSLshutdown a_platform self [a_sent_step; a_step] in
  0 <= sock_fd a_live_socket
  /\ (1 <= zero_rounds (calls r))%nat
  /\ shutdown_seen_zero (self_after r) = 1
  /\ calls (PySSL_SSLshutdown a_platform (self_after r) [a_step])
     = [call_BIO_set_nbio_rbio true; call_BIO_set_nbio_wbio true;
        call_SSL_set_read_ahead 0; call_SSL_shutdown 1].
Proof.
  intros self r.
  assert (Hfd : 0 <= sock_fd a_live_socket) by (cbn; lia).
  assert (Hone : (1 <= zero_rounds (calls r))%nat) by (cbn; lia).
  split; [exact Hfd|]. split; [exact Hone|].
  split; [|reflexivity].
  exact (proj1 (shutdown_flag_persists a_platform self a_live_socket
                  [a_sent_step; a_step] [] eq_refl Hfd)).
Defined.

Lemma shutdown_loop_negative_ends :
  forall (P : platform) (sock : PySocketSockObject) (t : Q),
    sock_timeout sock = Number t -> (t <= 0)%Q ->
    forall (script : list engine_step) (seen_zero zeros err : Z),
      err < 0 ->
      In (call_SSL_shutdown err)
         (snd (fst (shutdown_loop P sock seen_zero zeros script))) ->
      exists st front,
        fst (fst (shutdown_loop P sock seen_zero zeros script)) = loop_done st
        /\ st_ret st = err
        /\ snd (fst (shutdown_loop P sock seen_zero zeros script))
           = front ++ [call_SSL_shutdown err; call_SSL_get_error err].
Proof.
  intros P sock t Hnumber Htimeout.
  assert (Hwait : forall w rc,
            check_socket_and_wait_for_timeout P sock w rc = SOCKET_IS_BLOCKING
            \/ check_socket_and_wait_for_timeout P sock w rc
               = SOCKET_IS_NONBLOCKING).
  { intros w rc. unfold check_socket_and_wait_for_timeout. rewrite Hnumber.
    cbn. pose proof (proj1 (Qle_alt _ _) Htimeout) as Hcmp.
    destruct (t ?= 0)%Q; auto. now elim Hcmp. }
  induction script as [|st rest IH]; intros seen_zero zeros err Herr Hin.
  - contradiction.
  - cbn [shutdown_loop] in *.
    assert (Hhead : forall e,
               In (call_SSL_shutdown e)
                  ((if seen_zero =? 0 then [] else [call_SSL_set_read_ahead 0])
                   ++ [call_SSL_shutdown (st_ret st)]) ->
               e = st_ret st).
    { intros e He. apply in_app_or in He as [He | [He | []]].
      - destruct (seen_zero =? 0); [contradiction|].
        destruct He as [He | []]. discriminate He.
      - now injection He. }
    destruct (Z.ltb_spec 0 (st_ret st)) as [Hpos|Hpos].
    { cbn [fst snd] in Hin. apply Hhead in Hin. lia. }
    destruct (Z.eqb_spec (st_ret st) 0) as [Hzero|Hzero].
    { destruct (1 <? zeros + 1).
      - cbn [fst snd] in Hin. apply Hhead in Hin. lia.
      - specialize (IH 1 (zeros + 1) err Herr).
        destruct (shutdown_loop P sock 1 (zeros + 1) rest)
          as [[exit more] seen].
        cbn [fst snd] in *. apply in_app_or in Hin as [Hin | Hin].
        + apply Hhead in Hin. lia.
        + destruct (IH Hin) as (st' & front & -> & Hret & ->).
          exists st', (((if seen_zero =? 0 then []
                         else [call_SSL_set_read_ahead 0])
                        ++ [call_SSL_shutdown (st_ret st)]) ++ front).
          split; [reflexivity|]. split; [exact Hret|].
          now rewrite (app_assoc _ front). }
    assert (Hdone :
               In (call_SSL_shutdown err)
                  (((if seen_zero =? 0 then []
                     else [call_SSL_set_read_ahead 0])
                    ++ [call_SSL_shutdown (st_ret st)])
                   ++ [call_SSL_get_error (st_ret st)]) ->
               exists st' front,
                 loop_done st = loop_done st' /\ st_ret st' = err
                 /\ ((if seen_zero =? 0 then []
                      else [call_SSL_set_read_ahead 0])
                     ++ [call_SSL_shutdown (st_ret st)])
                    ++ [call_SSL_get_error (st_ret st)]
                    = front ++ [call_SSL_shutdown err;
                                call_SSL_get_error err]).
    { intros He. apply in_app_or in He as [He | [He | []]];
        [|discriminate He].
      apply Hhead in He. subst err.
      exists st, (if seen_zero =? 0 then []
                  else [call_SSL_set_read_ahead 0]).
      split; [reflexivity|]. split; [reflexivity|].
      now rewrite <- app_assoc. }
    destruct (is_want (SSL_get_error st (st_ret st)));
      [|cbn [fst snd] in *; now apply Hdone].
    destruct (Hwait (negb (SSL_get_error st (st_ret st) =? SSL_ERROR_WANT_READ))
                (st_poll st)) as [Hw | Hw]; rewrite Hw in *;
      cbn [fst snd] in *; now apply Hdone.
Qed.

(** X11.  Shutdown retries after a want-read or want-write only on a
    socket whose timeout lets the wait helper wait.  On a socket whose
    timeout is a number not above zero, blocking or non-blocking, a
    negative answer of [SSL_shutdown] ends the call wherever in the call
    it comes, also after a zero answer: the call raises, and
    [SSL_shutdown] is not called again. *)
Theorem shutdown_retries_only_with_timeout :
  forall (P : platform) (self : PySSLSocket) (sock : PySocketSockObject)
         (script : list engine_step) (t : Q) (err : Z),
    Socket self = Some sock -> 0 <= sock_fd sock ->
    sock_timeout sock = Number t -> (t <= 0)%Q ->
    err < 0 ->
    let r := PySSL_SSLshutdown P self script in
    In (call_SSL_shutdown err) (calls r) ->
    (exists e, result r = Raise e)
    /\ exists front back,
         calls r = front ++ call_SSL_shutdown err :: back
         /\ forallb (fun c => negb (is_shutdown_call c)) back = true.
Proof.
  intros P self sock script t err Hsock Hfd Hnumber Htimeout Herr r Hin.
  subst r. revert Hin.
  pose proof (shutdown_loop_negative_ends P sock t Hnumber Htimeout script
                (shutdown_seen_zero self) 0 err Herr) as Hloop.
  unfold PySSL_SSLshutdown, set_error. rewrite Hsock.
  replace (sock_fd sock <? 0) with false by (symmetry; now apply Z.ltb_ge).
  destruct (shutdown_loop P sock (shutdown_seen_zero self) 0 script)
    as [[exit made] seen].
  cbn [fst snd] in Hloop.
  assert (Hmade : forall tail,
             forallb (fun c => negb (is_shutdown_call c)) tail = true ->
             In (call_SSL_shutdown err)
                ([call_BIO_set_nbio_rbio (nonblocking_of sock);
                  call_BIO_set_nbio_wbio (nonblocking_of sock)]
                 ++ made ++ tail) ->
             In (call_SSL_shutdown err) made).
  { intros tail Htail Hin. cbn [app In] in Hin.
    destruct Hin as [Hin | [Hin | Hin]]; try discriminate Hin.
    apply in_app_or in Hin as [Hin | Hin]; [exact Hin|].
    rewrite forallb_forall in Htail. specialize (Htail _ Hin).
    discriminate Htail. }
  assert (Hend : In (call_SSL_shutdown err) made ->
                 exists st front,
                   exit = loop_done st /\ st_ret st = err
                   /\ made = front ++ [call_SSL_shutdown err;
                                       call_SSL_get_error err])
    by exact Hloop.
  assert (Hfinal : forall st front,
             exit = loop_done st -> st_ret st = err ->
             made = front ++ [call_SSL_shutdown err; call_SSL_get_error err] ->
             (exists e,
                 result (match exit with
                         | loop_done st =>
                             if st_ret st <? 0
                             then {| result :=
                                       Raise (pending_exception
                                                (PySSL_SetError P true
                                                   (Socket (with_shutdown_seen_zero self seen))
                                                   st (st_ret st) 1692));
                                     self_after := with_shutdown_seen_zero self seen;
                                     calls :=
                                       ([call_BIO_set_nbio_rbio (nonblocking_of sock);
                                         call_BIO_set_nbio_wbio (nonblocking_of sock)]
                                        ++ made)
                                       ++ rep_calls
                                            (PySSL_SetError P true
                                               (Socket (with_shutdown_seen_zero self seen))
                                               st (st_ret st) 1692) |}
                             else {| result := Ok (PySocket sock);
                                     self_after := with_shutdown_seen_zero self seen;
                                     calls :=
                                       [call_BIO_set_nbio_rbio (nonblocking_of sock);
                                        call_BIO_set_nbio_wbio (nonblocking_of sock)]
                                       ++ made |}
                         | loop_error e =>
                             {| result := Raise e;
                                self_after := with_shutdown_seen_zero self seen;
                                calls :=
                                  [call_BIO_set_nbio_rbio (nonblocking_of sock);
                                   call_BIO_set_nbio_wbio (nonblocking_of sock)]
                                  ++ made |}
                         | _ =>
                             {| result := Pending;
                                self_after := with_shutdown_seen_zero self seen;
                                calls :=
                                  [call_BIO_set_nbio_rbio (nonblocking_of sock);
                                   call_BIO_set_nbio_wbio (nonblocking_of sock)]
                                  ++ made |}
                         end) = Raise e)
             /\ exists front' back,
                  calls (match exit with
                         | loop_done st =>
                             if st_ret st <? 0
                             then {| result :=
                                       Raise (pending_exception
                                                (PySSL_SetError P true
                                                   (Socket (with_shutdown_seen_zero self seen))
                                                   st (st_ret st) 1692));
                                     self_after := with_shutdown_seen_zero self seen;
                                     calls :=
                                       ([call_BIO_set_nbio_rbio (nonblocking_of sock);
                                         call_BIO_set_nbio_wbio (nonblocking_of sock)]
                                        ++ made)
                                       ++ rep_calls
                                            (PySSL_SetError P true
                                               (Socket (with_shutdown_seen_zero self seen))
                                               st (st_ret st) 1692) |}
                             else {| result := Ok (PySocket sock);
                                     self_after := with_shutdown_seen_zero self seen;
                                     calls :=
                                       [call_BIO_set_nbio_rbio (nonblocking_of sock);
                                        call_BIO_set_nbio_wbio (nonblocking_of sock)]
                                       ++ made |}
                         | loop_error e =>
                             {| result := Raise e;
                                self_after := with_shutdown_seen_zero self seen;
                                calls :=
                                  [call_BIO_set_nbio_rbio (nonblocking_of sock);
                                   call_BIO_set_nbio_wbio (nonblocking_of sock)]
                                  ++ made |}
                         | _ =>
                             {| result := Pending;
                                self_after := with_shutdown_seen_zero self seen;
                                calls :=
                                  [call_BIO_set_nbio_rbio (nonblocking_of sock);
                                   call_BIO_set_nbio_wbio (nonblocking_of sock)]
                                  ++ made |}
                         end)
                  = front' ++ call_SSL_shutdown err :: back
                  /\ forallb (fun c => negb (is_shutdown_call c)) back = true).
  { intros st front -> Hret ->.
    replace (st_ret st <? 0) with true by (symmetry; apply Z.ltb_lt; lia).
    split; [eexists; reflexivity|].
    exists ([call_BIO_set_nbio_rbio (nonblocking_of sock);
             call_BIO_set_nbio_wbio (nonblocking_of sock)] ++ front),
           (call_SSL_get_error err
            :: rep_calls (PySSL_SetError P true
                            (Socket (with_shutdown_seen_zero self seen))
                            st (st_ret st) 1692)).
    split.
    - cbn [calls]. rewrite <- !app_assoc. reflexivity.
    - cbn [forallb is_shutdown_call negb andb].
      apply PySSL_SetError_no_shutdown. }
  intros Hin.
  assert (Hin' : In (call_SSL_shutdown err) made).
  { destruct exit as [st| |e|]; cbn [calls] in Hin.
    - destruct (st_ret st <? 0); cbn [calls] in Hin.
      + rewrite <- app_assoc in Hin.
        apply (Hmade _ (PySSL_SetError_no_shutdown P true _ st (st_ret st) 1692)
                 Hin).
      + apply (Hmade [] eq_refl). now rewrite app_nil_r.
    - apply (Hmade [] eq_refl). now rewrite app_nil_r.
    - apply (Hmade [] eq_refl). now rewrite app_nil_r.
    - apply (Hmade [] eq_refl). now rewrite app_nil_r. }
  destruct (Hend Hin') as (st & front & Hexit & Hret & Hmadeq).
  exact (Hfinal st front Hexit Hret Hmadeq).
Qed.

Lemma shutdown_retries_only_with_timeout_witness :
  let sock := {| sock_fd := 3; sock_timeout := Number (-1) |} in
  let r := PySSL_SSLshutdown a_platform (a_channel (Some sock))
             [a_sent_step; a_want_read_step; a_step] in
  (-1 <= 0)%Q
  /\ In (call_SSL_shutdown (-1)) (calls r)
  /\ exists e, result r = Raise e.
Proof.
  intros sock r.
  assert (Ht : (-1 <= 0)%Q) by discriminate.
  assert (Hin : In (call_SSL_shutdown (-1)) (calls r)).
  { cbn. right. right. right. right. now left. }
  split; [exact Ht|]. split; [exact Hin|].
  exact (proj1 (shutdown_retries_only_with_timeout a_platform
                  (a_channel (Some sock)) sock
                  [a_sent_step; a_want_read_step; a_step] (-1) (-1)
                  eq_refl ltac:(cbn; lia) eq_refl Ht ltac:(lia) Hin)).
Defined.

(** ** What the methods leave alone *)

(** X12.  Read and write never change the channel object.  A handshake
    changes nothing but the cached peer certificate, and that only when it
    succeeds: after a handshake that raised or is still pending the
    certificate cached before is still there.  A shutdown changes nothing
    but the zero-seen flag. *)
Theorem methods_leave_channel_alone :
  forall (P : platform) (self : PySSLSocket) (script : list engine_step)
         (rargs : option read_args) (wargs : option Py_buffer) (rc : Z),
    self_after (PySSL_SSLread P self rargs rc script) = self
    /\ self_after (PySSL_SSLwrite P self wargs rc script) = self
    /\ (let r := PySSL_SSLdo_handshake P self script in
        (result r <> Ok Py_None -> self_after r = self)
        /\ self_after r = with_peer_cert self (peer_cert (self_after r)))
    /\ (let r := PySSL_SSLshutdown P self script in
        self_after r
        = with_shutdown_seen_zero self (shutdown_seen_zero (self_after r))).
Proof.
  intros P self script rargs wargs rc.
  assert (Hself : forall s : PySSLSocket,
             s = with_peer_cert s (peer_cert s)
             /\ s = with_shutdown_seen_zero s (shutdown_seen_zero s))
    by (intros []; split; reflexivity).
  split; [|split; [|split]].
  - unfold PySSL_SSLread. destruct (Socket self) as [sock|]; [|reflexivity].
    destruct rargs as [a|]; [|reflexivity].
    destruct (read_prepare a) as [len|e]; [|reflexivity].
    destruct (read_loop P sock len script) as [exit made].
    destruct (read_first_wait P self sock rc); try reflexivity;
      (destruct exit as [st| |e|]; try reflexivity;
       destruct (st_ret st <=? 0); reflexivity).
  - unfold PySSL_SSLwrite. destruct (Socket self) as [sock|]; [|reflexivity].
    destruct wargs as [b|]; [|reflexivity].
    destruct (INT_MAX <? buf_len b); [reflexivity|].
    destruct (write_loop P sock b script) as [exit made].
    destruct (check_socket_and_wait_for_timeout P sock true rc);
      try reflexivity;
      (destruct exit as [st| |e|]; try reflexivity;
       destruct (0 <? st_ret st); reflexivity).
  - cbv zeta. unfold PySSL_SSLdo_handshake.
    destruct (Socket self) as [sock|];
      [|split; [reflexivity | apply Hself]].
    destruct (handshake_loop P sock script) as [exit made].
    destruct exit as [st| |e|];
      try (split; [reflexivity | apply Hself]).
    destruct (st_ret st <? 1);
      [split; [reflexivity | apply Hself]|].
    split; [intros H; now elim H | reflexivity].
  - cbv zeta. unfold PySSL_SSLshutdown.
    destruct (Socket self) as [sock|]; [|apply Hself].
    destruct (sock_fd sock <? 0); [apply Hself|].
    destruct (shutdown_loop P sock (shutdown_seen_zero self) 0 script)
      as [[exit made] seen].
    destruct exit as [st| |e|]; try reflexivity.
    destruct (st_ret st <? 0); reflexivity.
Qed.

Lemma methods_leave_channel_alone_witness :
  result (PySSL_SSLdo_handshake a_platform an_unverified_channel
            [an_interrupted_step]) <> Ok Py_None
  /\ peer_cert (self_after (PySSL_SSLdo_handshake a_platform
                              an_unverified_channel [an_interrupted_step]))
     = Some a_certificate.
Proof.
  assert (H : result (PySSL_SSLdo_handshake a_platform an_unverified_channel
                        [an_interrupted_step]) <> Ok Py_None) by discriminate.
  split; [exact H|].
  rewrite (proj1 (proj1 (proj2 (proj2
             (methods_leave_channel_alone a_platform an_unverified_channel
                [an_interrupted_step] None None 0)))) H).
  reflexivity.
Defined.

(** ** Decoding a certificate *)

Lemma X509_NAME_loop_decodable :
  forall (entries : X509_NAME) (dn rdn : list PyObject) (rdn_level : Z),
    forallb decodable entries = true ->
    X509_NAME_loop entries dn rdn rdn_level <> None.
Proof.
  induction entries as [|e rest IH]; intros dn rdn rdn_level Hdec.
  - discriminate.
  - cbn in Hdec. apply andb_prop in Hdec as [He Hrest].
    cbn [X509_NAME_loop]. unfold decodable in He.
    destruct (_create_tuple_for_attribute (object e) (value e));
      [|discriminate].
    now apply IH.
Qed.

Lemma create_tuple_for_X509_NAME_fails_iff :
  forall xname : X509_NAME,
    _create_tuple_for_X509_NAME xname = None
    <-> forallb decodable xname = false.
Proof.
  intros xname. unfold _create_tuple_for_X509_NAME. split.
  - intros Hnone. destruct (forallb decodable xname) eqn:Hdec; [|reflexivity].
    pose proof (X509_NAME_loop_decodable xname [] [] (-1) Hdec) as Hloop.
    destruct (X509_NAME_loop xname [] [] (-1)) as [[dn rdn]|];
      [discriminate | congruence].
  - intros Hdec. now rewrite X509_NAME_loop_undecodable.
Qed.

(** X13.  Decoding a certificate is all or nothing: it fails exactly when
    some attribute of the subject or of the issuer cannot be rendered, or
    the serial number, one of the two dates, or the alternative names
    cannot; when it succeeds the dictionary holds subject, issuer, the
    version counted from 1, serial number and both dates, and the
    alternative names exactly when the certificate has some. *)
Theorem decode_certificate_all_or_nothing :
  forall certificate : X509,
    (_decode_certificate certificate = None
     <-> forallb decodable (X509_get_subject_name certificate) = false
         \/ forallb decodable (X509_get_issuer_name certificate) = false
         \/ X509_get_serialNumber certificate = None
         \/ X509_get_notBefore certificate = None
         \/ X509_get_notAfter certificate = None
         \/ subject_alt_names certificate = None) /\
    (forall entries,
        _decode_certificate certificate = Some (PyDict entries) ->
        map fst (firstn 6 entries)
        = ["subject"; "issuer"; "version"; "serialNumber"; "notBefore";
           "notAfter"]
        /\ In ("version", PyLong (X509_get_version certificate + 1)) entries
        /\ (subject_alt_names certificate = Some Py_None ->
            List.length entries = 6%nat)
        /\ (forall names, subject_alt_names certificate = Some names ->
                          names <> Py_None ->
                          skipn 6 entries = [("subjectAltName", names)])).
Proof.
  intros certificate. unfold _decode_certificate.
  pose proof (create_tuple_for_X509_NAME_fails_iff
                (X509_get_subject_name certificate)) as Hs.
  pose proof (create_tuple_for_X509_NAME_fails_iff
                (X509_get_issuer_name certificate)) as Hi.
  destruct (_create_tuple_for_X509_NAME (X509_get_subject_name certificate))
    as [peer|].
  2:{ split; [|discriminate]. split; [intros _; left; now apply Hs | trivial]. }
  destruct (_create_tuple_for_X509_NAME (X509_get_issuer_name certificate))
    as [issuer|].
  2:{ split; [|discriminate].
      split; [intros _; right; left; now apply Hi | trivial]. }
  assert (Hs' : forallb decodable (X509_get_subject_name certificate) <> false)
    by (intros H; apply Hs in H; discriminate).
  assert (Hi' : forallb decodable (X509_get_issuer_name certificate) <> false)
    by (intros H; apply Hi in H; discriminate).
  destruct (X509_get_serialNumber certificate) as [sn|];
    [|split; [split; auto 6 | discriminate]].
  destruct (X509_get_notBefore certificate) as [nb|];
    [|split; [split; auto 6 | discriminate]].
  destruct (X509_get_notAfter certificate) as [na|];
    [|split; [split; auto 7 | discriminate]].
  destruct (subject_alt_names certificate) as [names|];
    [|split; [split; auto 8 | discriminate]].
  split.
  - split; [discriminate|].
    intros [H | [H | [H | [H | [H | H]]]]]; congruence.
  - intros entries [= <-].
    assert (Hlist : forall a b : list (string * PyObject),
               (match names with Py_None => a | _ => b end)
               = if match names with Py_None => true | _ => false end
                 then a else b)
      by (intros; destruct names; reflexivity).
    rewrite Hlist.
    destruct names; cbn; repeat split; auto 8; try congruence;
      intros names' [= <-]; congruence.
Qed.

Lemma decode_certificate_all_or_nothing_witness :
  exists entries,
    _decode_certificate a_certificate = Some (PyDict entries)
    /\ In ("version", PyLong 3) entries
    /\ List.length entries = 6%nat.
Proof.
  assert (H : exists entries,
             _decode_certificate a_certificate = Some (PyDict entries)).
  { eexists. reflexivity. }
  destruct H as [entries H]. exists entries.
  destruct (proj2 (decode_certificate_all_or_nothing a_certificate) entries H)
    as (_ & Hv & Hlen & _).
  split; [exact H|]. split; [exact Hv | exact (Hlen eq_refl)].
Defined.

(** ** The version of the engine *)

Lemma version_fields :
  forall libver : Z,
    0 <= libver ->
    let v := parse_openssl_version libver in
    (0 <= v_major v < 256 /\ 0 <= v_minor v < 256 /\ 0 <= v_fix v < 256
     /\ 0 <= v_patch v < 256 /\ 0 <= v_status v < 16)
    /\ (((v_major v * 256 + v_minor v) * 256 + v_fix v) * 256 + v_patch v) * 16
       + v_status v
       = libver mod 2 ^ 36.
Proof.
  intros libver Hpos. cbv zeta. unfold parse_openssl_version.
  cbn [v_major v_minor v_fix v_patch v_status].
  change 15 with (Z.ones 4). change 255 with (Z.ones 8).
  rewrite !Z.land_ones by lia. rewrite !Z.shiftr_div_pow2 by lia.
  change (2 ^ 4) with 16. change (2 ^ 8) with 256.
  change (2 ^ 36) with 68719476736.
  set (q1 := libver / 16). set (q2 := q1 / 256). set (q3 := q2 / 256).
  set (q4 := q3 / 256).
  pose proof (Z.mod_pos_bound libver 16).
  pose proof (Z.mod_pos_bound q1 256). pose proof (Z.mod_pos_bound q2 256).
  pose proof (Z.mod_pos_bound q3 256). pose proof (Z.mod_pos_bound q4 256).
  pose proof (Z.div_mod libver 16). fold q1 in H4.
  pose proof (Z.div_mod q1 256) as Hq1. fold q2 in Hq1.
  pose proof (Z.div_mod q2 256) as Hq2. fold q3 in Hq2.
  pose proof (Z.div_mod q3 256) as Hq3. fold q4 in Hq3.
  pose proof (Z.div_mod q4 256) as Hq4.
  pose proof (Z.div_mod libver 68719476736) as Hbig.
  pose proof (Z.mod_pos_bound libver 68719476736).
  assert (Hq : libver / 68719476736 = q4 / 256).
  { unfold q4, q3, q2, q1. rewrite !Z.div_div by lia. reflexivity. }
  rewrite Hq in Hbig.
  split; [lia|]. lia.
Qed.

(** X14.  The five fields of the version tuple are the digits of the
    version number: each is within its width, and for a number below
    2^36 (the engine's numbers have 32 bits) the number is recovered as
    ((((major * 256 + minor) * 256 + fix) * 256 + patch) * 16 + status, so
    that different numbers never give the same tuple. *)
Theorem version_info_round_trip :
  forall a b : Z,
    0 <= a < 2 ^ 36 -> 0 <= b < 2 ^ 36 ->
    let v := parse_openssl_version a in
    (((v_major v * 256 + v_minor v) * 256 + v_fix v) * 256 + v_patch v) * 16
    + v_status v = a
    /\ Forall (fun field => 0 <= field < 256) (version_tuple v)
    /\ v_status v < 16
    /\ (parse_openssl_version a = parse_openssl_version b -> a = b).
Proof.
  intros a b Ha Hb. cbv zeta.
  destruct (version_fields a (proj1 Ha)) as [Hfa Hra].
  destruct (version_fields b (proj1 Hb)) as [_ Hrb].
  cbv zeta in Hfa, Hra, Hrb.
  rewrite Z.mod_small in Hra, Hrb by assumption.
  split; [exact Hra|]. split; [|split].
  - unfold version_tuple. repeat constructor; lia.
  - lia.
  - intros Heq. rewrite <- Hra, <- Hrb, Heq. reflexivity.
Qed.

Lemma version_info_round_trip_witness :
  version_tuple (parse_openssl_version 268439647) = [1; 0; 1; 5; 15]
  /\ (parse_openssl_version 268439647 = parse_openssl_version 268439647 ->
      268439647 = 268439647).
Proof.
  split; [reflexivity|].
  refine (proj2 (proj2 (proj2
            (version_info_round_trip 268439647 268439647 _ _))));
    cbn; lia.
Defined.

(** X15.  Comparing two version tuples as Python compares tuples gives the
    same answer as comparing the two version numbers. *)
Theorem version_tuple_order_is_numeric_order :
  forall a b : Z,
    0 <= a < 2 ^ 36 -> 0 <= b < 2 ^ 36 ->
    tuple_lt (version_tuple (parse_openssl_version a))
             (version_tuple (parse_openssl_version b))
    = (a <? b).
Proof.
  intros a b Ha Hb.
  destruct (version_fields a (proj1 Ha)) as [Hfa Hra].
  destruct (version_fields b (proj1 Hb)) as [Hfb Hrb].
  cbv zeta in Hfa, Hra, Hfb, Hrb.
  rewrite Z.mod_small in Hra, Hrb by assumption.
  unfold version_tuple, tuple_lt.
  set (va := parse_openssl_version a) in *.
  set (vb := parse_openssl_version b) in *.
  repeat match goal with
         | |- context [?x <? ?y] => destruct (Z.ltb_spec x y)
         | |- context [?x =? ?y] => destruct (Z.eqb_spec x y)
         end; cbn; try reflexivity; exfalso; lia.
Qed.

Lemma version_tuple_order_is_numeric_order_witness :
  tuple_lt [0; 9; 8; 15; 15] [1; 0; 1; 5; 15] = true.
Proof.
  refine (version_tuple_order_is_numeric_order 9470207 268439647 _ _);
    cbn; lia.
Defined.

(** ** The context *)

Lemma set_verify_mode_accepted :
  forall (self : PySSLContext) (n : Z),
    0 <= n <= 2 ->
    snd (set_verify_mode self (Some n)) = Returns 0
    /\ get_verify_mode (fst (set_verify_mode self (Some n)))
       = Returns (PyLong n)
    /\ ctx_options (ctx (fst (set_verify_mode self (Some n))))
       = ctx_options (ctx self).
Proof.
  intros self n Hn.
  assert (Hcases : n = 0 \/ n = 1 \/ n = 2) by lia.
  destruct Hcases as [-> | [-> | ->]]; repeat split; reflexivity.
Qed.

Lemma set_verify_mode_rejected :
  forall (self : PySSLContext) (arg : option Z),
    match arg with Some n => ~ 0 <= n <= 2 | None => True end ->
    fst (set_verify_mode self arg) = self
    /\ snd (set_verify_mode self arg) <> Returns 0.
Proof.
  intros self [n|] Hn; [|split; [reflexivity | discriminate]].
  unfold set_verify_mode, PY_SSL_CERT_NONE, PY_SSL_CERT_OPTIONAL,
    PY_SSL_CERT_REQUIRED.
  destruct (Z.eqb_spec n 0); [lia|]. destruct (Z.eqb_spec n 1); [lia|].
  destruct (Z.eqb_spec n 2); [lia|]. split; [reflexivity | discriminate].
Qed.

(** X16.  Assigning one of the three certificate requirements to
    [verify_mode] and reading it back gives the value assigned, and the
    options of the context are not touched; any other integer is refused
    with a ValueError and leaves the context as it was. *)
Theorem verify_mode_round_trip :
  forall (self : PySSLContext) (n : Z),
    (0 <= n <= 2 ->
     snd (set_verify_mode self (Some n)) = Returns 0
     /\ get_verify_mode (fst (set_verify_mode self (Some n)))
        = Returns (PyLong n)
     /\ get_options (fst (set_verify_mode self (Some n))) = get_options self)
    /\ (~ 0 <= n <= 2 ->
        set_verify_mode self (Some n)
        = (self, Raises (PyErr_SetString PyExc_ValueError
                           "invalid value for verify_mode"))).
Proof.
  intros self n. split.
  - intros Hn. destruct (set_verify_mode_accepted self n Hn) as (Hr & Hg & Ho).
    unfold get_options. now rewrite Ho.
  - intros Hn.
    unfold set_verify_mode, PY_SSL_CERT_NONE, PY_SSL_CERT_OPTIONAL,
      PY_SSL_CERT_REQUIRED.
    destruct (Z.eqb_spec n 0); [lia|]. destruct (Z.eqb_spec n 1); [lia|].
    destruct (Z.eqb_spec n 2); [lia|]. reflexivity.
Qed.

Lemma verify_mode_round_trip_witness :
  get_verify_mode (fst (set_verify_mode a_context (Some 2)))
  = Returns (PyLong 2)
  /\ fst (set_verify_mode a_context (Some 7)) = a_context.
Proof.
  split.
  - refine (proj1 (proj2 (proj1 (verify_mode_round_trip a_context 2) _))).
    lia.
  - refine (f_equal fst (proj2 (verify_mode_round_trip a_context 7) _)).
    lia.
Defined.

Lemma context_new_returns :
  forall (B : build) (SSL_CTX_new : SSL_METHOD -> option SSL_CTX)
         (proto_version : Z) (self : PySSLContext),
    context_new B SSL_CTX_new (Some proto_version) = Returns self ->
    supported_protocol B proto_version = true
    /\ exists (method : SSL_METHOD) (fresh : SSL_CTX),
         SSL_CTX_new method = Some fresh
         /\ self
            = {| ctx :=
                   {| ctx_verify_mode := SSL_VERIFY_NONE;
                      ctx_options :=
                        Z.lor (ctx_options fresh)
                          (Z.land (SSL_OP_ALL B)
                             (Z.lnot SSL_OP_DONT_INSERT_EMPTY_FRAGMENTS));
                      ctx_sid_ctx := SID_CTX;
                      ctx_servername_callback :=
                        ctx_servername_callback fresh |};
                 npn_protocols := None; npn_protocols_len := 0;
                 set_hostname := None |}.
Proof.
  intros B new p self. unfold context_new, supported_protocol,
    PY_SSL_VERSION_SSL2, PY_SSL_VERSION_SSL3, PY_SSL_VERSION_SSL23,
    PY_SSL_VERSION_TLS1, PY_SSL_VERSION_TLS1_1, PY_SSL_VERSION_TLS1_2.
  destruct (HAVE_TLSv1_2 B), (OPENSSL_NO_SSL2 B); cbn [andb negb orb];
    repeat match goal with
           | |- context [?x =? ?y] => destruct (Z.eqb_spec x y); try lia
           end;
    subst; cbn [andb negb orb]; try discriminate;
    match goal with
    | |- context [new ?m] =>
        destruct (new m) as [fresh|] eqn:Hnew; [|discriminate];
        intros [= <-]; split; [reflexivity|];
        exists m, fresh; split; [exact Hnew | reflexivity]
    end.
Qed.

(** X17.  A context is created exactly for the protocol numbers the build
    has a method for, provided the engine allocates one; any other number
    gives a ValueError whatever the engine would do.  However the engine
    sets up a new context, the one returned verifies no certificate, has
    no server name hook, keeps every option the engine had switched on,
    and has the option against inserting empty fragments only if the
    engine had switched it on itself. *)
Theorem context_new_defaults :
  forall (B : build) (SSL_CTX_new : SSL_METHOD -> option SSL_CTX)
         (proto_version : Z),
    (supported_protocol B proto_version = false ->
     context_new B SSL_CTX_new (Some proto_version)
     = Raises (PyErr_SetString PyExc_ValueError "invalid protocol version"))
    /\ (forall self : PySSLContext,
           context_new B SSL_CTX_new (Some proto_version) = Returns self ->
           supported_protocol B proto_version = true
           /\ get_verify_mode self = Returns (PyLong PY_SSL_CERT_NONE)
           /\ set_hostname self = None
           /\ exists (method : SSL_METHOD) (fresh : SSL_CTX),
                SSL_CTX_new method = Some fresh
                /\ (forall i : Z,
                       Z.testbit (ctx_options fresh) i = true ->
                       Z.testbit (ctx_options (ctx self)) i = true)
                /\ Z.testbit (ctx_options (ctx self)) 11
                   = Z.testbit (ctx_options fresh) 11).
Proof.
  intros B new p. split.
  - unfold context_new, supported_protocol,
      PY_SSL_VERSION_SSL2, PY_SSL_VERSION_SSL3, PY_SSL_VERSION_SSL23,
      PY_SSL_VERSION_TLS1, PY_SSL_VERSION_TLS1_1, PY_SSL_VERSION_TLS1_2.
    destruct (HAVE_TLSv1_2 B), (OPENSSL_NO_SSL2 B); cbn [andb negb orb];
      repeat match goal with
             | |- context [?x =? ?y] => destruct (Z.eqb_spec x y); try lia
             end;
      cbn [andb negb orb]; try discriminate; reflexivity.
  - intros self Hnew.
    destruct (context_new_returns B new p self Hnew)
      as (Hsup & method & fresh & Hfresh & ->).
    split; [exact Hsup|]. split; [reflexivity|]. split; [reflexivity|].
    exists method, fresh. split; [exact Hfresh|].
    cbn [ctx ctx_options]. split.
    + intros i Hi. rewrite Z.lor_spec, Hi. reflexivity.
    + rewrite Z.lor_spec, Z.land_spec.
      unfold SSL_OP_DONT_INSERT_EMPTY_FRAGMENTS.
      replace (Z.testbit (Z.lnot 2048) 11) with false by reflexivity.
      now rewrite andb_false_r, orb_false_r.
Qed.

Lemma context_new_defaults_witness :
  context_new a_build an_SSL_CTX_new (Some 0)
  = Raises (PyErr_SetString PyExc_ValueError "invalid protocol version")
  /\ exists self,
       context_new a_build an_SSL_CTX_new (Some 5) = Returns self
       /\ get_verify_mode self = Returns (PyLong PY_SSL_CERT_NONE).
Proof.
  split.
  - exact (proj1 (context_new_defaults a_build an_SSL_CTX_new 0) eq_refl).
  - eexists. split; [reflexivity|].
    exact (proj1 (proj2 (proj2 (context_new_defaults a_build an_SSL_CTX_new 5)
                                 _ eq_refl))).
Defined.

Lemma set_verify_modes_last :
  forall (args : list (option Z)) (self : PySSLContext) (n : Z),
    get_verify_mode self = Returns (PyLong n) ->
    get_verify_mode (set_verify_modes self args)
    = Returns (PyLong (last (requirements args) n))
    /\ get_options (set_verify_modes self args) = get_options self
    /\ set_hostname (set_verify_modes self args) = set_hostname self.
Proof.
  unfold set_verify_modes.
  induction args as [|arg args IH]; intros self n Hget.
  - cbn. auto.
  - cbn [fold_left requirements flat_map].
    assert (Hcase : (exists m, arg = Some m /\ 0 <= m <= 2)
                    \/ match arg with
                       | Some m => ~ 0 <= m <= 2
                       | None => True
                       end).
    { destruct arg as [m|]; [|now right].
      destruct (Z_le_dec 0 m); [|right; lia].
      destruct (Z_le_dec m 2); [left; eauto | right; lia]. }
    destruct Hcase as [(m & -> & Hm) | Hrej].
    + destruct (set_verify_mode_accepted self m Hm) as (_ & Hg & Ho).
      destruct (IH _ m Hg) as (IHg & IHo & IHh).
      replace ((0 <=? m) && (m <=? 2)) with true
        by (symmetry; apply andb_true_intro; split; lia).
      split; [|split].
      * rewrite IHg. cbn [app]. f_equal. f_equal.
        fold (requirements args).
        destruct (requirements args) as [|r rs]; [reflexivity|].
        clear. revert r. induction rs as [|r' rs IHr]; intros r;
          [reflexivity|]. cbn [last] in *. apply IHr.
      * rewrite IHo. unfold get_options. now rewrite Ho.
      * rewrite IHh.
        assert (Hcases : m = 0 \/ m = 1 \/ m = 2) by lia.
        destruct Hcases as [-> | [-> | ->]]; reflexivity.
    + destruct (set_verify_mode_rejected self arg Hrej) as [-> _].
      replace (match arg with
               | Some n0 => if (0 <=? n0) && (n0 <=? 2) then [n0] else []
               | None => []
               end) with (@nil Z).
      * cbn [app]. now apply IH.
      * destruct arg as [m|]; [|reflexivity].
        destruct (Z.leb_spec 0 m), (Z.leb_spec m 2); cbn; try reflexivity.
        lia.
Qed.

(** X18.  On a context made by the constructor, whatever is then assigned
    to [verify_mode], accepted or refused, reading it never fails: it
    gives the last accepted requirement, or CERT_NONE when none was
    accepted.  The engine's mode stays one of the three the getter
    knows. *)
Theorem verify_mode_stays_readable :
  forall (B : build) (SSL_CTX_new : SSL_METHOD -> option SSL_CTX)
         (proto_version : Z) (self : PySSLContext) (args : list (option Z)),
    context_new B SSL_CTX_new (Some proto_version) = Returns self ->
    get_verify_mode (set_verify_modes self args)
    = Returns (PyLong (last (requirements args) PY_SSL_CERT_NONE))
    /\ get_options (set_verify_modes self args) = get_options self.
Proof.
  intros B new p self args Hnew.
  destruct (context_new_returns B new p self Hnew)
    as (_ & method & fresh & _ & ->).
  match goal with
  | |- context [set_verify_modes ?s args] =>
      destruct (set_verify_modes_last args s PY_SSL_CERT_NONE eq_refl)
        as (Hg & Ho & _)
  end.
  split; assumption.
Qed.

Lemma verify_mode_stays_readable_witness :
  exists self,
    context_new a_build an_SSL_CTX_new (Some 2) = Returns self
    /\ get_verify_mode
         (set_verify_modes self [Some 2; Some 9; None; Some 1; Some (-1)])
       = Returns (PyLong 1).
Proof.
  eexists. split; [reflexivity|].
  exact (proj1 (verify_mode_stays_readable a_build an_SSL_CTX_new 2 _
                  [Some 2; Some 9; None; Some 1; Some (-1)] eq_refl)).
Defined.

(** X19.  On a build with server name indication, once the arguments of
    [set_servername_callback] are parsed the engine has the module's
    callback installed exactly when the context holds a hook.  A callable
    becomes the hook that answers the next client hello; None removes the
    hook; an object that is not callable raises a TypeError, and the hook
    registered before is removed all the same.  Without server name
    indication the method raises NotImplementedError and changes
    nothing. *)
Theorem set_servername_callback_registers :
  forall (B : build) (P : platform) (self : PySSLContext) (cb : servername_cb)
         (ssl : PySSLSocket) (servername : option string),
    let after := fst (set_servername_callback B self (Some cb)) in
    let answer := snd (set_servername_callback B self (Some cb)) in
    (HAVE_SNI B && negb (OPENSSL_NO_TLSEXT B) = true ->
     ctx_servername_callback (ctx after) = has_hook after
     /\ ctx_verify_mode (ctx after) = ctx_verify_mode (ctx self)
     /\ ctx_options (ctx after) = ctx_options (ctx self)
     /\ match cb with
        | cb_callable hook =>
            answer = Returns Py_None
            /\ servername_of_hello P after ssl servername
               = _servername_callback P (Some hook) ssl servername
        | cb_None =>
            answer = Returns Py_None
            /\ servername_of_hello P after ssl servername
               = {| sni_ret := SSL_TLSEXT_ERR_OK; sni_al := None |}
        | cb_not_callable _ =>
            answer = Raises (PyErr_SetString PyExc_TypeError
                               "not a callable object")
            /\ servername_of_hello P after ssl servername
               = {| sni_ret := SSL_TLSEXT_ERR_OK; sni_al := None |}
        end)
    /\ (HAVE_SNI B && negb (OPENSSL_NO_TLSEXT B) = false ->
        after = self /\ exists msg, answer = Raises_NotImplementedError msg).
Proof.
  intros B P self cb ssl servername. cbv zeta.
  unfold set_servername_callback. split; intros Hsni; rewrite Hsni.
  - destruct cb; cbn; repeat split; reflexivity.
  - split; [reflexivity | eexists; reflexivity].
Qed.

Lemma set_servername_callback_registers_witness :
  servername_of_hello a_platform
    (fst (set_servername_callback a_build a_context
            (Some (cb_callable a_hook))))
    (a_channel (Some a_live_socket)) (Some "example.org")
  = {| sni_ret := SSL_TLSEXT_ERR_ALERT_FATAL; sni_al := Some 112 |}.
Proof.
  exact (proj2 (proj2 (proj2 (proj2
           (proj1 (set_servername_callback_registers a_build a_platform
                     a_context (cb_callable a_hook)
                     (a_channel (Some a_live_socket)) (Some "example.org"))
              eq_refl))))).
Defined.

(** ** Creating a channel *)


(** X21.  From the constructor to the certificate: on a context that was
    created and whose [verify_mode] was never assigned, a channel wrapped
    around a socket and taken through a successful handshake in which the
    peer presented a certificate answers a request for the certificate
    with the empty dictionary, and a request for its binary form with the
    DER encoding.  The engine's connection is taken to report the
    verification mode of the context it was made from. *)
Theorem unverified_context_gives_empty_certificate :
  forall (B : build) (P : platform)
         (SSL_CTX_new : SSL_METHOD -> option SSL_CTX)
         (SSL_new : SSL_CTX -> SSL) (uninitialised proto_version : Z)
         (context : PySSLContext) (sock : PySocketSockObject)
         (server_side : Z) (hostname : hostname_arg)
         (channel : PySSLSocket) (made : list setup_call)
         (script : list engine_step) (certificate : X509),
    (forall c, SSL_CTX_get_verify_mode (SSL_new c) = ctx_verify_mode c) ->
    context_new B SSL_CTX_new (Some proto_version) = Returns context ->
    context_wrap_socket B SSL_new uninitialised context
      (Some (sock, server_side, hostname)) = Returns (channel, made) ->
    result (PySSL_SSLdo_handshake P channel script) = Ok Py_None ->
    SSL_get_peer_certificate (ssl channel) = Some certificate ->
    let connected := self_after (PySSL_SSLdo_handshake P channel script) in
    PySSL_peercert connected (Some false) = Some (PyDict [])
    /\ PySSL_peercert connected (Some true) = _certificate_to_der certificate.
Proof.
  intros B P new SSL_new uninitialised p context sock server_side hostname
    channel made script certificate Hengine Hnew Hwrap Hok Hcert.
  cbv zeta.
  pose proof (handshake_caches_certificate P channel script Hok) as Hcached.
  rewrite Hcert in Hcached.
  assert (Hssl : ssl (self_after (PySSL_SSLdo_handshake P channel script))
                 = ssl channel).
  { unfold PySSL_SSLdo_handshake.
    destruct (Socket channel); [|reflexivity].
    destruct (handshake_loop P p0 script) as [exit log].
    destruct exit as [st| |e|]; try reflexivity.
    destruct (st_ret st <? 1); reflexivity. }
  assert (Hmode : SSL_CTX_get_verify_mode (ssl channel) = SSL_VERIFY_NONE).
  { destruct (context_new_returns B new p context Hnew)
      as (_ & method & fresh & _ & ->).
    unfold context_wrap_socket in Hwrap.
    destruct hostname as [|name|]; [| |discriminate].
    - injection Hwrap as <- _. cbn [ssl]. now rewrite Hengine.
    - destruct (negb (HAVE_SNI B)); [discriminate|].
      injection Hwrap as <- _. cbn [ssl]. now rewrite Hengine. }
  unfold PySSL_peercert. rewrite Hcached, Hssl, Hmode. split; reflexivity.
Qed.

Lemma unverified_context_gives_empty_certificate_witness :
  exists connected,
    PySSL_peercert connected (Some false) = Some (PyDict [])
    /\ PySSL_peercert connected (Some true) = Some (PyBytes [48; 130]).
Proof.
  pose (new_ssl := fun c : SSL_CTX =>
                     {| SSL_get_peer_certificate := Some a_certificate;
                        SSL_CTX_get_verify_mode := ctx_verify_mode c;
                        SSL_pending := 0 |}).
  eexists.
  refine (unverified_context_gives_empty_certificate a_build a_platform
            an_SSL_CTX_new new_ssl 0 2 _ a_live_socket 0
            hostname_absent_or_None _ _ [a_step] a_certificate
            (fun c => eq_refl) eq_refl eq_refl eq_refl eq_refl).
Defined.

(** ** Channel binding *)

Lemma finished_message_copied :
  forall (message stack : list Z),
    Z.of_nat (List.length message) <= PySSL_CB_MAXLEN ->
    firstn (Z.to_nat (Z.of_nat (List.length message)))
      (firstn (Z.to_nat PySSL_CB_MAXLEN) message ++ stack)
    = message.
Proof.
  intros message stack Hlen. rewrite Nat2Z.id.
  rewrite (firstn_all2 (n := Z.to_nat PySSL_CB_MAXLEN) message) by lia.
  rewrite firstn_app, firstn_all, Nat.sub_diag. cbn. apply app_nil_r.
Qed.

(** X22.  The two ends of one connection compute the same channel binding:
    when each end's engine holds the Finished message it sent and the one
    its peer sent, and both know whether the session was resumed, the
    client and the server get the same value, namely the Finished message
    that went first over the wire (the client's in a full handshake, the
    server's in a resumed one), and None as long as that message is
    empty. *)
Theorem tls_unique_agrees_on_both_ends :
  forall (client server : PySSLSocket) (reused : Z)
         (client_finished server_finished stack stack' : list Z),
    socket_type client = PY_SSL_CLIENT ->
    socket_type server = PY_SSL_SERVER ->
    reused = 0 \/ reused = 1 ->
    Z.of_nat (List.length client_finished) <= PySSL_CB_MAXLEN ->
    Z.of_nat (List.length server_finished) <= PySSL_CB_MAXLEN ->
    let at_client :=
      {| SSL_session_reused := reused;
         SSL_get_finished := client_finished;
         SSL_get_peer_finished := server_finished |} in
    let at_server :=
      {| SSL_session_reused := reused;
         SSL_get_finished := server_finished;
         SSL_get_peer_finished := client_finished |} in
    let first := if reused =? 0 then client_finished else server_finished in
    PySSL_tls_unique_cb client at_client stack
    = PySSL_tls_unique_cb server at_server stack'
    /\ PySSL_tls_unique_cb client at_client stack
       = match first with [] => Py_None | _ => PyBytes first end.
Proof.
  intros client server reused client_finished server_finished stack stack'
    Hclient Hserver Hreused Hc Hs. cbv zeta.
  assert (Hcb : forall message st,
             Z.of_nat (List.length message) <= PySSL_CB_MAXLEN ->
             (if Z.of_nat (List.length message) =? 0 then Py_None
              else PyBytes
                     (firstn (Z.to_nat (Z.of_nat (List.length message)))
                        (firstn (Z.to_nat PySSL_CB_MAXLEN) message ++ st)))
             = match message with [] => Py_None | _ => PyBytes message end).
  { intros message st Hlen. rewrite (finished_message_copied _ _ Hlen).
    destruct message; reflexivity. }
  unfold PySSL_tls_unique_cb. rewrite Hclient, Hserver.
  cbn [SSL_session_reused SSL_get_finished SSL_get_peer_finished].
  destruct Hreused as [-> | ->]; cbn [Z.lxor Z.eqb negb Pos.lxor Pos.eqb];
    rewrite !Hcb by assumption; split; reflexivity.
Qed.

Lemma tls_unique_agrees_on_both_ends_witness :
  PySSL_tls_unique_cb (a_channel None)
    {| SSL_session_reused := 1; SSL_get_finished := [7; 7];
       SSL_get_peer_finished := [1; 2; 3] |} []
  = PyBytes [1; 2; 3].
Proof.
  refine (proj2 (tls_unique_agrees_on_both_ends (a_channel None)
                   {| Socket := None; ssl := no_engine; peer_cert := None;
                      shutdown_seen_zero := 0; socket_type := PY_SSL_SERVER |}
                   1 [7; 7] [1; 2; 3] [] [9] eq_refl eq_refl
                   (or_intror eq_refl) _ _));
    unfold PySSL_CB_MAXLEN; cbn; lia.
Defined.

(** ** The certificate store *)

Lemma cert_store_count_spec :
  forall (check : X509 -> Z) (objs : list X509_OBJECT) (n : store_stats),
    stat_x509 (cert_store_count check objs n)
    = stat_x509 n + count_of is_certificate objs
    /\ stat_crl (cert_store_count check objs n)
       = stat_crl n + count_of is_revocation_list objs
    /\ stat_ca (cert_store_count check objs n)
       = stat_ca n + Z.of_nat (List.length (ca_certificates check objs)).
Proof.
  unfold count_of. intros check.
  induction objs as [|obj objs IH]; intros n.
  - cbn. lia.
  - cbn [cert_store_count]. 
    match goal with
    | |- context [cert_store_count check objs ?m] =>
        destruct (IH m) as (-> & -> & ->)
    end.
    cbn [ca_certificates flat_map filter].
    fold (ca_certificates check objs).
    destruct obj as [cert| | |type];
      cbn [is_certificate is_revocation_list stat_x509 stat_crl stat_ca
           List.length app].
    + destruct (check cert =? 0); cbn [negb List.length app]; lia.
    + lia.
    + lia.
    + lia.
Qed.

Lemma get_ca_certs_loop_spec :
  forall (check : X509 -> Z) (binary_mode : bool) (objs : list X509_OBJECT)
         (rlist : list PyObject),
    get_ca_certs_loop check binary_mode objs rlist
    = option_map (app rlist)
        (render_all (if binary_mode then _certificate_to_der
                     else _decode_certificate)
           (ca_certificates check objs)).
Proof.
  intros check binary_mode.
  induction objs as [|obj objs IH]; intros rlist.
  - cbn. now rewrite app_nil_r.
  - cbn [get_ca_certs_loop ca_certificates flat_map].
    fold (ca_certificates check objs).
    destruct obj as [cert| | |type]; cbn [app]; try apply IH.
    destruct (check cert =? 0); cbn [app]; [apply IH|].
    cbn [render_all].
    destruct binary_mode;
      [destruct (_certificate_to_der cert) as [ci|]
      |destruct (_decode_certificate cert) as [ci|]];
      try reflexivity;
      rewrite IH;
      (destruct (render_all _ (ca_certificates check objs)) as [os|];
       [|reflexivity]);
      cbn; now rewrite <- app_assoc.
Qed.

Lemma render_all_length :
  forall render certs os,
    render_all render certs = Some os ->
    List.length os = List.length certs.
Proof.
  intros render. induction certs as [|cert certs IH]; intros os.
  - intros [= <-]. reflexivity.
  - cbn. destruct (render cert); [|discriminate].
    destruct (render_all render certs) as [os'|]; [|discriminate].
    intros [= <-]. cbn. f_equal. now apply IH.
Qed.

Lemma render_all_fails :
  forall render certs,
    render_all render certs = None
    <-> exists cert, In cert certs /\ render cert = None.
Proof.
  intros render. induction certs as [|cert certs IH].
  - cbn. split; [discriminate | intros (c & [] & _)].
  - cbn [render_all]. destruct (render cert) as [o|] eqn:Hr.
    + destruct (render_all render certs) as [os|].
      * split; [discriminate|]. intros (c & [<- | Hin] & Hc); [congruence|].
        assert (Habs : Some os = None) by (apply (proj2 IH); eauto).
        discriminate Habs.
      * split; [|reflexivity]. intros _.
        destruct (proj1 IH eq_refl) as (c & Hin & Hc).
        exists c. split; [now right | exact Hc].
    + split; [|reflexivity]. intros _. exists cert. split; [now left | exact Hr].
Qed.

(** X23.  The two views of a context's certificate store agree.  The
    statistics count the certificates, the revocation lists and, among the
    certificates, those of an authority; the list of authority
    certificates has exactly as many entries as that last count says, in
    the order of the store, each rendered as DER or as a dictionary; it
    fails as a whole exactly when one authority certificate cannot be
    rendered.  There are never more authority certificates than
    certificates. *)
Theorem ca_certs_agree_with_store_stats :
  forall (X509_check_ca : X509 -> Z) (objs : list X509_OBJECT)
         (binary_mode : bool),
    let render := if binary_mode then _certificate_to_der
                  else _decode_certificate in
    let authorities := ca_certificates X509_check_ca objs in
    cert_store_stats X509_check_ca objs
    = PyDict [("x509", PyLong (count_of is_certificate objs));
              ("crl", PyLong (count_of is_revocation_list objs));
              ("x509_ca", PyLong (Z.of_nat (List.length authorities)))]
    /\ Z.of_nat (List.length authorities) <= count_of is_certificate objs
    /\ get_ca_certs X509_check_ca objs (Some binary_mode)
       = render_all render authorities
    /\ (forall rlist,
           get_ca_certs X509_check_ca objs (Some binary_mode) = Some rlist ->
           List.length rlist = List.length authorities)
    /\ (get_ca_certs X509_check_ca objs (Some binary_mode) = None
        <-> exists cert,
              In (X509_LU_X509 cert) objs
              /\ X509_check_ca cert <> 0 /\ render cert = None).
Proof.
  intros check objs binary_mode. cbv zeta.
  assert (Hget : get_ca_certs check objs (Some binary_mode)
                 = render_all (if binary_mode then _certificate_to_der
                               else _decode_certificate)
                     (ca_certificates check objs)).
  { unfold get_ca_certs. rewrite get_ca_certs_loop_spec.
    destruct (render_all _ _); reflexivity. }
  assert (Hin : forall cert,
             In cert (ca_certificates check objs)
             <-> In (X509_LU_X509 cert) objs /\ check cert <> 0).
  { intros cert. unfold ca_certificates. rewrite in_flat_map. split.
    - intros (obj & Hobj & Hc). destruct obj as [c| | |t]; try contradiction.
      destruct (Z.eqb_spec (check c) 0); [contradiction|].
      destruct Hc as [<- | []]. auto.
    - intros [Hobj Hc]. exists (X509_LU_X509 cert). split; [exact Hobj|].
      destruct (Z.eqb_spec (check cert) 0); [contradiction | now left]. }
  split; [|split; [|split; [|split]]].
  - unfold cert_store_stats.
    match goal with
    | |- context [cert_store_count check objs ?m] =>
        destruct (cert_store_count_spec check objs m) as (-> & -> & ->)
    end.
    reflexivity.
  - unfold count_of, ca_certificates. clear.
    induction objs as [|obj objs IH]; [cbn; lia|].
    cbn [flat_map filter]. rewrite length_app.
    destruct obj as [c| | |t]; cbn [is_certificate List.length]; try lia.
    destruct (check c =? 0); cbn [List.length]; lia.
  - exact Hget.
  - intros rlist. rewrite Hget. apply render_all_length.
  - rewrite Hget, render_all_fails. split.
    + intros (cert & Hc & Hr). exists cert. apply Hin in Hc. tauto.
    + intros (cert & Hobj & Hc & Hr). exists cert. split; [|exact Hr].
      apply Hin. auto.
Qed.

Lemma ca_certs_agree_with_store_stats_witness :
  get_ca_certs a_CA_check
    [X509_LU_CRL; X509_LU_X509 a_certificate; X509_LU_other 5] (Some true)
  = Some [PyBytes [48; 130]]
  /\ List.length [PyBytes [48; 130]]
     = List.length
         (ca_certificates a_CA_check
            [X509_LU_CRL; X509_LU_X509 a_certificate; X509_LU_other 5]).
Proof.
  split; [reflexivity|].
  exact (proj1 (proj2 (proj2 (proj2
           (ca_certs_agree_with_store_stats a_CA_check
              [X509_LU_CRL; X509_LU_X509 a_certificate; X509_LU_other 5]
              true)))) [PyBytes [48; 130]] eq_refl).
Defined.

(** ** Passwords and files *)

Lemma pwinfo_set_consistent :
  forall pw_info password bad_type_error pw_info',
    _pwinfo_set pw_info password bad_type_error = (pw_info', None) ->
    pw_info_consistent pw_info'
    /\ pw_size pw_info' <= INT_MAX
    /\ pw_error pw_info' = pw_error pw_info
    /\ (forall data, password = pw_bytes data -> pw_password pw_info' = Some data).
Proof.
  intros pw_info password bad_type_error pw_info'. unfold _pwinfo_set.
  destruct password as [[data|e]|data|data|]; try discriminate;
    (destruct (Z.ltb_spec INT_MAX (Z.of_nat (List.length data)));
     [discriminate|]; intros [= <-];
     repeat split; try assumption; intros d [= ->]; reflexivity).
Qed.

Lemma pwinfo_set_failed :
  forall pw_info password bad_type_error pw_info' e,
    _pwinfo_set pw_info password bad_type_error = (pw_info', Some e) ->
    pw_info' = pw_info.
Proof.
  intros pw_info password bad_type_error pw_info' e. unfold _pwinfo_set.
  destruct password as [[data|e']|data|data|];
    try (destruct (INT_MAX <? Z.of_nat (List.length data)));
    intros [= <- _]; reflexivity.
Qed.

(** X24.  The password callback never hands the engine more bytes than the
    buffer holds.  On a structure whose size is the length of its
    password, it either returns -1, stores nothing, leaves an exception
    and sets the error flag, or it returns the length of the password,
    which is at most the size of the buffer, stores exactly the password
    and leaves the flag alone.  A password that a callable returns as
    bytes and that fits is stored as it is. *)
Theorem password_callback_fits_buffer :
  forall (size : Z) (userdata : _PySSLPasswordInfo),
    pw_info_consistent userdata ->
    let r := _password_callback size userdata in
    pw_info_consistent (pc_info r)
    /\ ((pc_return r = -1 /\ pc_buf r = None /\ pc_raised r <> None
         /\ pw_error (pc_info r) = 1)
        \/ (pc_return r = Z.of_nat (List.length (password_of (pc_info r)))
            /\ pc_return r <= size
            /\ pc_buf r = Some (password_of (pc_info r))
            /\ pc_raised r = None
            /\ pw_error (pc_info r) = pw_error userdata))
    /\ (forall data,
           pw_callable userdata = Some (inl (pw_bytes data)) ->
           Z.of_nat (List.length data) <= Z.min size INT_MAX ->
           pc_return r = Z.of_nat (List.length data)
           /\ pc_buf r = Some data).
Proof.
  intros size userdata Hcons. cbv zeta.
  assert (Hcopy : forall pw_info,
             pw_info_consistent pw_info ->
             firstn (Z.to_nat (pw_size pw_info)) (password_of pw_info)
             = password_of pw_info).
  { intros pw_info H. rewrite H, Nat2Z.id. apply firstn_all. }
  unfold _password_callback.
  destruct (pw_callable userdata) as [[fn_ret|e]|] eqn:Hcall.
  - destruct (_pwinfo_set userdata fn_ret
                "password callback must return a string")
      as [pw_info [e|]] eqn:Hset.
    + pose proof (pwinfo_set_failed _ _ _ _ _ Hset) as ->.
      split; [exact Hcons|]. split.
      * left. cbn. repeat split; discriminate.
      * intros data [= ->] Hfit.
        exfalso. revert Hset. unfold _pwinfo_set.
        destruct (Z.ltb_spec INT_MAX (Z.of_nat (List.length data)));
          [lia | discriminate].
    + destruct (pwinfo_set_consistent _ _ _ _ Hset) as (Hc & _ & He & Hd).
      fold (password_of pw_info).
      destruct (Z.ltb_spec size (pw_size pw_info)) as [Hlong|Hfits].
      * split; [exact Hc|]. split.
        -- left. cbn. repeat split; discriminate.
        -- intros data [= ->] Hfit. exfalso.
           specialize (Hd data eq_refl). unfold pw_info_consistent in Hc.
           unfold password_of in Hc. rewrite Hd in Hc. lia.
      * split; [exact Hc|]. split.
        -- right. cbn [pc_return pc_buf pc_info pc_raised].
           rewrite (Hcopy _ Hc). repeat split; try assumption.
        -- intros data [= ->] Hfit. specialize (Hd data eq_refl).
           cbn [pc_return pc_buf]. rewrite (Hcopy _ Hc).
           unfold pw_info_consistent in Hc. unfold password_of in *.
           rewrite Hd in *. split; [exact Hc | reflexivity].
  - split; [exact Hcons|]. split.
    + left. cbn. repeat split; discriminate.
    + discriminate.
  - fold (password_of userdata).
    destruct (Z.ltb_spec size (pw_size userdata)) as [Hlong|Hfits].
    + split; [exact Hcons|]. split.
      * left. cbn. repeat split; discriminate.
      * discriminate.
    + split; [exact Hcons|]. split.
      * right. cbn [pc_return pc_buf pc_info pc_raised].
        rewrite (Hcopy _ Hcons). repeat split; try assumption.
      * discriminate.
Qed.

Lemma password_callback_fits_buffer_witness :
  pc_buf (_password_callback 1024
            {| pw_callable := Some (inl (pw_bytes [115; 101; 99]));
               pw_password := None; pw_size := 0; pw_error := 0 |})
  = Some [115; 101; 99].
Proof.
  refine (proj2 (proj2 (proj2
            (password_callback_fits_buffer 1024
               {| pw_callable := Some (inl (pw_bytes [115; 101; 99]));
                  pw_password := None; pw_size := 0; pw_error := 0 |}
               eq_refl)) [115; 101; 99] eq_refl _)).
  unfold INT_MAX. cbn. lia.
Defined.

Lemma file_setSSLError_spec :
  forall P queue lineno returns made,
    let r := file_setSSLError P queue lineno returns made in
    cr_return r = returns
    /\ cr_queue r = []
    /\ cr_calls r
       = made ++ [call_error_report call_ERR_peek_last_error;
                  call_error_report call_ERR_clear_error]
    /\ exists e,
         cr_raised r = Some (Python_exception e)
         /\ exc_type e = PySSLErrorObject
         /\ exc_errno e = Some (cast_int (ERR_peek_last_error queue)).
Proof.
  intros. repeat split. eexists. repeat split.
Qed.

(** X25.  [load_verify_locations] asks the engine nothing unless it has at
    least one location: with both omitted, or None, it raises a TypeError
    at once.  With locations it passes them on, NULL for the omitted one;
    it returns None exactly when the engine answers 1, and otherwise
    raises with the error queue left empty: an OSError carrying errno when
    errno is set, else an SSLError whose number is the last error of the
    queue narrowed to a C int, so that a code of 2^31 or more comes out
    negative. *)
Theorem load_verify_locations_outcome :
  forall (P : platform) (queue : list Z) (cafile capath : path_arg)
         (answer : engine_answer),
    let r := load_verify_locations P queue (Some (cafile, capath)) answer in
    (cafile = path_omitted -> capath = path_omitted ->
     r = {| cr_return := None;
            cr_raised :=
              Some (Python_exception
                      (PyErr_SetString PyExc_TypeError
                         "cafile and capath cannot be both omitted"));
            cr_queue := queue; cr_calls := [] |})
    /\ (path_buf cafile <> None \/ path_buf capath <> None ->
        cafile <> path_rejected -> capath <> path_rejected ->
        hd_error (cr_calls r)
        = Some (call_SSL_CTX_load_verify_locations (path_buf cafile)
                  (path_buf capath))
        /\ (ea_ret answer = 1 ->
            cr_return r = Some Py_None /\ cr_raised r = None
            /\ cr_queue r = ea_queue answer)
        /\ (ea_ret answer <> 1 ->
            cr_return r = None /\ cr_queue r = []
            /\ (ea_errno answer <> 0 ->
                cr_raised r = Some (OSError_from_errno (ea_errno answer)))
            /\ (ea_errno answer = 0 ->
                exists e,
                  cr_raised r = Some (Python_exception e)
                  /\ exc_type e = PySSLErrorObject
                  /\ exc_errno e
                     = Some (cast_int (ERR_peek_last_error (ea_queue answer)))))).
Proof.
  intros P queue cafile capath answer. cbv zeta. split.
  - intros -> ->. reflexivity.
  - intros Hsome Hca Hcp.
    assert (Hrun :
              load_verify_locations P queue (Some (cafile, capath)) answer
              = let made :=
                  [call_SSL_CTX_load_verify_locations (path_buf cafile)
                     (path_buf capath)] in
                if negb (ea_ret answer =? 1) then
                  if negb (ea_errno answer =? 0) then
                    {| cr_return := None;
                       cr_raised :=
                         Some (OSError_from_errno (ea_errno answer));
                       cr_queue := [];
                       cr_calls := made ++ [call_file_ERR_clear_error] |}
                  else file_setSSLError P (ea_queue answer) 2335 None made
                else
                  {| cr_return := Some Py_None; cr_raised := None;
                     cr_queue := ea_queue answer; cr_calls := made |}).
    { destruct cafile, capath; try reflexivity; try congruence.
      cbn in Hsome. destruct Hsome; congruence. }
    rewrite Hrun. cbv zeta.
    destruct (Z.eqb_spec (ea_ret answer) 1) as [Hret|Hret]; cbn [negb].
    + split; [reflexivity|]. split; [auto | intros H; now elim H].
    + destruct (Z.eqb_spec (ea_errno answer) 0) as [Herrno|Herrno];
        cbn [negb].
      * destruct (file_setSSLError_spec P (ea_queue answer) 2335 None
                    [call_SSL_CTX_load_verify_locations (path_buf cafile)
                       (path_buf capath)]) as (Hr & Hq & Hc & e & He).
        cbv zeta in Hr, Hq, Hc, He.
        split; [rewrite Hc; reflexivity|].
        split; [intros H; now elim Hret|]. intros _.
        split; [exact Hr|]. split; [exact Hq|].
        split; [intros H; now elim H|]. intros _. exists e. exact He.
      * split; [reflexivity|].
        split; [intros H; now elim Hret|]. intros _.
        split; [reflexivity|]. split; [reflexivity|].
        split; [reflexivity | intros H; now elim Herrno].
Qed.

Lemma load_verify_locations_outcome_witness :
  cr_raised (load_verify_locations a_platform [5]
               (Some (path_converted "ca.pem", path_omitted)) (a_failure 2 [7]))
  = Some (OSError_from_errno 2)
  /\ cr_calls (load_verify_locations a_platform [5]
                 (Some (path_omitted, path_omitted)) (an_answer 1)) = []
  /\ exists e,
       cr_raised (load_verify_locations a_platform [5]
                    (Some (path_converted "ca.pem", path_omitted))
                    (a_failure 0 [7; 2147483649]))
       = Some (Python_exception e)
       /\ exc_errno e = Some (-2147483647).
Proof.
  split; [|split].
  - refine (proj1 (proj2 (proj2
              (proj2 (proj2
                (proj2 (load_verify_locations_outcome a_platform [5]
                          (path_converted "ca.pem") path_omitted
                          (a_failure 2 [7])) _ _ _)) _))) _);
      cbn; try discriminate; try (left; discriminate).
  - exact (f_equal cr_calls
             (proj1 (load_verify_locations_outcome a_platform [5]
                       path_omitted path_omitted (an_answer 1))
                eq_refl eq_refl)).
  - assert (Hsome : path_buf (path_converted "ca.pem") <> None
                    \/ path_buf path_omitted <> None)
      by (left; discriminate).
    assert (Hca : path_converted "ca.pem" <> path_rejected) by discriminate.
    assert (Hcp : path_omitted <> path_rejected) by discriminate.
    assert (Hret : ea_ret (a_failure 0 [7; 2147483649]) <> 1) by discriminate.
    destruct (proj2 (proj2 (proj2
                (proj2 (proj2
                  (proj2 (load_verify_locations_outcome a_platform [5]
                            (path_converted "ca.pem") path_omitted
                            (a_failure 0 [7; 2147483649])) Hsome Hca Hcp))
                  Hret))) eq_refl)
      as (e & Hraised & _ & Herrno).
    exists e. split; [exact Hraised | exact Herrno].
Defined.

(** X26.  [load_dh_params] returns None whenever the parameters could be
    read from the file, also when the engine then refuses them: in that
    case the SSLError whose number is the last error of the queue,
    narrowed to a C int, is set and stays pending although the method did
    not fail.  In every other
    case an exception is pending exactly when the method returned NULL. *)
Theorem load_dh_params_reports_refusal_late :
  forall (P : platform) (queue : list Z) (f : dh_file)
         (set_tmp_dh : engine_answer),
    let r := load_dh_params P queue f set_tmp_dh in
    (cr_return r = Some Py_None <-> exists answer, f = dh_read true answer)
    /\ (cr_return r = None -> cr_raised r <> None)
    /\ ((exists answer, f = dh_read true answer) ->
        (ea_ret set_tmp_dh = 0 ->
         cr_queue r = []
         /\ exists e,
              cr_raised r = Some (Python_exception e)
              /\ exc_type e = PySSLErrorObject
              /\ exc_errno e
                 = Some (cast_int (ERR_peek_last_error (ea_queue set_tmp_dh))))
        /\ (ea_ret set_tmp_dh <> 0 -> cr_raised r = None)).
Proof.
  intros P queue f set_tmp_dh. cbv zeta. unfold load_dh_params.
  destruct f as [[e|] errno | [|] answer].
  - split; [split; [discriminate | intros [a Ha]; discriminate]|].
    split; [discriminate | intros [a Ha]; discriminate].
  - split; [split; [discriminate | intros [a Ha]; discriminate]|].
    split; [discriminate | intros [a Ha]; discriminate].
  - destruct (Z.eqb_spec (ea_ret set_tmp_dh) 0) as [Hret|Hret].
    + destruct (file_setSSLError_spec P (ea_queue set_tmp_dh) 2370
                  (Some Py_None)
                  [call_PEM_read_DHparams; call_SSL_CTX_set_tmp_dh])
        as (Hr & Hq & Hc & e & He). cbv zeta in Hr, Hq, Hc, He.
      split; [split; [eauto | intros _; exact Hr]|].
      split; [rewrite Hr; discriminate|]. intros _.
      split; [|intros H; now elim H]. intros _.
      split; [exact Hq | exists e; exact He].
    + split; [split; [eauto | reflexivity]|].
      split; [discriminate|]. intros _.
      split; [intros H; now elim Hret | reflexivity].
  - destruct (negb (ea_errno answer =? 0)).
    + split; [split; [discriminate | intros [a Ha]; discriminate]|].
      split; [discriminate | intros [a Ha]; discriminate].
    + destruct (file_setSSLError_spec P (ea_queue answer) 2365 None
                  [call_PEM_read_DHparams]) as (Hr & Hq & Hc & e & He).
      cbv zeta in Hr, Hq, Hc, He.
      split; [split; [rewrite Hr; discriminate
                     | intros [a Ha]; discriminate]|].
      split; [intros _; destruct He as [-> _]; discriminate
             | intros [a Ha]; discriminate].
Qed.

Lemma load_dh_params_reports_refusal_late_witness :
  cr_return (load_dh_params a_platform [] (dh_read true (an_answer 1))
               (a_failure 0 [9])) = Some Py_None
  /\ exists e,
       cr_raised (load_dh_params a_platform [] (dh_read true (an_answer 1))
                    (a_failure 0 [9])) = Some (Python_exception e)
       /\ exc_errno e = Some 9.
Proof.
  split; [reflexivity|].
  destruct (proj1 (proj2 (proj2
              (load_dh_params_reports_refusal_late a_platform []
                 (dh_read true (an_answer 1)) (a_failure 0 [9])))
              (ex_intro _ (an_answer 1) eq_refl)) eq_refl)
    as (_ & e & Hraised & _ & Herrno).
  exists e. split; [exact Hraised | exact Herrno].
Defined.

(** X27.  [load_cert_chain] leaves the password callback of the context as
    it found it, on every path: whatever it installed for the time of the
    call is taken out again.  A NULL return always comes with an
    exception and an empty error queue.  The certificate chain is read
    from [certfile] and the private key from [keyfile] or, without one,
    from [certfile] again; the module's callback is installed only when a
    password was passed.  When the password callable raised while the
    engine read the certificate chain and the engine then fails, the
    exception of the callable is the one that comes out, whatever errno
    and the error queue hold. *)
Theorem load_cert_chain_restores_callback :
  forall (P : platform)
         (args : option (option string * path_arg * password_arg))
         (chain key : chain_answer) (check : engine_answer),
    let r := load_cert_chain P args chain key check in
    module_callback_installed false (cr_calls r) = false
    /\ (cr_return r = None -> cr_raised r <> None /\ cr_queue r = [])
    /\ (forall certfile keyfile password,
           args = Some (Some certfile, keyfile, password) ->
           (forall file,
               In (call_SSL_CTX_use_certificate_chain_file file) (cr_calls r) ->
               file = certfile)
           /\ (forall file,
                  In (call_SSL_CTX_use_PrivateKey_file file) (cr_calls r) ->
                  file = key_file_of certfile keyfile)
           /\ (In (call_SSL_CTX_set_default_passwd_cb true) (cr_calls r) ->
               password <> password_omitted)
           /\ (forall e,
                  password = password_callable ->
                  keyfile <> path_rejected ->
                  ca_callback chain = Some e ->
                  ea_ret (ca_answer chain) <> 1 ->
                  cr_return r = None
                  /\ cr_raised r = Some (Python_exception e))).
Proof.
  intros P args chain key check. cbv zeta.
  remember (load_cert_chain P args chain key check) as r eqn:Hr.
  unfold load_cert_chain, key_file_of, file_setSSLError in Hr.
  assert (Hinj : forall (A : Prop) (c c' : string) (k k' : path_arg)
                        (p p' : password_arg),
             (c = c' -> k = k' -> p = p' -> A) ->
             Some (Some c, k, p) = Some (Some c', k', p') -> A).
  { intros A c c' k k' p p' H [= -> -> ->]. now apply H. }
  destruct args as [[[[certfile|] keyfile] password]|];
    [| subst r; cbn; repeat split; discriminate
     | subst r; cbn; repeat split; discriminate].
  destruct keyfile as [|keyfile_bytes|];
    (destruct password as [| |o];
     [| |destruct (_pwinfo_set
                     {| pw_callable := None; pw_password := None;
                        pw_size := 0; pw_error := 0 |} o
                     "password should be a string or callable")
            as [pw_info [e|]]]);
    repeat (cbn in Hr;
            match type of Hr with
            | _ = (if negb (?x =? ?y) then _ else _) =>
                destruct (Z.eqb_spec x y)
            | _ = match ca_callback ?a with _ => _ end =>
                destruct (ca_callback a) eqn:?
            | context [ca_callback ?a] => destruct (ca_callback a) eqn:?
            end);
    subst r; cbn;
    (split; [reflexivity|]);
    (split; [intros Hnull; (split; [discriminate | reflexivity])
                           || discriminate Hnull|]);
    intros certfile' keyfile' password';
    apply Hinj; intros <- <- <-; unfold key_file_of;
    (split; [intros file; intuition congruence|]);
    (split; [intros file; intuition congruence|]);
    (split; [intuition congruence|]);
    intros e' Hp Hk He Hret; try discriminate; try congruence;
    split; congruence.
Qed.

Lemma load_cert_chain_restores_callback_witness :
  cr_raised
    (load_cert_chain a_platform
       (Some (Some "cert.pem", path_omitted, password_callable))
       {| ca_answer := a_failure 2 [7]; ca_callback := Some interrupted |}
       {| ca_answer := an_answer 1; ca_callback := None |} (an_answer 1))
  = Some (Python_exception interrupted).
Proof.
  refine (proj2 (proj2 (proj2 (proj2 (proj2 (proj2
            (load_cert_chain_restores_callback a_platform
               (Some (Some "cert.pem", path_omitted, password_callable))
               {| ca_answer := a_failure 2 [7];
                  ca_callback := Some interrupted |}
               {| ca_answer := an_answer 1; ca_callback := None |}
               (an_answer 1)))
            "cert.pem" path_omitted password_callable eq_refl)))
            interrupted eq_refl _ eq_refl _)); discriminate.
Defined.

(** X28.  None of the four methods [set_ciphers],
    [load_verify_locations], [load_dh_params] and [load_cert_chain]
    returns NULL without an exception set; and when the engine was put to
    work before the failure, its error queue is empty afterwards, so that
    the failure is not reported again by the next call into the engine. *)
Theorem failed_context_methods_clear_queue :
  forall (P : platform) (queue : list Z) (answer set_tmp_dh check : engine_answer)
         (chain key : chain_answer) (ciphers : option string)
         (locations : option (path_arg * path_arg)) (f : dh_file)
         (files : option (option string * path_arg * password_arg))
         (r : context_ran),
    In r [set_ciphers queue ciphers answer;
          load_verify_locations P queue locations answer;
          load_dh_params P queue f set_tmp_dh;
          load_cert_chain P files chain key check] ->
    cr_return r = None ->
    cr_raised r <> None
    /\ (existsb is_file_work (cr_calls r) = true -> cr_queue r = []).
Proof.
  intros P queue answer set_tmp_dh check chain key ciphers locations f files
    r Hin Hnull.
  cbn [In] in Hin. destruct Hin as [<- | [<- | [<- | [<- | []]]]].
  - revert Hnull. unfold set_ciphers. destruct ciphers as [cipherlist|].
    + destruct (ea_ret answer =? 0); cbn; [|discriminate].
      intros _. split; [discriminate | reflexivity].
    + cbn. intros _. split; discriminate.
  - revert Hnull. unfold load_verify_locations, file_setSSLError.
    destruct locations as [[[|cafile|] [|capath|]]|];
      try (cbn; intros _; split; discriminate);
      (destruct (negb (ea_ret answer =? 1)); [|discriminate]);
      (destruct (negb (ea_errno answer =? 0)); cbn; intros _;
       (split; [discriminate | reflexivity])).
  - revert Hnull. unfold load_dh_params, file_setSSLError.
    destruct f as [[e|] errno | [|] read].
    + cbn. intros _. split; discriminate.
    + cbn. intros _. split; discriminate.
    + destruct (ea_ret set_tmp_dh =? 0); discriminate.
    + destruct (negb (ea_errno read =? 0)); cbn; intros _;
        (split; [discriminate | reflexivity]).
  - remember (load_cert_chain P files chain key check) as r eqn:Hr.
    unfold load_cert_chain, file_setSSLError in Hr.
    destruct files as [[[[certfile|] keyfile] password]|];
      [| subst r; cbn; split; [discriminate | reflexivity]
       | subst r; cbn; split; [discriminate | reflexivity]].
    destruct keyfile as [|keyfile_bytes|];
      (destruct password as [| |o];
       [| |destruct (_pwinfo_set
                       {| pw_callable := None; pw_password := None;
                          pw_size := 0; pw_error := 0 |} o
                       "password should be a string or callable")
              as [pw_info [e|]]]);
      repeat (cbn in Hr;
              match type of Hr with
              | _ = (if negb (?x =? ?y) then _ else _) =>
                  destruct (Z.eqb_spec x y)
              | _ = match ca_callback ?a with _ => _ end =>
                  destruct (ca_callback a) eqn:?
              | context [ca_callback ?a] => destruct (ca_callback a) eqn:?
              end);
      subst r; try discriminate Hnull; cbn;
      (split; [discriminate | reflexivity]).
Qed.

Lemma failed_context_methods_clear_queue_witness :
  cr_queue (set_ciphers [3] (Some "NONE") (a_failure 0 [3; 4])) = [].
Proof.
  refine (proj2 (failed_context_methods_clear_queue a_platform [3]
                   (a_failure 0 [3; 4]) (an_answer 1) (an_answer 1)
                   {| ca_answer := an_answer 1; ca_callback := None |}
                   {| ca_answer := an_answer 1; ca_callback := None |}
                   (Some "NONE") None (dh_not_opened None 2) None
                   (set_ciphers [3] (Some "NONE") (a_failure 0 [3; 4]))
                   (or_introl eq_refl) eq_refl) eq_refl).
Defined.

(** ** Next protocol negotiation *)

(** X29.  What [_set_npn_protocols] stores is what the two callbacks hand
    to the engine: after a list of protocols of at most INT_MAX bytes was
    set, the advertise callback yields exactly these bytes with their
    length, and the select callback chooses among exactly these; setting a
    new list replaces the old one.  As long as no list is set both work
    with the empty list.  The engine's context and the server name hook
    are not touched, and on a build without the extension the method
    raises NotImplementedError and changes nothing. *)
Theorem npn_protocols_round_trip :
  forall (B : build) (self : PySSLContext) (protos : list Z)
         (select : list Z -> Z -> list Z -> Z -> list Z)
         (server : list Z) (server_len : Z),
    let after := fst (fst (_set_npn_protocols B self (Some protos))) in
    (OPENSSL_NPN_NEGOTIATED B = true ->
     Z.of_nat (List.length protos) <= INT_MAX ->
     _advertiseNPN_cb after
     = (protos, Z.of_nat (List.length protos), SSL_TLSEXT_ERR_OK)
     /\ _selectNPN_cb select server server_len after
        = (select server server_len protos (Z.of_nat (List.length protos)),
           SSL_TLSEXT_ERR_OK)
     /\ ctx after = ctx self /\ set_hostname after = set_hostname self
     /\ _set_npn_protocols B self (Some protos)
        = (after, Returns Py_None, true))
    /\ (OPENSSL_NPN_NEGOTIATED B = false ->
        exists msg,
          _set_npn_protocols B self (Some protos)
          = (self, Raises_NotImplementedError msg, false))
    /\ (npn_protocols self = None ->
        _advertiseNPN_cb self = ([], 0, SSL_TLSEXT_ERR_OK)
        /\ _selectNPN_cb select server server_len self
           = (select server server_len [] 0, SSL_TLSEXT_ERR_OK)).
Proof.
  intros B self protos select server server_len. cbv zeta.
  unfold _set_npn_protocols. split; [|split].
  - intros -> Hlen. cbn [fst].
    assert (Hcast : cast_unsigned
                      (cast_int (Z.of_nat (List.length protos)))
                    = Z.of_nat (List.length protos)).
    { unfold cast_unsigned, cast_int, INT_MAX in *.
      change (2 ^ 31) with 2147483648. change (2 ^ 32) with 4294967296.
      rewrite (Z.mod_small (Z.of_nat (List.length protos) + 2147483648))
        by lia.
      rewrite Z.mod_small; lia. }
    unfold _advertiseNPN_cb, _selectNPN_cb.
    cbn [npn_protocols npn_protocols_len ctx set_hostname].
    rewrite Hcast. repeat split.
  - intros ->. eexists. reflexivity.
  - intros Hnone. unfold _advertiseNPN_cb, _selectNPN_cb. rewrite Hnone.
    split; reflexivity.
Qed.

Lemma npn_protocols_round_trip_witness :
  _advertiseNPN_cb
    (fst (fst (_set_npn_protocols a_build a_context
                 (Some [2; 104; 50; 8; 104; 116; 116; 112; 47; 49; 46; 49]))))
  = ([2; 104; 50; 8; 104; 116; 116; 112; 47; 49; 46; 49], 12,
     SSL_TLSEXT_ERR_OK)
  /\ _advertiseNPN_cb a_context = ([], 0, SSL_TLSEXT_ERR_OK).
Proof.
  split.
  - refine (proj1 (proj1 (npn_protocols_round_trip a_build a_context
                            [2; 104; 50; 8; 104; 116; 116; 112; 47; 49; 46; 49]
                            (fun _ _ client _ => client) [] 0)
                     eq_refl _)).
    unfold INT_MAX. cbn. lia.
  - exact (proj1 (proj2 (proj2 (npn_protocols_round_trip a_build a_context []
                                  (fun _ _ client _ => client) [] 0))
                    eq_refl)).
Defined.

(** ** Alternative names *)

Lemma strchr_colon_spec :
  forall buf : string,
    match strchr_colon buf with
    | None => has_colon buf = false
    | Some (before, after) =>
        buf = (before ++ ":" ++ after)%string /\ has_colon before = false
    end.
Proof.
  intros buf. induction buf as [|c rest IH]; [cbn; reflexivity|].
  cbn [strchr_colon has_colon].
  destruct (Ascii.eqb_spec c ":"%char) as [->|Hc].
  - split; reflexivity.
  - destruct (strchr_colon rest) as [[before after]|].
    + destruct IH as [-> Hno]. split; [reflexivity|].
      cbn [has_colon]. rewrite Hno.
      destruct (Ascii.eqb_spec c ":"%char); [contradiction | reflexivity].
    + exact IH.
Qed.

Lemma alt_names_of_extension_spec :
  forall decode warning_raises names acc,
    match alt_names_of_extension decode warning_raises names acc with
    | inl l =>
        exists items,
          l = acc ++ items
          /\ Forall2 (fun name t =>
                        alt_name_tuple decode warning_raises name = inl t)
               names items
    | inr exception_set =>
        exists name,
          In name names
          /\ alt_name_tuple decode warning_raises name = inr exception_set
    end.
Proof.
  intros decode warning_raises.
  induction names as [|name names IH]; intros acc.
  - cbn. exists []. split; [now rewrite app_nil_r | constructor].
  - cbn [alt_names_of_extension].
    destruct (alt_name_tuple decode warning_raises name) as [t|b] eqn:Ht.
    + specialize (IH (acc ++ [t])).
      destruct (alt_names_of_extension decode warning_raises names
                  (acc ++ [t])) as [l|b].
      * destruct IH as (items & -> & Hall). exists (t :: items).
        split; [now rewrite <- app_assoc | now constructor].
      * destruct IH as (n & Hin & Hn). exists n. split; [now right | exact Hn].
    + exists name. split; [now left | exact Ht].
Qed.

Lemma alt_names_loop_spec :
  forall decode warning_raises exts acc,
    match alt_names_loop decode warning_raises exts acc with
    | inl None => exts = [] /\ acc = None
    | inl (Some l) =>
        (exts <> [] \/ acc <> None)
        /\ exists items,
             l = match acc with Some l0 => l0 | None => [] end ++ items
             /\ Forall2 (fun name t =>
                           alt_name_tuple decode warning_raises name = inl t)
                  (all_alt_names exts) items
    | inr exception_set =>
        (exception_set = true /\ In None exts)
        \/ exists name,
             In name (all_alt_names exts)
             /\ alt_name_tuple decode warning_raises name = inr exception_set
    end.
Proof.
  intros decode warning_raises.
  induction exts as [|ext exts IH]; intros acc.
  - cbn. destruct acc as [l|]; [|auto].
    split; [right; discriminate|]. exists [].
    split; [now rewrite app_nil_r | constructor].
  - cbn [alt_names_loop all_alt_names flat_map].
    fold (all_alt_names exts).
    destruct ext as [names|]; [|left; split; [reflexivity | now left]].
    pose proof (alt_names_of_extension_spec decode warning_raises names
                  match acc with Some l => l | None => [] end) as Hext.
    destruct (alt_names_of_extension decode warning_raises names
                match acc with Some l => l | None => [] end) as [l|b].
    + destruct Hext as (items & -> & Hitems).
      specialize (IH (Some (match acc with Some l => l | None => [] end
                            ++ items))).
      destruct (alt_names_loop decode warning_raises exts
                  (Some (match acc with Some l => l | None => [] end
                         ++ items))) as [[l|]|b].
      * destruct IH as (_ & items' & -> & Hitems').
        split; [left; discriminate|]. exists (items ++ items').
        split; [now rewrite app_assoc | now apply Forall2_app].
      * destruct IH as [_ Habs]. discriminate Habs.
      * destruct IH as [[-> Hin] | (n & Hin & Hn)].
        -- left. split; [reflexivity | now right].
        -- right. exists n. split; [|exact Hn].
           apply in_or_app. now right.
    + destruct Hext as (n & Hin & Hn). right. exists n.
      split; [|exact Hn]. apply in_or_app. now left.
Qed.

(** X30.  The alternative names of a certificate are None exactly when the
    certificate has no subjectAltName extension; with at least one
    occurrence, even an empty one, they are a tuple holding one pair for
    every name of every occurrence, in order.  A name printed by the
    engine is cut at its first colon: the text before it, which holds no
    colon, and the text after it are the two halves of the pair.  The
    function returns NULL without an exception only when the print form
    of some name holds no colon at all; every other failure sets one. *)
Theorem peer_alt_names_outcome :
  forall (decode : string -> option string) (warning_raises : bool)
         (exts : list (option (list GENERAL_NAME))),
    match _get_peer_alt_names decode warning_raises exts with
    | alt_names_are v =>
        (v = Py_None <-> exts = [])
        /\ (exts <> [] ->
            exists items,
              v = PyTuple items
              /\ Forall2 (fun name t =>
                            alt_name_tuple decode warning_raises name = inl t)
                   (all_alt_names exts) items)
    | alt_names_fail false =>
        exists gntype buf,
          In (GEN_printed gntype (Some buf)) (all_alt_names exts)
          /\ has_colon buf = false
    | alt_names_fail true =>
        In None exts
        \/ exists name,
             In name (all_alt_names exts)
             /\ alt_name_tuple decode warning_raises name = inr true
    end
    /\ (forall gntype buf t,
           alt_name_tuple decode warning_raises (GEN_printed gntype (Some buf))
           = inl t ->
           exists before after k v,
             buf = (before ++ ":" ++ after)%string
             /\ has_colon before = false
             /\ decode before = Some k /\ decode after = Some v
             /\ t = PyTuple [PyUnicode k; PyUnicode v]).
Proof.
  intros decode warning_raises exts. split.
  - unfold _get_peer_alt_names.
    pose proof (alt_names_loop_spec decode warning_raises exts None) as Hloop.
    destruct (alt_names_loop decode warning_raises exts None) as [[l|]|b].
    + destruct Hloop as ([Hne | Habs] & items & -> & Hitems);
        [|now elim Habs].
      split; [split; [discriminate | contradiction]|].
      intros _. exists items. split; [reflexivity | exact Hitems].
    + destruct Hloop as [-> _]. split; [tauto|]. intros H. now elim H.
    + destruct b.
      * destruct Hloop as [[_ Hin] | Hname]; [now left | now right].
      * destruct Hloop as [[Habs _] | (name & Hin & Hname)];
          [discriminate|].
        assert (Hform : exists gntype buf,
                   name = GEN_printed gntype (Some buf)
                   /\ has_colon buf = false).
        { revert Hname. unfold alt_name_tuple.
          destruct name as [dirn|as_|as_|as_|gntype [buf|]];
            try (destruct (_create_tuple_for_X509_NAME dirn); discriminate);
            try (destruct (decode as_); discriminate).
          - destruct (negb _ && warning_raises); [discriminate|].
            pose proof (strchr_colon_spec buf) as Hcolon.
            destruct (strchr_colon buf) as [[before after]|].
            + destruct (decode before), (decode after); discriminate.
            + intros _. now exists gntype, buf.
          - destruct (negb _ && warning_raises); discriminate. }
        destruct Hform as (gntype & buf & -> & Hcolon).
        now exists gntype, buf.
  - intros gntype buf t. unfold alt_name_tuple.
    destruct (negb _ && warning_raises); [discriminate|].
    pose proof (strchr_colon_spec buf) as Hcolon.
    destruct (strchr_colon buf) as [[before after]|]; [|discriminate].
    destruct Hcolon as [-> Hno].
    destruct (decode before) as [k|] eqn:Hk; [|discriminate].
    destruct (decode after) as [v|] eqn:Hv; [|discriminate].
    intros [= <-]. exists before, after, k, v. auto.
Qed.

Lemma peer_alt_names_outcome_witness :
  _get_peer_alt_names Some false
    [Some [GEN_DNS "example.org";
           GEN_printed GEN_IPADD (Some "IP Address:192.0.2.1")]; Some []]
  = alt_names_are
      (PyTuple [PyTuple [PyUnicode "DNS"; PyUnicode "example.org"];
                PyTuple [PyUnicode "IP Address"; PyUnicode "192.0.2.1"]])
  /\ _get_peer_alt_names Some false
       [Some [GEN_printed GEN_RID (Some "Registered ID1.2.3.4")]]
     = alt_names_fail false
  /\ exists before after,
       "IP Address:192.0.2.1" = (before ++ ":" ++ after)%string
       /\ has_colon before = false.
Proof.
  split; [reflexivity|]. split; [reflexivity|].
  destruct (proj2 (peer_alt_names_outcome Some false []) GEN_IPADD
              "IP Address:192.0.2.1"
              (PyTuple [PyUnicode "IP Address"; PyUnicode "192.0.2.1"])
              eq_refl)
    as (before & after & k & v & Hbuf & Hno & _).
  exists before, after. split; assumption.
Defined.
